(** * Revision replay and revision lookup of [document_revision.py]

    A shallow embedding of
    [google/cloud/documentai_toolbox/wrappers/document_revision.py]:
    the replay loop [_modify_docproto], the chain construction of
    [DocumentWithRevisions.from_gcs_prefix_with_revisions] and the lookup
    [DocumentWithRevisions.at_revision].

    Python objects that are mutated in place live in an explicit state:
    the two local lists of [_modify_docproto] in [mstate], the
    [DocumentWithRevisions] objects in a heap addressed by allocation
    order.  A computation returns an [outcome] together with the state it
    left behind, so what an exception leaves half-done stays visible. *)

From Stdlib Require Import ZArith Lia Ascii String.
From stdpp Require Import base list strings.

Local Open Scope Z_scope.

(** ** Outcomes and the state-and-exception monad *)

(** The exceptions the modelled code can raise: [IndexError] from
    [list.pop] and list subscription, [ValueError] from [int(...)],
    [OverflowError] from [list.pop] given an index that does not fit a C
    [ssize_t]. *)
Inductive exn : Type :=
| IndexError
| ValueError
| OverflowError.

(** [Undef] is not a Python result: it marks a run of the model that
    exhausted its fuel or followed a reference to no object. *)
Inductive outcome (A : Type) : Type :=
| Ret (a : A)
| Raise (e : exn)
| Undef.
Arguments Ret {A} a.
Arguments Raise {A} e.
Arguments Undef {A}.

Definition M (S A : Type) : Type := S -> outcome A * S.

Definition ret {S A} (a : A) : M S A := fun s => (Ret a, s).

Definition bind {S A B} (c : M S A) (k : A -> M S B) : M S B :=
  fun s =>
    match c s with
    | (Ret a, s') => k a s'
    | (Raise e, s') => (Raise e, s')
    | (Undef, s') => (Undef, s')
    end.

Definition raise {S A} (e : exn) : M S A := fun s => (Raise e, s).
Definition undef {S A} : M S A := fun s => (Undef, s).
Definition gets {S A} (f : S -> A) : M S A := fun s => (Ret (f s), s).
Definition modify {S} (f : S -> S) : M S unit := fun s => (Ret tt, f s).

Declare Scope py_scope.
Delimit Scope py_scope with py.
Notation "'let*' x ':=' c 'in' k" := (bind c (fun x => k))
  (at level 10, x pattern, c at level 100, k at level 200) : py_scope.
Notation "c '>>' k" := (bind c (fun _ => k))
  (at level 100, k at level 200, right associativity) : py_scope.
Local Open Scope py_scope.

(** A Python [for x in xs: body(x)] whose body has no [break]. *)
Fixpoint for_each {S A} (body : A -> M S unit) (xs : list A) : M S unit :=
  match xs with
  | [] => ret tt
  | x :: xs' => body x >> for_each body xs'
  end.

(** ** Python list indexing *)

(** The position a Python index denotes in a list of length [n]: a
    negative index counts from the end, anything outside [-n .. n-1]
    denotes nothing. *)
Definition norm_index (n : nat) (i : Z) : option nat :=
  let j := if i <? 0 then i + Z.of_nat n else i in
  if (0 <=? j) && (j <? Z.of_nat n) then Some (Z.to_nat j) else None.

(** [l[i]] *)
Definition list_getitem {A} (l : list A) (i : Z) : option A :=
  match norm_index (length l) i with
  | Some k => l !! k
  | None => None
  end.

(** [l.pop(i)]: the element and the list without it. *)
Definition list_pop {A} (l : list A) (i : Z) : option (A * list A) :=
  match norm_index (length l) i with
  | Some k =>
      match l !! k with
      | Some x => Some (x, delete k l)
      | None => None
      end
  | None => None
  end.

(** The bounds of a C [ssize_t] on a 64-bit build of CPython.
    [list.pop(i)] converts [i] to a [ssize_t] before it looks at the
    list and raises [OverflowError] when [i] does not fit; list
    subscription [l[i]] raises [IndexError] for such an [i] too. *)
Definition PY_SSIZE_T_MAX : Z := 9223372036854775807.
Definition PY_SSIZE_T_MIN : Z := -9223372036854775808.

Definition fits_ssize_t (i : Z) : bool :=
  (PY_SSIZE_T_MIN <=? i) && (i <=? PY_SSIZE_T_MAX).

(** ** The protobuf messages read by the module *)

Module documentai.

  (** [documentai.Document.Provenance.OperationType] *)
Inductive OperationType : Type :=
  | OPERATION_TYPE_UNSPECIFIED
  | ADD
  | REMOVE
  | UPDATE
  | REPLACE
  | EVAL_REQUESTED
  | EVAL_APPROVED
  | EVAL_SKIPPED.

#[global] Instance OperationType_eq_dec : EqDecision OperationType.
Proof. solve_decision. Defined.

  (** [_OP_TYPE(t).name] *)
Definition name (t : OperationType) : string :=
    match t with
    | OPERATION_TYPE_UNSPECIFIED => "OPERATION_TYPE_UNSPECIFIED"
    | ADD => "ADD"
    | REMOVE => "REMOVE"
    | UPDATE => "UPDATE"
    | REPLACE => "REPLACE"
    | EVAL_REQUESTED => "EVAL_REQUESTED"
    | EVAL_APPROVED => "EVAL_APPROVED"
    | EVAL_SKIPPED => "EVAL_SKIPPED"
    end.

  (** [documentai.Document.Entity], with the fields the module reads;
      [provenance_type_] is [e.provenance.type_]. *)
Record Entity : Type := mkEntity {
    id : string;
    type_ : string;
    mention_text : string;
    provenance_type_ : OperationType
  }.

#[global] Instance Entity_eq_dec : EqDecision Entity.
Proof. solve_decision. Defined.

  (** [documentai.Document.Revision]: [id] and [parent]. *)
Record Revision : Type := mkRevision {
    rev_id : string;
    parent : list Z
  }.

  (** [documentai.Document]: text, pages (opaque bytes here), entities
      and revisions. *)
Record Document : Type := mkDocument {
    text : string;
    pages : list string;
    entities : list Entity;
    revisions : list Revision
  }.

End documentai.

(** ** The wrapper classes imported from sibling modules *)

Module entity.

  (** [wrappers.entity.Entity], addressed by its position only. *)
Record Entity : Type := mkEntity {
    type_ : string;
    mention_text : string
  }.

#[global] Instance Entity_eq_dec : EqDecision Entity.
Proof. solve_decision. Defined.

  (** Modelled from the spec: the constructor of the wrapper class
      [Entity], whose module [wrappers/entity.py] is not among the
      sources.  [Entity(documentai_entity=e)] builds the entity from the
      operation's payload: its kind and its text. *)
Definition init (e : documentai.Entity) : Entity :=
    {| type_ := documentai.type_ e;
       mention_text := documentai.mention_text e |}.

  (** Modelled from the spec: the method [Entity.replace] of the same
      missing module.  [x.replace(documentai_entity=e)] overwrites the
      kind and the text of [x] with the payload's, in place. *)
Definition replace (x : Entity) (e : documentai.Entity) : Entity :=
    {| type_ := documentai.type_ e;
       mention_text := documentai.mention_text e |}.

End entity.

Module document.

  (** [wrappers.document.Document]: the shards carry the pages and the
      text. *)
Record Document : Type := mkDocument {
    shards : list documentai.Document;
    gcs_prefix : string;
    entities : list entity.Entity
  }.

  (** Modelled from the spec: the constructor of the wrapper class
      [Document], whose module [wrappers/document.py] is not among the
      sources.  A document built from base shards starts with an empty
      entity list. *)
Definition init (shards : list documentai.Document) (gcs_prefix : string)
    : Document :=
    {| shards := shards; gcs_prefix := gcs_prefix; entities := [] |}.

  (** [d.entities = ents] *)
Definition set_entities (ents : list entity.Entity) (d : Document)
    : Document :=
    {| shards := shards d; gcs_prefix := gcs_prefix d; entities := ents |}.

End document.

(** [copy.deepcopy]: values of the model are never shared, so a deep
    copy is the value itself. *)
Definition deepcopy {A} (x : A) : A := x.

(** ** History entries *)

(** The dict appended to [history]; the two [replace_*] keys exist only
    in the entry of a REPLACE. *)
Record HistoryEntry : Type := mkHistoryEntry {
  object_ : string;
  entity_provenance_type : string;
  original_entity : documentai.Entity;
  original_type : string;
  original_text : string;
  replace_type : option string;
  replace_text : option string
}.

#[global] Instance HistoryEntry_eq_dec : EqDecision HistoryEntry.
Proof. solve_decision. Defined.

(** ** [_modify_docproto] *)

(** The two local lists of [_modify_docproto]. *)
Record mstate : Type := mkMstate {
  entities_array : list entity.Entity;
  history : list HistoryEntry
}.

(** [entities_array.append(x)] *)
Definition entities_append (x : entity.Entity) : M mstate unit :=
  modify (fun st =>
    {| entities_array := entities_array st ++ [x]; history := history st |}).

(** [history.append(h)] *)
Definition history_append (h : HistoryEntry) : M mstate unit :=
  modify (fun st =>
    {| entities_array := entities_array st; history := history st ++ [h] |}).

(** [entities_array.pop(i)]: the index is converted first, then the
    list is looked at. *)
Definition entities_pop (i : Z) : M mstate entity.Entity :=
  fun st =>
    if fits_ssize_t i then
      match list_pop (entities_array st) i with
      | Some (x, l) => (Ret x, {| entities_array := l; history := history st |})
      | None => (Raise IndexError, st)
      end
    else (Raise OverflowError, st).

(** [entities_array[i].replace(documentai_entity=e)]: the subscription
    raises before anything is written. *)
Definition entities_replace (i : Z) (e : documentai.Entity) : M mstate unit :=
  fun st =>
    match norm_index (length (entities_array st)) i with
    | Some k =>
        (Ret tt,
         {| entities_array :=
              alter (fun x => entity.replace x e) k (entities_array st);
            history := history st |})
    | None => (Raise IndexError, st)
    end.

Section Replay.

  (** The builtin [int] applied to a string: [None] stands for
      [ValueError]. *)
Variable py_int : string -> option Z.

Definition int_of {S} (s : string) : M S Z :=
    match py_int s with
    | Some z => ret z
    | None => raise ValueError
    end.

  (** The body of the loop of [_modify_docproto], for one entity [e] of
      the revision. *)
Definition _modify_docproto_body (e : documentai.Entity) : M mstate unit :=
    let t := documentai.provenance_type_ e in
    if bool_decide (t = documentai.ADD)
       || bool_decide (t = documentai.OPERATION_TYPE_UNSPECIFIED)
    then
      entities_append (entity.init e) >>
      history_append
        {| object_ := "Entity";
           entity_provenance_type := documentai.name t;
           original_entity := e;
           original_type := documentai.type_ e;
           original_text := documentai.mention_text e;
           replace_type := None;
           replace_text := None |}
    else if bool_decide (t = documentai.REMOVE) then
      let* i := int_of (documentai.id e) in
      let* entity := entities_pop (i - 1) in
      history_append
        {| object_ := "Entity";
           entity_provenance_type := documentai.name t;
           original_entity := e;
           original_type := entity.type_ entity;
           original_text := entity.mention_text entity;
           replace_type := None;
           replace_text := None |}
    else if bool_decide (t = documentai.REPLACE) then
      history_append
        {| object_ := "Entity";
           entity_provenance_type := documentai.name t;
           original_entity := e;
           original_type := documentai.type_ e;
           original_text := documentai.mention_text e;
           replace_type := Some (documentai.type_ e);
           replace_text := Some (documentai.mention_text e) |} >>
      let* i := int_of (documentai.id e) in
      entities_replace (i - 1) e
    else ret tt.

  (** The loop of [_modify_docproto] from given contents of the two
      local lists. *)
Definition _modify_docproto_loop (entities : list documentai.Entity)
    : M mstate unit :=
    for_each _modify_docproto_body entities.

  (** [_modify_docproto(entities)]: both lists start empty. *)
Definition _modify_docproto (entities : list documentai.Entity)
    : outcome (list entity.Entity * list HistoryEntry) :=
    match _modify_docproto_loop entities
            {| entities_array := []; history := [] |} with
    | (Ret _, st) => Ret (entities_array st, history st)
    | (Raise x, _) => Raise x
    | (Undef, _) => Undef
    end.

  (** [_get_revised_documents(revision)] *)
Definition _get_revised_documents (revision : documentai.Document)
    : outcome (list entity.Entity * list HistoryEntry) :=
    _modify_docproto (documentai.entities revision).

End Replay.

(** An instance of [int] on plain decimal numerals with an optional sign,
    to run the model on concrete revisions. *)
Fixpoint digits_value (s : string) (acc : Z) : option Z :=
  match s with
  | EmptyString => Some acc
  | String c s' =>
      let n := Z.of_nat (nat_of_ascii c) in
      if (48 <=? n) && (n <=? 57)
      then digits_value s' (10 * acc + (n - 48))
      else None
  end.

Definition decimal_int (s : string) : option Z :=
  match s with
  | EmptyString => None
  | String "-"%char EmptyString => None
  | String "+"%char EmptyString => None
  | String "-"%char s' => Z.opp <$> digits_value s' 0
  | String "+"%char s' => digits_value s' 0
  | _ => digits_value s 0
  end.

Local Close Scope Z_scope.

(** ** The objects of class [DocumentWithRevisions] *)

(** A reference to a [DocumentWithRevisions] object: its rank in
    allocation order. *)
Abbreviation addr := nat.

Module DocumentWithRevisions.

Record t : Type := mk {
  document : document.Document;
  revision_nodes : list (list documentai.Revision);
  gcs_prefix : string;
  next_ : option addr;
  last : option addr;
  revision_id : option string;
  history : list HistoryEntry;
  root_revision : option addr
}.

(** The generated [__init__]: the fields declared [init=False] take
    their defaults. *)
Definition init (document : document.Document)
    (revision_nodes : list (list documentai.Revision)) (gcs_prefix : string)
  : t :=
  {| document := document; revision_nodes := revision_nodes;
     gcs_prefix := gcs_prefix; next_ := None; last := None;
     revision_id := None; history := []; root_revision := None |}.

Definition set_next_ (v : option addr) (x : t) : t :=
  {| document := document x; revision_nodes := revision_nodes x;
     gcs_prefix := gcs_prefix x; next_ := v; last := last x;
     revision_id := revision_id x; history := history x;
     root_revision := root_revision x |}.

Definition set_last (v : option addr) (x : t) : t :=
  {| document := document x; revision_nodes := revision_nodes x;
     gcs_prefix := gcs_prefix x; next_ := next_ x; last := v;
     revision_id := revision_id x; history := history x;
     root_revision := root_revision x |}.

Definition set_revision_id (v : option string) (x : t) : t :=
  {| document := document x; revision_nodes := revision_nodes x;
     gcs_prefix := gcs_prefix x; next_ := next_ x; last := last x;
     revision_id := v; history := history x;
     root_revision := root_revision x |}.

(** [x.history += h] *)
Definition extend_history (h : list HistoryEntry) (x : t) : t :=
  {| document := document x; revision_nodes := revision_nodes x;
     gcs_prefix := gcs_prefix x; next_ := next_ x; last := last x;
     revision_id := revision_id x; history := history x ++ h;
     root_revision := root_revision x |}.

End DocumentWithRevisions.

(** The objects allocated so far, and the class attribute
    [DocumentWithRevisions.root_revision] that the classmethod assigns. *)
Record store : Type := mkStore {
  heap : list DocumentWithRevisions.t;
  cls_root_revision : option addr
}.

Definition alloc (x : DocumentWithRevisions.t) : M store addr :=
  fun s =>
    (Ret (length (heap s)),
     {| heap := heap s ++ [x]; cls_root_revision := cls_root_revision s |}).

Definition deref (a : addr) : M store DocumentWithRevisions.t :=
  fun s =>
    match heap s !! a with
    | Some x => (Ret x, s)
    | None => (Undef, s)
    end.

(** An attribute assignment on the object at [a]. *)
Definition update (a : addr)
    (f : DocumentWithRevisions.t -> DocumentWithRevisions.t) : M store unit :=
  fun s =>
    match heap s !! a with
    | Some x =>
        (Ret tt,
         {| heap := <[a := f x]> (heap s);
            cls_root_revision := cls_root_revision s |})
    | None => (Undef, s)
    end.

Definition set_cls_root_revision (v : option addr) : M store unit :=
  modify (fun s => {| heap := heap s; cls_root_revision := v |}).

Definition lift {S A} (o : outcome A) : M S A := fun s => (o, s).

(** [l[i]] as a computation *)
Definition getitem {S A} (l : list A) (i : Z) : M S A :=
  match list_getitem l i with
  | Some x => ret x
  | None => raise IndexError
  end.

(** ** [DocumentWithRevisions.from_gcs_prefix_with_revisions] *)

Section Chain.

Variable py_int : string -> option Z.

(** One turn of the loop [for rev in revs]; [immutable_revision_doc] is
    the loop-carried variable, returned with its new value. *)
Definition build_body (immutable_doc : document.Document)
    (revisions : list (list documentai.Revision)) (gcs_prefix : string)
    (immutable_revision_doc : addr) (rev : documentai.Document)
  : M store addr :=
  let copied_doc := deepcopy immutable_doc in
  let d := document.init (document.shards copied_doc)
                         (document.gcs_prefix copied_doc) in
  let* (entities, history) := lift (_get_revised_documents py_int rev) in
  let d := document.set_entities entities d in
  let* revision_doc :=
    alloc (DocumentWithRevisions.init d revisions gcs_prefix) in
  update revision_doc (DocumentWithRevisions.extend_history history) >>
  let* r0 := getitem (documentai.revisions rev) 0%Z in
  update revision_doc
    (DocumentWithRevisions.set_revision_id (Some (documentai.rev_id r0))) >>
  update immutable_revision_doc
    (DocumentWithRevisions.set_next_ (Some revision_doc)) >>
  update revision_doc
    (DocumentWithRevisions.set_last (Some immutable_revision_doc)) >>
  let* cur := deref immutable_revision_doc in
  match DocumentWithRevisions.next_ cur with
  | None => undef
  | Some immutable_revision_doc =>
      let* r0 := getitem (documentai.revisions rev) 0%Z in
      (if bool_decide (documentai.parent r0 = [])
       then set_cls_root_revision (Some immutable_revision_doc)
       else ret tt) >>
      ret immutable_revision_doc
  end.

Fixpoint build_loop (immutable_doc : document.Document)
    (revisions : list (list documentai.Revision)) (gcs_prefix : string)
    (revs : list documentai.Document) (immutable_revision_doc : addr)
  : M store addr :=
  match revs with
  | [] => ret immutable_revision_doc
  | rev :: revs' =>
      let* nxt := build_body immutable_doc revisions gcs_prefix
                    immutable_revision_doc rev in
      build_loop immutable_doc revisions gcs_prefix revs' nxt
  end.

(** The classmethod, from what [_get_base_docproto(gcs_prefix)] returned:
    the base shards and the revision documents.  It returns the last
    snapshot built. *)
Definition from_gcs_prefix_with_revisions (gcs_prefix : string)
    (base_docproto revs : list documentai.Document) : M store addr :=
  let revisions := map documentai.revisions revs in
  let immutable_doc := document.init base_docproto gcs_prefix in
  let* immutable_revision_doc :=
    alloc (DocumentWithRevisions.init immutable_doc revisions gcs_prefix) in
  build_loop immutable_doc revisions gcs_prefix revs immutable_revision_doc.

End Chain.

(** ** [DocumentWithRevisions.at_revision] *)

(** What [at_revision] returns: a snapshot object or a string. *)
Inductive value : Type :=
| VSnapshot (a : addr)
| VStr (s : string).

#[global] Instance value_eq_dec : EqDecision value.
Proof. solve_decision. Defined.

(** The first loop: walk towards the base while the id differs,
    assigning [next_] of each object stepped onto. *)
Fixpoint walk_last (fuel : nat) (id : option string) (self : addr)
  : M store addr :=
  match fuel with
  | O => undef
  | S fuel' =>
      let* x := deref self in
      match DocumentWithRevisions.last x with
      | Some l =>
          if bool_decide (id <> DocumentWithRevisions.revision_id x) then
            let m_next := self in
            let self := l in
            update self (DocumentWithRevisions.set_next_ (Some m_next)) >>
            walk_last fuel' id self
          else ret self
      | None => ret self
      end
  end.

(** The second loop: walk towards the tail while the id differs,
    assigning [last] of each object stepped onto. *)
Fixpoint walk_next (fuel : nat) (id : option string) (self : addr)
  : M store addr :=
  match fuel with
  | O => undef
  | S fuel' =>
      let* x := deref self in
      match DocumentWithRevisions.next_ x with
      | Some n =>
          if bool_decide (id <> DocumentWithRevisions.revision_id x) then
            let m_last := self in
            let self := n in
            update self (DocumentWithRevisions.set_last (Some m_last)) >>
            walk_next fuel' id self
          else ret self
      | None => ret self
      end
  end.

(** [self.at_revision(id)]; [fuel] bounds the turns of each loop. *)
Definition at_revision (fuel : nat) (self : addr) (id : option string)
  : M store value :=
  let* self := walk_last fuel id self in
  let* x := deref self in
  if bool_decide (id = DocumentWithRevisions.revision_id x) then
    ret (VSnapshot self)
  else
    let* self := walk_next fuel id self in
    let* x := deref self in
    if bool_decide (id = DocumentWithRevisions.revision_id x) then
      ret (VSnapshot self)
    else ret (VStr "Not Found").

(** [cls.get_revisions()] *)
Definition get_revisions (cls : addr)
  : M store (list (list documentai.Revision)) :=
  let* x := deref cls in ret (DocumentWithRevisions.revision_nodes x).

(** ** Chains of snapshots *)

(** Repeated lookups: each call names the snapshot it is made on and the
    id looked up. *)
Fixpoint at_revision_many (fuel : nat) (calls : list (addr * option string))
  : M store (list value) :=
  match calls with
  | [] => ret []
  | (self, id) :: calls' =>
      let* v := at_revision fuel self id in
      let* vs := at_revision_many fuel calls' in
      ret (v :: vs)
  end.

(** The object at [a] is linked as the member of the chain that occupies
    the addresses [lo .. hi - 1]: [last] is the address before, [next_]
    the address after, [None] at the two ends. *)
Definition linked (h : list DocumentWithRevisions.t) (lo hi a : addr) : bool :=
  match h !! a with
  | Some x =>
      bool_decide (DocumentWithRevisions.last x
                   = if decide (a = lo) then None else Some (a - 1))
      && bool_decide (DocumentWithRevisions.next_ x
                      = if decide (S a = hi) then None else Some (S a))
  | None => false
  end.

(** The objects at [lo .. hi - 1] form a chain: a non-empty sequence of
    snapshots linked both ways, base first. *)
Definition chain (s : store) (lo hi : addr) : bool :=
  bool_decide (lo < hi <= length (heap s))
  && forallb (linked (heap s) lo hi) (seq lo (hi - lo)).

(** The revision id of the object at [a]. *)
Definition revision_id_at (s : store) (a : addr) : option (option string) :=
  DocumentWithRevisions.revision_id <$> heap s !! a.

(** The entity list and the history log of the object at [a]. *)
Definition entities_at (s : store) (a : addr) : option (list entity.Entity) :=
  (fun x => document.entities (DocumentWithRevisions.document x))
    <$> heap s !! a.

Definition history_at (s : store) (a : addr) : option (list HistoryEntry) :=
  DocumentWithRevisions.history <$> heap s !! a.

(** The operations [ops] replayed over the entity list [ents]: the loop
    of [_modify_docproto] entered with [entities_array = ents]. *)
Definition replay_over (py_int : string -> option Z)
    (ents : list entity.Entity) (ops : list documentai.Entity)
  : outcome (list entity.Entity) :=
  match _modify_docproto_loop py_int ops
          {| entities_array := ents; history := [] |} with
  | (Ret _, st) => Ret (entities_array st)
  | (Raise x, _) => Raise x
  | (Undef, _) => Undef
  end.

(** A revision document with one revision entry. *)
Definition record (id : string) (parent : list Z)
    (ops : list documentai.Entity) : documentai.Document :=
  {| documentai.text := ""; documentai.pages := [];
     documentai.entities := ops;
     documentai.revisions :=
       [{| documentai.rev_id := id; documentai.parent := parent |}] |}.

(** The entity list of the snapshot a construction returned. *)
Definition final_entities (r : outcome addr * store)
  : option (list entity.Entity) :=
  match r with
  | (Ret tl, s) => entities_at s tl
  | _ => None
  end.

(** What one turn of the construction loop needs from a revision
    document, in the order the loop asks for it: the replay of its
    entities, then its first revision entry. *)
Definition record_result (py_int : string -> option Z)
    (rev : documentai.Document)
  : outcome (list entity.Entity * list HistoryEntry * documentai.Revision) :=
  match _get_revised_documents py_int rev with
  | Ret (ents, hist) =>
      match documentai.revisions rev with
      | r0 :: _ => Ret (ents, hist, r0)
      | [] => Raise IndexError
      end
  | Raise x => Raise x
  | Undef => Undef
  end.

(** The outcome of the construction loop entered with the last object
    at [cur]: the first failure among the records, else the address of
    the last snapshot. *)
Fixpoint chain_outcome (py_int : string -> option Z)
    (revs : list documentai.Document) (cur : addr) : outcome addr :=
  match revs with
  | [] => Ret cur
  | rev :: revs' =>
      match record_result py_int rev with
      | Ret _ => chain_outcome py_int revs' (S cur)
      | Raise x => Raise x
      | Undef => Undef
      end
  end.

(** The snapshot object of a record once the loop has linked it. *)
Definition snapshot_object (gcs_prefix : string)
    (base : list documentai.Document)
    (revisions : list (list documentai.Revision))
    (ents : list entity.Entity) (hist : list HistoryEntry) (rid : string)
    (last next_ : option addr) : DocumentWithRevisions.t :=
  {| DocumentWithRevisions.document :=
       {| document.shards := base; document.gcs_prefix := gcs_prefix;
          document.entities := ents |};
     DocumentWithRevisions.revision_nodes := revisions;
     DocumentWithRevisions.gcs_prefix := gcs_prefix;
     DocumentWithRevisions.next_ := next_;
     DocumentWithRevisions.last := last;
     DocumentWithRevisions.revision_id := Some rid;
     DocumentWithRevisions.history := hist;
     DocumentWithRevisions.root_revision := None |}.

(** What a caller sees of a value returned by [at_revision]: the
    revision id, the entity list and the history log of a snapshot, or
    the string. *)
Definition snapshot_view (s : store) (v : value)
  : option (option string * list entity.Entity * list HistoryEntry) + string :=
  match v with
  | VSnapshot c =>
      inl ((fun x =>
              (DocumentWithRevisions.revision_id x,
               document.entities (DocumentWithRevisions.document x),
               DocumentWithRevisions.history x)) <$> heap s !! c)
  | VStr m => inr m
  end.

(** ** Reading the shards from storage *)

(** Names are sequences of 8-bit characters; [newline] is the one
    character the regular-expression dot does not match. *)
Definition newline : ascii := ascii_of_nat 10.

(** [s.split(sep)] for a separator of one character: never empty. *)
Fixpoint split (sep : ascii) (s : string) : list string :=
  match s with
  | EmptyString => [EmptyString]
  | String c s' =>
      if Ascii.eqb c sep then EmptyString :: split sep s'
      else match split sep s' with
           | seg :: segs => String c seg :: segs
           | [] => [String c EmptyString]
           end
  end.

(** [s.endswith(suffix)] *)
Definition endswith (s suffix : string) : bool :=
  (String.length suffix <=? String.length s)
  && String.eqb
       (substring (String.length s - String.length suffix)
                  (String.length suffix) s)
       suffix.

(** [re.search(r"^doc.dp.bp", name) != None]: the three letters, any
    character but a newline, [dp], any character but a newline, [bp],
    at the start of the name; what follows is free. *)
Definition search_doc (name : string) : bool :=
  match name with
  | String a1 (String a2 (String a3 (String c1 (String a4 (String a5
      (String c2 (String a6 (String a7 _)))))))) =>
      Ascii.eqb a1 "d" && Ascii.eqb a2 "o" && Ascii.eqb a3 "c"
      && negb (Ascii.eqb c1 newline)
      && Ascii.eqb a4 "d" && Ascii.eqb a5 "p"
      && negb (Ascii.eqb c2 newline)
      && Ascii.eqb a6 "b" && Ascii.eqb a7 "p"
  | _ => false
  end.

(** [s.startswith(p)] *)
Fixpoint startswith (s p : string) : bool :=
  match p, s with
  | EmptyString, _ => true
  | String a p', String b s' => Ascii.eqb a b && startswith s' p'
  | String _ _, EmptyString => false
  end.

(** [re.search(r"^pages_*.*", name) != None]: [_*] and [.*] match the
    empty string, so only the five letters are asked for. *)
Definition search_pages (name : string) : bool := startswith name "pages".

(** [re.search(r"^rev_*.*", name) != None] *)
Definition search_rev (name : string) : bool := startswith name "rev".

(** The lazy group and the slash after it, against the start of [s]:
    the shortest run of characters
    other than a newline that a slash follows, and what follows the
    slash. *)
Fixpoint lazy_until_slash (s : string) : option (string * string) :=
  match s with
  | EmptyString => None
  | String c s' =>
      if Ascii.eqb c "/" then Some (EmptyString, s')
      else if Ascii.eqb c newline then None
      else match lazy_until_slash s' with
           | Some (g, rest) => Some (String c g, rest)
           | None => None
           end
  end.

(** The greedy group, against the start of [s]: the longest run of
    characters other than a newline. *)
Fixpoint greedy_line (s : string) : string :=
  match s with
  | EmptyString => EmptyString
  | String c s' =>
      if Ascii.eqb c newline then EmptyString else String c (greedy_line s')
  end.

(** [s] without the prefix [p], when it has it. *)
Fixpoint strip_prefix (p s : string) : option string :=
  match p, s with
  | EmptyString, _ => Some s
  | String a p', String b s' =>
      if Ascii.eqb a b then strip_prefix p' s' else None
  | String _ _, EmptyString => None
  end.

(** [re.match] of [gcs_prefix] against the pattern made of [gs://], a
    lazy group of any characters, a slash and a greedy group of any
    characters: [None], or the two groups. *)
Definition match_gs (s : string) : option (string * string) :=
  match strip_prefix "gs://" s with
  | Some r =>
      match lazy_until_slash r with
      | Some (bucket, rest) => Some (bucket, greedy_line rest)
      | None => None
      end
  | None => None
  end.

(** [re.match(r"(.*[.].*$)", s) is not None]: a dot on the first line,
    and that line is the last one but for a final newline.  [seen] tells
    whether a dot was met. *)
Fixpoint match_file_type (seen : bool) (s : string) : bool :=
  match s with
  | EmptyString => seen
  | String c s' =>
      if Ascii.eqb c newline then seen && String.eqb s' EmptyString
      else match_file_type (seen || Ascii.eqb c ".") s'
  end.

Module storage.

(** A [storage.Blob] as the module uses it: [blob.name] and what
    [blob.download_as_bytes()] returns. *)
Record Blob : Type := mkBlob {
  name : string;
  content : list Byte.byte
}.

End storage.

(** What the loading functions raise: [ValueError] with its message, or
    the protobuf decoder's error. *)
Inductive load_exn : Type :=
| LoadValueError (msg : string)
| DecodeError.

(** The three locals of [_get_base_and_revision_bytes]. *)
Record shard_bytes : Type := mkShardBytes {
  sb_text : string;
  base_doc : list (list Byte.byte);
  revisions_doc : list (list Byte.byte)
}.

Section Load.

(** [storage_client.list_blobs(bucket, prefix=prefix)]: the listing the
    storage gives, in its order. *)
Variable list_blobs : string -> string -> list storage.Blob.

(** [documentai.Document.pb().FromString] and
    [documentai.Document.Page.pb().FromString]: [None] stands for the
    decoder's error.  A page is kept as an opaque string. *)
Variable Document_FromString : list Byte.byte -> option documentai.Document.
Variable Page_FromString : list Byte.byte -> option string.

(** The body of the loop [for blob in blob_list]. *)
Definition blob_step (acc : shard_bytes) (blob : storage.Blob)
  : load_exn + shard_bytes :=
  let name := default EmptyString
                (list_getitem (split "/" (storage.name blob)) (-1)%Z) in
  let after_doc :=
    if search_doc name then
      if endswith (storage.name blob) ".dp.bp" then
        match Document_FromString (storage.content blob) with
        | Some d =>
            inr {| sb_text := documentai.text d; base_doc := base_doc acc;
                   revisions_doc := revisions_doc acc |}
        | None => inl DecodeError
        end
      else inr acc
    else inr acc in
  match after_doc with
  | inl x => inl x
  | inr acc =>
      if search_pages name then
        if endswith (storage.name blob) ".dp.bp" then
          inr {| sb_text := sb_text acc;
                 base_doc := base_doc acc ++ [storage.content blob];
                 revisions_doc := revisions_doc acc |}
        else inr acc
      else if search_rev name then
        if endswith (storage.name blob) ".dp.bp" then
          inr {| sb_text := sb_text acc; base_doc := base_doc acc;
                 revisions_doc := revisions_doc acc ++ [storage.content blob] |}
        else inr acc
      else inr acc
  end.

Fixpoint blob_loop (blobs : list storage.Blob) (acc : shard_bytes)
  : load_exn + shard_bytes :=
  match blobs with
  | [] => inr acc
  | blob :: blobs' =>
      match blob_step acc blob with
      | inl x => inl x
      | inr acc' => blob_loop blobs' acc'
      end
  end.

(** [_get_base_and_revision_bytes(output_bucket, output_prefix)] *)
Definition _get_base_and_revision_bytes (output_bucket output_prefix : string)
  : load_exn + shard_bytes :=
  blob_loop (list_blobs output_bucket output_prefix)
    {| sb_text := EmptyString; base_doc := []; revisions_doc := [] |}.

(** [for byte in bytes: shards.append(parse(byte))], stopped by the
    first decoding error. *)
Fixpoint parse_all {A} (parse : list Byte.byte -> option A)
    (bytes : list (list Byte.byte)) : load_exn + list A :=
  match bytes with
  | [] => inr []
  | b :: bytes' =>
      match parse b with
      | None => inl DecodeError
      | Some x =>
          match parse_all parse bytes' with
          | inl e => inl e
          | inr xs => inr (x :: xs)
          end
      end
  end.

(** The base shard made of one page: a fresh [documentai.Document()]
    with [pages] and [text] assigned. *)
Definition base_shard (text : string) (byte : list Byte.byte)
  : option documentai.Document :=
  match Page_FromString byte with
  | Some page =>
      Some {| documentai.text := text; documentai.pages := [page];
              documentai.entities := []; documentai.revisions := [] |}
  | None => None
  end.

(** [_get_base_docproto(gcs_prefix)]: the base shards and the revision
    documents. *)
Definition _get_base_docproto (gcs_prefix : string)
  : load_exn + (list documentai.Document * list documentai.Document) :=
  match match_gs gcs_prefix with
  | None => inl (LoadValueError "gcs_prefix does not match accepted format")
  | Some (output_bucket, output_prefix) =>
      if match_file_type false output_prefix then
        inl (LoadValueError "gcs_prefix cannot contain file types")
      else
        match _get_base_and_revision_bytes output_bucket output_prefix with
        | inl x => inl x
        | inr sb =>
            match parse_all (base_shard (sb_text sb)) (base_doc sb) with
            | inl x => inl x
            | inr base_shards =>
                match parse_all Document_FromString (revisions_doc sb) with
                | inl x => inl x
                | inr revision_shards => inr (base_shards, revision_shards)
                end
            end
        end
  end.

(** The classmethod [from_gcs_prefix_with_revisions(gcs_prefix)] as it is
    called: the shards are read first, then the chain is built. *)
Definition from_gcs_prefix_with_revisions_call
    (py_int : string -> option Z) (gcs_prefix : string) (s : store)
  : (load_exn + outcome addr) * store :=
  match _get_base_docproto gcs_prefix with
  | inl x => (inl x, s)
  | inr (base_docproto, revs) =>
      let (o, s') :=
        from_gcs_prefix_with_revisions py_int gcs_prefix base_docproto revs s in
      (inr o, s')
  end.

End Load.

(** The operations that leave a history entry. *)
Definition effective (e : documentai.Entity) : bool :=
  match documentai.provenance_type_ e with
  | documentai.ADD | documentai.OPERATION_TYPE_UNSPECIFIED
  | documentai.REMOVE | documentai.REPLACE => true
  | _ => false
  end.

Definition adds (e : documentai.Entity) : bool :=
  match documentai.provenance_type_ e with
  | documentai.ADD | documentai.OPERATION_TYPE_UNSPECIFIED => true
  | _ => false
  end.

Definition removes (e : documentai.Entity) : bool :=
  match documentai.provenance_type_ e with
  | documentai.REMOVE => true
  | _ => false
  end.

(** The record that last names no parent in its first revision entry:
    its rank among [revs], counted from [k]. *)
Fixpoint last_root (revs : list documentai.Document) (k : nat)
    (found : option nat) : option nat :=
  match revs with
  | [] => found
  | rev :: revs' =>
      match documentai.revisions rev with
      | r0 :: _ =>
          last_root revs' (S k)
            (if bool_decide (documentai.parent r0 = []) then Some k else found)
      | [] => last_root revs' (S k) found
      end
  end.

(** The id of the first revision entry of a revision document: what
    [rev.revisions[0].id] reads, when there is an entry. *)
Definition first_revision_id (rev : documentai.Document) : option string :=
  documentai.rev_id <$> list_getitem (documentai.revisions rev) 0%Z.

(** [c in s] for a character. *)
Fixpoint string_mem (c : ascii) (s : string) : bool :=
  match s with
  | EmptyString => false
  | String d s' => Ascii.eqb d c || string_mem c s'
  end.

(** The last segment of a blob's name, and the three tests the loading
    loop makes on a blob. *)
Definition blob_basename (blob : storage.Blob) : string :=
  default EmptyString (list_getitem (split "/" (storage.name blob)) (-1)%Z).

Definition is_doc_blob (blob : storage.Blob) : bool :=
  search_doc (blob_basename blob) && endswith (storage.name blob) ".dp.bp".

Definition is_pages_blob (blob : storage.Blob) : bool :=
  search_pages (blob_basename blob) && endswith (storage.name blob) ".dp.bp".

Definition is_rev_blob (blob : storage.Blob) : bool :=
  search_rev (blob_basename blob) && endswith (storage.name blob) ".dp.bp".

(** The address [gs://bucket/prefix]. *)
Definition gs_uri (bucket prefix : string) : string :=
  ("gs://" ++ bucket ++ "/" ++ prefix)%string.

(** A record is fit for the construction loop when its replay returns
    and it has a revision entry. *)
Definition record_ok (py_int : string -> option Z)
    (rev : documentai.Document) : Prop :=
  (exists p, _modify_docproto py_int (documentai.entities rev) = Ret p)
  /\ documentai.revisions rev <> [].

(** ** Statements of the specification, as it words them *)

(** "Remove fails with an out-of-range error if and only if targetIndex
    is outside 1..len(entities)", for the operation [e] with target [t]
    met with the lists [st]. *)
Definition remove_fails_iff_outside_1_len (py_int : string -> option Z)
    (st : mstate) (e : documentai.Entity) (t : Z) : Prop :=
  fst (_modify_docproto_body py_int e st) = Raise IndexError <->
  (t < 1 \/ Z.of_nat (length (entities_array st)) < t)%Z.

(** "A Replace whose targetIndex is outside 1..len(entities) fails, with
    one more history entry and the entity list unchanged." *)
Definition replace_outside_1_len_fails (py_int : string -> option Z)
    (st : mstate) (e : documentai.Entity) (t : Z) : Prop :=
  (t < 1 \/ Z.of_nat (length (entities_array st)) < t)%Z ->
  exists h,
    _modify_docproto_body py_int e st =
      (Raise IndexError,
       {| entities_array := entities_array st;
          history := history st ++ [h] |}).

(** "The history entry of a Replace records the targeted entity's
    original kind and text", for the entity [x] that was targeted. *)
Definition records_original_of (h : HistoryEntry) (x : entity.Entity) : Prop :=
  original_type h = entity.type_ x /\ original_text h = entity.mention_text x.

(** "The entity list of record [k]'s snapshot is the fold of record
    [k]'s operations over the entity list of the snapshot before it", in
    the store [s] where the chain starts at [lo]. *)
Definition starts_from_predecessor (py_int : string -> option Z)
    (s : store) (lo : addr) (revs : list documentai.Document) (k : nat)
  : Prop :=
  match revs !! k, entities_at s (lo + k), entities_at s (lo + k + 1) with
  | Some rev, Some before, Some after =>
      replay_over py_int before (documentai.entities rev) = Ret after
  | _, _, _ => False
  end.

(** "A record [Add(K, T)] followed by a record [Remove(target=1)] yields
    a final snapshot with the empty entity list." *)
Definition add_then_remove_record_yields_empty
    (py_int : string -> option Z) (K T : string) : Prop :=
  final_entities
    (from_gcs_prefix_with_revisions py_int "gs://bucket/prefix" []
       [record "r1" [] [documentai.mkEntity "" K T documentai.ADD];
        record "r2" [1%Z] [documentai.mkEntity "1" "" "" documentai.REMOVE]]
       {| heap := []; cls_root_revision := None |})
  = Some [].

(** "A lookup that finds nothing never returns a string." *)
Definition is_string (v : value) : bool :=
  match v with
  | VStr _ => true
  | VSnapshot _ => false
  end.

(** "A lookup that matches nothing returns no string": whatever
    [at_revision] returns on [self] for [id] in the store [s] is not a
    string. *)
Definition not_found_is_no_string (fuel : nat) (s : store) (self : addr)
    (id : option string) : Prop :=
  forall v, fst (at_revision fuel self id s) = Ret v -> is_string v = false.

(** * Properties *)

Local Open Scope Z_scope.

(** ** Python indices *)

Lemma norm_index_nonneg n i :
  0 <= i < Z.of_nat n -> norm_index n i = Some (Z.to_nat i).
Proof.
  intros Hi. unfold norm_index.
  destruct (Z.ltb_spec i 0); [lia|].
  destruct (Z.leb_spec 0 i); [|lia].
  destruct (Z.ltb_spec i (Z.of_nat n)); [reflexivity|lia].
Qed.

Lemma norm_index_neg n i :
  - Z.of_nat n <= i < 0 -> norm_index n i = Some (Z.to_nat (i + Z.of_nat n)).
Proof.
  intros Hi. unfold norm_index.
  destruct (Z.ltb_spec i 0); [|lia].
  destruct (Z.leb_spec 0 (i + Z.of_nat n)); [|lia].
  destruct (Z.ltb_spec (i + Z.of_nat n) (Z.of_nat n)); [reflexivity|lia].
Qed.

Lemma norm_index_None n i :
  norm_index n i = None <-> i < - Z.of_nat n \/ Z.of_nat n <= i.
Proof.
  split.
  - intros H.
    destruct (Z_lt_le_dec i (- Z.of_nat n)); [lia|].
    destruct (Z_lt_le_dec i (Z.of_nat n)); [|lia].
    destruct (Z_lt_le_dec i 0).
    + rewrite norm_index_neg in H by lia. discriminate.
    + rewrite norm_index_nonneg in H by lia. discriminate.
  - intros H. unfold norm_index.
    destruct (Z.ltb_spec i 0).
    + destruct (Z.leb_spec 0 (i + Z.of_nat n)); [lia|reflexivity].
    + destruct (Z.leb_spec 0 i); [|reflexivity].
      destruct (Z.ltb_spec i (Z.of_nat n)); [lia|reflexivity].
Qed.

Lemma norm_index_Some_lt n i k : norm_index n i = Some k -> (k < n)%nat.
Proof.
  intros H.
  destruct (Z_lt_le_dec i (- Z.of_nat n)) as [Hlo|Hlo].
  { assert (norm_index n i = None) by (apply norm_index_None; lia). congruence. }
  destruct (Z_lt_le_dec i 0) as [Hneg|Hpos].
  - rewrite norm_index_neg in H by lia. inversion H. lia.
  - destruct (Z_lt_le_dec i (Z.of_nat n)) as [Hhi|Hhi].
    + rewrite norm_index_nonneg in H by lia. inversion H. lia.
    + assert (norm_index n i = None) by (apply norm_index_None; lia). congruence.
Qed.

Lemma list_pop_None {A} (l : list A) i :
  list_pop l i = None <-> i < - Z.of_nat (length l) \/ Z.of_nat (length l) <= i.
Proof.
  unfold list_pop. destruct (norm_index (length l) i) as [k|] eqn:E.
  - pose proof (norm_index_Some_lt _ _ _ E) as Hk.
    destruct (lookup_lt_is_Some_2 l k Hk) as [x Hx]. rewrite Hx.
    split; [discriminate|]. intros H. apply norm_index_None in H. congruence.
  - split; [intros _; by apply norm_index_None | done].
Qed.

Lemma list_pop_Some {A} (l : list A) i k :
  norm_index (length l) i = Some k ->
  exists x, l !! k = Some x /\ list_pop l i = Some (x, delete k l).
Proof.
  intros E. pose proof (norm_index_Some_lt _ _ _ E) as Hk.
  destruct (lookup_lt_is_Some_2 l k Hk) as [x Hx].
  exists x. split; [done|]. unfold list_pop. by rewrite E, Hx.
Qed.

(** ** The loop of [_modify_docproto], one operation at a time *)

Section ReplayFacts.

Variable py_int : string -> option Z.

Lemma body_add e st :
  documentai.provenance_type_ e = documentai.ADD
  \/ documentai.provenance_type_ e = documentai.OPERATION_TYPE_UNSPECIFIED ->
  _modify_docproto_body py_int e st =
    (Ret tt,
     {| entities_array := entities_array st ++ [entity.init e];
        history := history st ++
          [{| object_ := "Entity";
              entity_provenance_type :=
                documentai.name (documentai.provenance_type_ e);
              original_entity := e;
              original_type := documentai.type_ e;
              original_text := documentai.mention_text e;
              replace_type := None;
              replace_text := None |}] |}).
Proof.
  intros [H|H]; unfold _modify_docproto_body; rewrite H; reflexivity.
Qed.

Lemma body_remove_overflow e st t :
  documentai.provenance_type_ e = documentai.REMOVE ->
  py_int (documentai.id e) = Some t ->
  fits_ssize_t (t - 1) = false ->
  _modify_docproto_body py_int e st = (Raise OverflowError, st).
Proof.
  intros H Ht Hf. unfold _modify_docproto_body. rewrite H. simpl.
  unfold bind, int_of. rewrite Ht. unfold ret, entities_pop.
  by rewrite Hf.
Qed.

Lemma body_remove e st t :
  documentai.provenance_type_ e = documentai.REMOVE ->
  py_int (documentai.id e) = Some t ->
  fits_ssize_t (t - 1) = true ->
  _modify_docproto_body py_int e st =
    match list_pop (entities_array st) (t - 1) with
    | Some (x, l) =>
        (Ret tt,
         {| entities_array := l;
            history := history st ++
              [{| object_ := "Entity";
                  entity_provenance_type := "REMOVE";
                  original_entity := e;
                  original_type := entity.type_ x;
                  original_text := entity.mention_text x;
                  replace_type := None;
                  replace_text := None |}] |})
    | None => (Raise IndexError, st)
    end.
Proof.
  intros H Ht Hf. unfold _modify_docproto_body. rewrite H. simpl.
  unfold bind, int_of. rewrite Ht. unfold ret, entities_pop. rewrite Hf.
  destruct (list_pop (entities_array st) (t - 1)) as [[x l]|]; reflexivity.
Qed.

Lemma body_replace e st t :
  documentai.provenance_type_ e = documentai.REPLACE ->
  py_int (documentai.id e) = Some t ->
  let st1 :=
    {| entities_array := entities_array st;
       history := history st ++
         [{| object_ := "Entity";
             entity_provenance_type := "REPLACE";
             original_entity := e;
             original_type := documentai.type_ e;
             original_text := documentai.mention_text e;
             replace_type := Some (documentai.type_ e);
             replace_text := Some (documentai.mention_text e) |}] |} in
  _modify_docproto_body py_int e st =
    match norm_index (length (entities_array st)) (t - 1) with
    | Some k =>
        (Ret tt,
         {| entities_array :=
              alter (fun x => entity.replace x e) k (entities_array st);
            history := history st1 |})
    | None => (Raise IndexError, st1)
    end.
Proof.
  intros H Ht. unfold _modify_docproto_body. rewrite H. simpl.
  unfold bind, int_of, history_append, modify. rewrite Ht.
  unfold ret, entities_replace. simpl.
  destruct (norm_index (length (entities_array st)) (t - 1)); reflexivity.
Qed.

Lemma loop_app es1 es2 st :
  _modify_docproto_loop py_int (es1 ++ es2) st =
    (_modify_docproto_loop py_int es1 >> _modify_docproto_loop py_int es2) st.
Proof.
  revert st. induction es1 as [|e es1 IH]; intros st; simpl.
  - reflexivity.
  - unfold _modify_docproto_loop in *. simpl. unfold bind in *.
    destruct (_modify_docproto_body py_int e st) as [[u|x|] st1]; auto.
Qed.

End ReplayFacts.

(** ** Remove *)

Lemma delete_last {A} (l : list A) (x : A) : delete (length l) (l ++ [x]) = l.
Proof. induction l as [|y l IH]; simpl; [reflexivity | by rewrite IH]. Qed.

Lemma fits_ssize_t_spec (i : Z) :
  fits_ssize_t i = true <-> PY_SSIZE_T_MIN <= i <= PY_SSIZE_T_MAX.
Proof.
  unfold fits_ssize_t. rewrite andb_true_iff, !Z.leb_le. reflexivity.
Qed.

(** C4, as the code has it.  A Remove whose target is the integer [t]
    pops the Python position [t - 1].  It succeeds exactly when [t - 1]
    fits a C [ssize_t] and [t] lies in [1 - len .. len]: the entity at
    position [t - 1] from the front when [1 <= t], at position
    [len + t - 1] when [t <= 0], is removed and the history entry records
    the kind and the text it had.  It raises [IndexError] exactly when
    [t - 1] fits a [ssize_t] and [t] is outside [1 - len .. len], and
    [OverflowError] exactly when [t - 1] does not fit.  After either
    failure both lists are as they were. *)
Theorem remove_bounds_and_effect (py_int : string -> option Z)
    (st : mstate) (e : documentai.Entity) (t : Z) :
  documentai.provenance_type_ e = documentai.REMOVE ->
  py_int (documentai.id e) = Some t ->
  let n := Z.of_nat (length (entities_array st)) in
  let r := _modify_docproto_body py_int e st in
  let fits := PY_SSIZE_T_MIN <= t - 1 <= PY_SSIZE_T_MAX in
  (fst r = Raise OverflowError <-> ~ fits)
  /\ (fst r = Raise IndexError <-> fits /\ (t < 1 - n \/ n < t))
  /\ (fst r = Ret tt <-> fits /\ 1 - n <= t <= n)
  /\ (fst r <> Ret tt -> snd r = st)
  /\ (fits -> 1 - n <= t <= n ->
      let k := Z.to_nat (if 1 <=? t then t - 1 else n + t - 1) in
      exists x,
        entities_array st !! k = Some x
        /\ r = (Ret tt,
                {| entities_array := delete k (entities_array st);
                   history := history st ++
                     [{| object_ := "Entity";
                         entity_provenance_type := "REMOVE";
                         original_entity := e;
                         original_type := entity.type_ x;
                         original_text := entity.mention_text x;
                         replace_type := None;
                         replace_text := None |}] |})).
Proof.
  intros Hp Ht n r fits. subst r fits.
  destruct (fits_ssize_t (t - 1)) eqn:Hfit.
  - pose proof (proj1 (fits_ssize_t_spec (t - 1)) Hfit) as Hin.
    rewrite (body_remove py_int e st t Hp Ht Hfit).
    destruct (list_pop (entities_array st) (t - 1)) as [[x l]|] eqn:E.
    + assert (Hrange : 1 - n <= t <= n).
      { destruct (Z_lt_le_dec (t - 1) (- n)) as [Hlo|Hlo].
        { assert (list_pop (entities_array st) (t - 1) = None)
            by (apply list_pop_None; subst n; lia). congruence. }
        destruct (Z_lt_le_dec (t - 1) n) as [Hhi|Hhi]; [lia|].
        assert (list_pop (entities_array st) (t - 1) = None)
          by (apply list_pop_None; subst n; lia). congruence. }
      cbn [fst snd].
      split; [split; [discriminate | intros H; by destruct H]|].
      split; [split; [discriminate | intros [_ H]; lia]|].
      split; [split; [done | done]|].
      split; [intros H; by destruct H|].
      intros _ _.
      set (k := Z.to_nat (if 1 <=? t then t - 1 else n + t - 1)).
      assert (Ek : norm_index (length (entities_array st)) (t - 1) = Some k).
      { subst k. destruct (Z.leb_spec 1 t).
        - apply norm_index_nonneg. subst n. lia.
        - rewrite norm_index_neg by (subst n; lia). f_equal. subst n. lia. }
      destruct (list_pop_Some _ _ _ Ek) as (y & Hy & Hpop).
      rewrite E in Hpop. inversion Hpop; subst y l.
      exists x. split; [exact Hy | reflexivity].
    + apply list_pop_None in E. fold n in E. cbn [fst snd].
      split; [split; [discriminate | intros H; by destruct H]|].
      split; [split; [intros _; split; [exact Hin | lia] | done]|].
      split; [split; [discriminate | intros [_ H]; lia]|].
      split; [done|].
      intros _ H. lia.
  - assert (Hout : ~ (PY_SSIZE_T_MIN <= t - 1 <= PY_SSIZE_T_MAX)).
    { intros H. apply fits_ssize_t_spec in H. congruence. }
    rewrite (body_remove_overflow py_int e st t Hp Ht Hfit). cbn [fst snd].
    split; [split; [done | done]|].
    split; [split; [discriminate | intros [H _]; done]|].
    split; [split; [discriminate | intros [H _]; done]|].
    split; [done|].
    intros H. done.
Qed.

Lemma remove_bounds_and_effect_witness :
  let st := {| entities_array := [entity.mkEntity "A" "x";
                                  entity.mkEntity "B" "y"];
               history := [] |} in
  fst (_modify_docproto_body decimal_int
         (documentai.mkEntity "5" "" "" documentai.REMOVE) st)
  = Raise IndexError
  /\ fst (_modify_docproto_body decimal_int
            (documentai.mkEntity "9223372036854775809" "" ""
               documentai.REMOVE) st)
     = Raise OverflowError
  /\ exists x,
       entities_array st !! 1%nat = Some x
       /\ _modify_docproto_body decimal_int
            (documentai.mkEntity "0" "" "" documentai.REMOVE) st
          = (Ret tt,
             {| entities_array := delete 1%nat (entities_array st);
                history := history st ++
                  [{| object_ := "Entity";
                      entity_provenance_type := "REMOVE";
                      original_entity :=
                        documentai.mkEntity "0" "" "" documentai.REMOVE;
                      original_type := entity.type_ x;
                      original_text := entity.mention_text x;
                      replace_type := None;
                      replace_text := None |}] |}).
Proof.
  intros st. split; [|split].
  - apply (proj1 (proj2 (remove_bounds_and_effect decimal_int st
                           (documentai.mkEntity "5" "" "" documentai.REMOVE)
                           5 eq_refl eq_refl))).
    unfold PY_SSIZE_T_MIN, PY_SSIZE_T_MAX. simpl. lia.
  - apply (proj1 (remove_bounds_and_effect decimal_int st
                    (documentai.mkEntity "9223372036854775809" "" ""
                       documentai.REMOVE)
                    9223372036854775809 eq_refl eq_refl)).
    unfold PY_SSIZE_T_MIN, PY_SSIZE_T_MAX. lia.
  - apply (proj2 (proj2 (proj2 (proj2
             (remove_bounds_and_effect decimal_int st
                (documentai.mkEntity "0" "" "" documentai.REMOVE)
                0 eq_refl eq_refl))))).
    + unfold PY_SSIZE_T_MIN, PY_SSIZE_T_MAX. lia.
    + simpl. lia.
Defined.

(** C4 as worded fails: on a list of one entity the target 0 is outside
    1..1, and the Remove does not fail. *)
Lemma remove_target_zero_does_not_fail :
  let st := {| entities_array := [entity.mkEntity "A" "x"]; history := [] |} in
  let e := documentai.mkEntity "0" "" "" documentai.REMOVE in
  documentai.provenance_type_ e = documentai.REMOVE
  /\ decimal_int (documentai.id e) = Some 0
  /\ ~ remove_fails_iff_outside_1_len decimal_int st e 0.
Proof.
  intros st e. split; [reflexivity|]. split; [reflexivity|].
  unfold remove_fails_iff_outside_1_len. intros [_ H].
  assert (Hf : fst (_modify_docproto_body decimal_int e st) = Raise IndexError)
    by (apply H; left; lia).
  vm_compute in Hf. discriminate.
Qed.

(** C9.  On a non-empty entity list a Remove with target 0 succeeds: it
    removes the last entity, and the history entry records the kind and
    the text of that last entity. *)
Theorem remove_target_zero_removes_last (py_int : string -> option Z)
    (st : mstate) (e : documentai.Entity) :
  documentai.provenance_type_ e = documentai.REMOVE ->
  py_int (documentai.id e) = Some 0 ->
  entities_array st <> [] ->
  exists l x,
    entities_array st = l ++ [x]
    /\ _modify_docproto_body py_int e st =
         (Ret tt,
          {| entities_array := l;
             history := history st ++
               [{| object_ := "Entity";
                   entity_provenance_type := "REMOVE";
                   original_entity := e;
                   original_type := entity.type_ x;
                   original_text := entity.mention_text x;
                   replace_type := None;
                   replace_text := None |}] |}).
Proof.
  intros Hp Ht Hne.
  destruct (exists_last Hne) as (l0 & x & El).
  exists l0, x. split; [exact El|].
  rewrite (body_remove py_int e st 0 Hp Ht eq_refl), El.
  unfold list_pop. rewrite norm_index_neg by (rewrite length_app; simpl; lia).
  replace (Z.to_nat (0 - 1 + Z.of_nat (length (l0 ++ [x])))) with (length l0)
    by (rewrite length_app; simpl; lia).
  rewrite lookup_app_r by lia. rewrite Nat.sub_diag. simpl.
  by rewrite delete_last.
Qed.

Lemma remove_target_zero_removes_last_witness :
  exists l x,
    [entity.mkEntity "A" "x"; entity.mkEntity "C" "z"] = l ++ [x]
    /\ _modify_docproto_body decimal_int
         (documentai.mkEntity "0" "" "" documentai.REMOVE)
         {| entities_array := [entity.mkEntity "A" "x"; entity.mkEntity "C" "z"];
            history := [] |} =
         (Ret tt,
          {| entities_array := l;
             history := [] ++
               [{| object_ := "Entity";
                   entity_provenance_type := "REMOVE";
                   original_entity :=
                     documentai.mkEntity "0" "" "" documentai.REMOVE;
                   original_type := entity.type_ x;
                   original_text := entity.mention_text x;
                   replace_type := None;
                   replace_text := None |}] |}).
Proof.
  apply (remove_target_zero_removes_last decimal_int
           {| entities_array :=
                [entity.mkEntity "A" "x"; entity.mkEntity "C" "z"];
              history := [] |}
           (documentai.mkEntity "0" "" "" documentai.REMOVE));
    [reflexivity | reflexivity | simpl; discriminate].
Defined.

(** ** Replace *)

(** An in-range Replace overwrites the targeted entity with the payload's
    kind and text, and its history entry carries the payload's kind and
    text under [original_*] as well as under [replace_*]. *)
Lemma replace_in_range (py_int : string -> option Z)
    (st : mstate) (e : documentai.Entity) (t : Z) (k : nat) :
  documentai.provenance_type_ e = documentai.REPLACE ->
  py_int (documentai.id e) = Some t ->
  norm_index (length (entities_array st)) (t - 1) = Some k ->
  _modify_docproto_body py_int e st =
    (Ret tt,
     {| entities_array := <[k := entity.init e]> (entities_array st);
        history := history st ++
          [{| object_ := "Entity";
              entity_provenance_type := "REPLACE";
              original_entity := e;
              original_type := documentai.type_ e;
              original_text := documentai.mention_text e;
              replace_type := Some (documentai.type_ e);
              replace_text := Some (documentai.mention_text e) |}] |}).
Proof.
  intros Hp Ht Hk. rewrite (body_replace py_int e st t Hp Ht). simpl.
  rewrite Hk. do 2 f_equal.
  pose proof (norm_index_Some_lt _ _ _ Hk) as Hlt.
  destruct (lookup_lt_is_Some_2 _ _ Hlt) as [x Hx].
  apply list_eq. intros i. destruct (decide (i = k)) as [->|Hne].
  - rewrite list_lookup_alter_eq, Hx, list_lookup_insert_eq by done. reflexivity.
  - by rewrite list_lookup_alter_ne, list_lookup_insert_ne.
Qed.

(** C5, at the input where the code departs from it.  After
    [Add(A, x)], the operation [Replace(target=1, B, y)] overwrites the
    entity in place, but its history entry holds B and y as the original
    kind and text: the kind A and the text x that the entity had before
    are recorded nowhere in it. *)
Theorem replace_history_original_is_payload :
  let add := documentai.mkEntity "" "A" "x" documentai.ADD in
  let rep := documentai.mkEntity "1" "B" "y" documentai.REPLACE in
  exists h_add h_rep,
    _modify_docproto decimal_int [add; rep] =
      Ret ([entity.mkEntity "B" "y"], [h_add; h_rep])
    /\ original_type h_rep = "B" /\ original_text h_rep = "y"
    /\ replace_type h_rep = Some "B" /\ replace_text h_rep = Some "y"
    /\ ~ records_original_of h_rep (entity.mkEntity "A" "x").
Proof.
  intros add rep. eexists _, _. split; [vm_compute; reflexivity|].
  repeat split; try reflexivity.
  intros [H _]. vm_compute in H. discriminate.
Qed.

(** C10, as the code has it.  A Replace whose target [t] is outside
    [1 - len .. len] raises [IndexError] after its history entry was
    appended: the history has one more entry, the entity list is as it
    was. *)
Theorem replace_out_of_range_leaves_history_entry
    (py_int : string -> option Z)
    (st : mstate) (e : documentai.Entity) (t : Z) :
  documentai.provenance_type_ e = documentai.REPLACE ->
  py_int (documentai.id e) = Some t ->
  t < 1 - Z.of_nat (length (entities_array st))
  \/ Z.of_nat (length (entities_array st)) < t ->
  exists h,
    original_entity h = e
    /\ _modify_docproto_body py_int e st =
         (Raise IndexError,
          {| entities_array := entities_array st;
             history := history st ++ [h] |})
    /\ length (history (snd (_modify_docproto_body py_int e st)))
       = S (length (history st)).
Proof.
  intros Hp Ht Hout. rewrite (body_replace py_int e st t Hp Ht). simpl.
  assert (E : norm_index (length (entities_array st)) (t - 1) = None)
    by (apply norm_index_None; lia).
  rewrite E. eexists. split; [|split; [reflexivity|]].
  - reflexivity.
  - simpl. rewrite length_app. simpl. lia.
Qed.

Lemma replace_out_of_range_leaves_history_entry_witness :
  let st := {| entities_array := [entity.mkEntity "A" "x"]; history := [] |} in
  let e := documentai.mkEntity "5" "B" "y" documentai.REPLACE in
  exists h,
    original_entity h = e
    /\ _modify_docproto_body decimal_int e st =
         (Raise IndexError,
          {| entities_array := entities_array st;
             history := history st ++ [h] |})
    /\ length (history (snd (_modify_docproto_body decimal_int e st)))
       = S (length (history st)).
Proof.
  intros st e.
  apply (replace_out_of_range_leaves_history_entry decimal_int st e 5);
    [reflexivity | reflexivity | right; simpl; lia].
Defined.

(** C10 as worded fails: on a list of one entity the target 0 is outside
    1..1, yet the Replace succeeds and rewrites the last entity. *)
Lemma replace_target_zero_does_not_fail :
  let st := {| entities_array := [entity.mkEntity "A" "x"]; history := [] |} in
  let e := documentai.mkEntity "0" "B" "y" documentai.REPLACE in
  decimal_int (documentai.id e) = Some 0
  /\ fst (_modify_docproto_body decimal_int e st) = Ret tt
  /\ entities_array (snd (_modify_docproto_body decimal_int e st))
     = [entity.mkEntity "B" "y"]
  /\ ~ replace_outside_1_len_fails decimal_int st e 0.
Proof.
  intros st e. repeat split; try reflexivity.
  unfold replace_outside_1_len_fails. intros H.
  destruct H as [h Hh]; [left; lia|].
  vm_compute in Hh. discriminate.
Qed.

(** ** Order of the operations of one record *)

(** C7.  The loop over a record's operations is a left-to-right fold on
    the two lists: what follows a prefix of the operations runs on the
    lists the prefix left.  So [Add(a), Add(b), Remove(target=1)] on the
    empty list leaves exactly the entity of [b], and the Remove records
    the kind and the text of [a]. *)
Theorem operations_apply_in_order (py_int : string -> option Z)
    (es1 es2 : list documentai.Entity) (st : mstate)
    (a b r : documentai.Entity) :
  documentai.provenance_type_ a = documentai.ADD ->
  documentai.provenance_type_ b = documentai.ADD ->
  documentai.provenance_type_ r = documentai.REMOVE ->
  py_int (documentai.id r) = Some 1 ->
  _modify_docproto_loop py_int (es1 ++ es2) st =
    match _modify_docproto_loop py_int es1 st with
    | (Ret _, st') => _modify_docproto_loop py_int es2 st'
    | (Raise x, st') => (Raise x, st')
    | (Undef, st') => (Undef, st')
    end
  /\ exists h1 h2 h3,
       _modify_docproto py_int [a; b; r] = Ret ([entity.init b], [h1; h2; h3])
       /\ original_type h3 = documentai.type_ a
       /\ original_text h3 = documentai.mention_text a.
Proof.
  intros Ha Hb Hr Hi. split.
  - rewrite loop_app. reflexivity.
  - unfold _modify_docproto, _modify_docproto_loop. simpl. unfold bind.
    rewrite (body_add py_int a _ (or_introl Ha)).
    rewrite (body_add py_int b _ (or_introl Hb)).
    rewrite (body_remove py_int r _ 1 Hr Hi eq_refl). simpl.
    eexists _, _, _. split; [reflexivity|]. split; reflexivity.
Qed.

Lemma operations_apply_in_order_witness :
  let a := documentai.mkEntity "" "A" "x" documentai.ADD in
  let b := documentai.mkEntity "" "B" "y" documentai.ADD in
  let r := documentai.mkEntity "1" "" "" documentai.REMOVE in
  decimal_int (documentai.id r) = Some 1
  /\ exists h1 h2 h3,
       _modify_docproto decimal_int [a; b; r]
         = Ret ([entity.mkEntity "B" "y"], [h1; h2; h3])
       /\ original_type h3 = "A" /\ original_text h3 = "x".
Proof.
  intros a b r. split; [reflexivity|].
  exact (proj2 (operations_apply_in_order decimal_int [] [] (mkMstate [] [])
                  a b r eq_refl eq_refl eq_refl eq_refl)).
Defined.

Local Close Scope Z_scope.

(** ** Lookup on a chain *)

Lemma chain_inv s lo hi :
  chain s lo hi = true ->
  lo < hi <= length (heap s)
  /\ forall a, lo <= a < hi ->
       exists x, heap s !! a = Some x
         /\ DocumentWithRevisions.last x
            = (if decide (a = lo) then None else Some (a - 1))
         /\ DocumentWithRevisions.next_ x
            = (if decide (S a = hi) then None else Some (S a)).
Proof.
  unfold chain. intros H. apply andb_prop in H as [Hb Hall].
  apply bool_decide_eq_true in Hb. split; [exact Hb|].
  intros a Ha. rewrite forallb_forall in Hall.
  assert (Hin : In a (seq lo (hi - lo))) by (apply in_seq; lia).
  specialize (Hall a Hin). unfold linked in Hall.
  destruct (heap s !! a) as [x|]; [|discriminate].
  apply andb_prop in Hall as [H1 H2].
  apply bool_decide_eq_true in H1. apply bool_decide_eq_true in H2.
  exists x. done.
Qed.

Lemma set_next__same x v :
  DocumentWithRevisions.next_ x = v -> DocumentWithRevisions.set_next_ v x = x.
Proof. destruct x; simpl; intros <-; reflexivity. Qed.

Lemma set_last_same x v :
  DocumentWithRevisions.last x = v -> DocumentWithRevisions.set_last v x = x.
Proof. destruct x; simpl; intros <-; reflexivity. Qed.

(** An assignment of the value an attribute already has leaves the store
    as it is. *)
Lemma update_same s a x f :
  heap s !! a = Some x -> f x = x -> update a f s = (Ret tt, s).
Proof.
  intros Hx Hf. unfold update. rewrite Hx, Hf, (list_insert_id _ _ _ Hx).
  destruct s; reflexivity.
Qed.

Lemma walk_last_chain s lo hi id :
  chain s lo hi = true ->
  forall fuel a, lo <= a < hi -> a - lo < fuel ->
  exists b,
    walk_last fuel id a s = (Ret b, s)
    /\ lo <= b <= a
    /\ (forall j, b < j <= a -> revision_id_at s j <> Some id)
    /\ (b = lo \/ revision_id_at s b = Some id).
Proof.
  intros Hc. destruct (chain_inv _ _ _ Hc) as [Hr Hn].
  induction fuel as [|fuel IH]; intros a Ha Hf; [lia|].
  destruct (Hn a Ha) as (x & Hx & Hlast & Hnext).
  simpl. unfold bind, deref. rewrite Hx, Hlast.
  destruct (decide (a = lo)) as [->|Hne].
  - exists lo. unfold ret. repeat split; lia.
  - destruct (decide (id = DocumentWithRevisions.revision_id x)) as [Heq|Hd].
    + rewrite bool_decide_eq_false_2 by (intros H; by apply H).
      exists a. unfold ret. repeat split; try lia.
      right. unfold revision_id_at. rewrite Hx. simpl. by rewrite Heq.
    + rewrite bool_decide_eq_true_2 by exact Hd.
      destruct (Hn (a - 1)) as (y & Hy & _ & Hynext); [lia|].
      rewrite (update_same s (a - 1) y); [|exact Hy|].
      2:{ apply set_next__same. rewrite Hynext.
          destruct (decide (S (a - 1) = hi)); [lia|]. f_equal. lia. }
      destruct (IH (a - 1)) as (b & Hw & Hb & Hno & Hstop); [lia|lia|].
      exists b. rewrite Hw. repeat split; try lia; [|exact Hstop].
      intros j Hj. destruct (decide (j = a)) as [->|Hja].
      * unfold revision_id_at. rewrite Hx. simpl. congruence.
      * apply Hno. lia.
Qed.

Lemma walk_next_chain s lo hi id :
  chain s lo hi = true ->
  forall fuel a, lo <= a < hi -> hi - a <= fuel ->
  exists c,
    walk_next fuel id a s = (Ret c, s)
    /\ a <= c < hi
    /\ (forall j, a <= j < c -> revision_id_at s j <> Some id)
    /\ (S c = hi \/ revision_id_at s c = Some id).
Proof.
  intros Hc. destruct (chain_inv _ _ _ Hc) as [Hr Hn].
  induction fuel as [|fuel IH]; intros a Ha Hf; [lia|].
  destruct (Hn a Ha) as (x & Hx & Hlast & Hnext).
  simpl. unfold bind, deref. rewrite Hx, Hnext.
  destruct (decide (S a = hi)) as [He|Hne].
  - exists a. unfold ret. repeat split; lia.
  - destruct (decide (id = DocumentWithRevisions.revision_id x)) as [Heq|Hd].
    + rewrite bool_decide_eq_false_2 by (intros H; by apply H).
      exists a. unfold ret. repeat split; try lia.
      right. unfold revision_id_at. rewrite Hx. simpl. by rewrite Heq.
    + rewrite bool_decide_eq_true_2 by exact Hd.
      destruct (Hn (S a)) as (y & Hy & Hylast & _); [lia|].
      rewrite (update_same s (S a) y); [|exact Hy|].
      2:{ apply set_last_same. rewrite Hylast.
          destruct (decide (S a = lo)); [lia|]. f_equal. lia. }
      destruct (IH (S a)) as (c & Hw & Hb & Hno & Hstop); [lia|lia|].
      exists c. rewrite Hw. repeat split; try lia; [|exact Hstop].
      intros j Hj. destruct (decide (j = a)) as [->|Hja].
      * unfold revision_id_at. rewrite Hx. simpl. congruence.
      * apply Hno. lia.
Qed.

(** What [at_revision] does on a chain, called on the member [a]: the
    store is left as it is; the result is the nearest member at or before
    [a] with the id, else the first member after [a] with it, else the
    string. *)
Lemma at_revision_chain s lo hi id fuel a :
  chain s lo hi = true -> lo <= a < hi -> hi - lo <= fuel ->
  exists v,
    at_revision fuel a id s = (Ret v, s)
    /\ match v with
       | VSnapshot c =>
           lo <= c < hi /\ revision_id_at s c = Some id
           /\ ((c <= a /\ forall j, c < j <= a -> revision_id_at s j <> Some id)
               \/ (a < c /\ forall j, lo <= j < c ->
                               revision_id_at s j <> Some id))
       | VStr m =>
           m = "Not Found"
           /\ forall j, lo <= j < hi -> revision_id_at s j <> Some id
       end.
Proof.
  intros Hc Ha Hf. destruct (chain_inv _ _ _ Hc) as [Hr Hn].
  destruct (walk_last_chain s lo hi id Hc fuel a Ha) as (b & Hw & Hb & Hno & Hstop);
    [lia|].
  unfold at_revision, bind. rewrite Hw.
  destruct (Hn b) as (x & Hx & _); [lia|].
  unfold deref at 1. rewrite Hx.
  destruct (decide (id = DocumentWithRevisions.revision_id x)) as [Heq|Hd].
  { rewrite bool_decide_eq_true_2 by exact Heq.
    exists (VSnapshot b). split; [reflexivity|]. split; [lia|].
    split; [unfold revision_id_at; rewrite Hx; simpl; by rewrite Heq|].
    left. split; [lia|exact Hno]. }
  rewrite bool_decide_eq_false_2 by exact Hd.
  assert (Hblo : b = lo).
  { destruct Hstop as [?|Hm]; [done|].
    unfold revision_id_at in Hm. rewrite Hx in Hm. simpl in Hm. congruence. }
  subst b.
  assert (Hbefore : forall j, lo <= j <= a -> revision_id_at s j <> Some id).
  { intros j Hj. destruct (decide (j = lo)) as [->|Hjlo].
    - unfold revision_id_at. rewrite Hx. simpl. congruence.
    - apply Hno. lia. }
  destruct (walk_next_chain s lo hi id Hc fuel lo) as (c & Hw2 & Hcb & Hno2 & Hstop2);
    [lia|lia|].
  rewrite Hw2.
  destruct (Hn c) as (y & Hy & _); [lia|].
  unfold deref. rewrite Hy.
  destruct (decide (id = DocumentWithRevisions.revision_id y)) as [Heq2|Hd2].
  - rewrite bool_decide_eq_true_2 by exact Heq2.
    exists (VSnapshot c). split; [reflexivity|]. split; [lia|].
    assert (Hm : revision_id_at s c = Some id)
      by (unfold revision_id_at; rewrite Hy; simpl; by rewrite Heq2).
    split; [exact Hm|].
    right. split; [|exact Hno2].
    destruct (decide (c <= a)); [|lia]. exfalso. apply (Hbefore c); [lia|exact Hm].
  - rewrite bool_decide_eq_false_2 by exact Hd2.
    exists (VStr "Not Found"). split; [reflexivity|]. split; [reflexivity|].
    assert (Hcn : revision_id_at s c <> Some id)
      by (unfold revision_id_at; rewrite Hy; simpl; congruence).
    destruct Hstop2 as [He|Hm]; [|done].
    intros j Hj. destruct (decide (j = c)) as [->|Hjc]; [exact Hcn|].
    apply Hno2. lia.
Qed.

(** ** Lookup leaves a chain as it is *)

(** C2.  On a chain, any sequence of calls of [at_revision], each made
    on a member of the chain for any id, present or absent, returns with
    the store exactly as it was: every [last] and [next_] link and every
    history log is unchanged.  Each call returns; none runs out of
    fuel once the fuel covers the length of the chain. *)
Theorem at_revision_leaves_chain_unchanged (s : store) (lo hi fuel : nat)
    (calls : list (addr * option string)) :
  chain s lo hi = true ->
  hi - lo <= fuel ->
  Forall (fun c => lo <= fst c < hi) calls ->
  exists vs,
    at_revision_many fuel calls s = (Ret vs, s)
    /\ length vs = length calls.
Proof.
  intros Hc Hf Hall. induction Hall as [|[a id] calls Ha _ IH].
  - exists []. split; reflexivity.
  - destruct IH as (vs & Hvs & Hlen).
    destruct (at_revision_chain s lo hi id fuel a Hc Ha Hf) as (v & Hv & _).
    exists (v :: vs). simpl. unfold bind. rewrite Hv, Hvs.
    split; [reflexivity | simpl; by rewrite Hlen].
Qed.

Lemma at_revision_leaves_chain_unchanged_witness :
  let s :=
    snd (from_gcs_prefix_with_revisions decimal_int "gs://bucket/prefix" []
           [record "r1" [] [documentai.mkEntity "" "A" "x" documentai.ADD];
            record "r2" [1%Z] [documentai.mkEntity "" "B" "y" documentai.ADD]]
           {| heap := []; cls_root_revision := None |}) in
  let calls := [(2, Some "r1"); (0, Some "r2"); (1, Some "missing");
                (2, None); (2, Some "r1")] in
  chain s 0 3 = true
  /\ exists vs, at_revision_many 3 calls s = (Ret vs, s)
               /\ length vs = length calls.
Proof.
  intros s calls. split; [reflexivity|].
  apply (at_revision_leaves_chain_unchanged s 0 3 3 calls);
    [reflexivity | simpl; lia | repeat constructor; simpl; lia].
Defined.

(** Where the links are not those of a chain the lookup does rewrite
    them.  The base at 0 has two snapshots that name it as [last], and
    its [next_] leads to the second; a lookup made on the first one makes
    [next_] of the base lead to the first. *)
Example at_revision_relinks_branched_store :
  let d := document.init [] "gs://bucket/prefix" in
  let obj rid l n :=
    DocumentWithRevisions.mk d [] "gs://bucket/prefix" n l rid [] None in
  let s := {| heap := [obj None None (Some 2);
                       obj (Some "a") (Some 0) None;
                       obj (Some "b") (Some 0) None];
              cls_root_revision := None |} in
  chain s 0 3 = false
  /\ at_revision 3 1 (Some "b") s
     = (Ret (VStr "Not Found"),
        {| heap := [obj None None (Some 1);
                    obj (Some "a") (Some 0) None;
                    obj (Some "b") (Some 0) None];
           cls_root_revision := None |}).
Proof. split; reflexivity. Qed.

(** ** Lookup of an id that no snapshot has *)

(** C3, as the code has it.  On a chain none of whose members has the
    revision id [id], [at_revision] returns the string ["Not Found"]: a
    value that is no snapshot, and a string. *)
Theorem at_revision_not_found_is_string (s : store) (lo hi fuel : nat)
    (a : addr) (id : option string) :
  chain s lo hi = true ->
  lo <= a < hi ->
  hi - lo <= fuel ->
  (forall j, lo <= j < hi -> revision_id_at s j <> Some id) ->
  at_revision fuel a id s = (Ret (VStr "Not Found"), s)
  /\ (forall c, VStr "Not Found" <> VSnapshot c)
  /\ is_string (VStr "Not Found") = true.
Proof.
  intros Hc Ha Hf Hno.
  destruct (at_revision_chain s lo hi id fuel a Hc Ha Hf) as (v & Hv & Hspec).
  destruct v as [c|m].
  - destruct Hspec as (Hcr & Hm & _). exfalso. exact (Hno c Hcr Hm).
  - destruct Hspec as [-> _]. split; [exact Hv|]. split; [discriminate|reflexivity].
Qed.

Lemma at_revision_not_found_is_string_witness :
  let s :=
    snd (from_gcs_prefix_with_revisions decimal_int "gs://bucket/prefix" []
           [record "r1" [] [documentai.mkEntity "" "A" "x" documentai.ADD]]
           {| heap := []; cls_root_revision := None |}) in
  chain s 0 2 = true
  /\ at_revision 2 1 (Some "missing") s = (Ret (VStr "Not Found"), s).
Proof.
  intros s. split; [reflexivity|].
  apply (at_revision_not_found_is_string s 0 2 2 1 (Some "missing"));
    [reflexivity | lia | lia |].
  intros j Hj. destruct j as [|[|j]]; [| |lia]; vm_compute; discriminate.
Defined.

(** C3 as worded fails: the lookup of an id that the chain of one record
    does not have returns a string. *)
Lemma at_revision_missing_returns_string :
  let s :=
    snd (from_gcs_prefix_with_revisions decimal_int "gs://bucket/prefix" []
           [record "r1" [] [documentai.mkEntity "" "A" "x" documentai.ADD]]
           {| heap := []; cls_root_revision := None |}) in
  revision_id_at s 0 = Some None
  /\ revision_id_at s 1 = Some (Some "r1")
  /\ fst (at_revision 2 1 (Some "missing") s) = Ret (VStr "Not Found")
  /\ ~ not_found_is_no_string 2 s 1 (Some "missing").
Proof.
  intros s. repeat split; try reflexivity.
  intros H. specialize (H (VStr "Not Found") eq_refl). discriminate.
Qed.

(** ** Construction of the chain *)

Section BuildFacts.

Variable py_int : string -> option Z.

Lemma body_not_undef e st : fst (_modify_docproto_body py_int e st) <> Undef.
Proof.
  unfold _modify_docproto_body.
  destruct (documentai.provenance_type_ e); simpl; try discriminate;
    unfold bind, int_of, history_append, modify;
    destruct (py_int (documentai.id e)) as [t|]; simpl; try discriminate.
  - unfold entities_pop. destruct (fits_ssize_t (t - 1)); [|discriminate].
    destruct (list_pop (entities_array st) (t - 1)) as [[x l]|]; simpl; discriminate.
  - unfold entities_replace. simpl.
    destruct (norm_index (length (entities_array st)) (t - 1)); simpl; discriminate.
Qed.

Lemma loop_not_undef es st : fst (_modify_docproto_loop py_int es st) <> Undef.
Proof.
  revert st. induction es as [|e es IH]; intros st; [discriminate|].
  unfold _modify_docproto_loop in *. simpl. unfold bind.
  pose proof (body_not_undef e st) as Hb.
  destruct (_modify_docproto_body py_int e st) as [[u|x|] st1]; simpl in *;
    [apply IH | discriminate | done].
Qed.

Lemma record_result_not_undef rev : record_result py_int rev <> Undef.
Proof.
  unfold record_result, _get_revised_documents, _modify_docproto.
  pose proof (loop_not_undef (documentai.entities rev)
                {| entities_array := []; history := [] |}) as H.
  destruct (_modify_docproto_loop py_int (documentai.entities rev) _)
    as [[u|x|] st]; simpl in *; try done.
  destruct (documentai.revisions rev); discriminate.
Qed.

Lemma lookup_snoc_last {A} (h : list A) (x : A) : (h ++ [x]) !! length h = Some x.
Proof. by rewrite list_lookup_middle. Qed.

Lemma lookup_snoc_at {A} (h : list A) (x : A) k :
  k = length h -> (h ++ [x]) !! k = Some x.
Proof. intros ->. apply lookup_snoc_last. Qed.

Lemma insert_snoc_last {A} (h : list A) (x y : A) :
  <[length h := y]> (h ++ [x]) = h ++ [y].
Proof.
  rewrite insert_app_r_alt by lia. by rewrite Nat.sub_diag.
Qed.

Lemma update_snoc_last h n c f k :
  k = length h ->
  update k f {| heap := h ++ [n]; cls_root_revision := c |} =
    (Ret tt, {| heap := h ++ [f n]; cls_root_revision := c |}).
Proof.
  intros ->. unfold update. simpl.
  by rewrite lookup_snoc_last, insert_snoc_last.
Qed.

Lemma update_snoc_front h n c f a x :
  h !! a = Some x ->
  update a f {| heap := h ++ [n]; cls_root_revision := c |} =
    (Ret tt, {| heap := <[a := f x]> h ++ [n]; cls_root_revision := c |}).
Proof.
  intros Hx. pose proof (lookup_lt_Some _ _ _ Hx) as Hlt.
  unfold update. simpl.
  by rewrite lookup_app_l, Hx, insert_app_l.
Qed.

Lemma deref_snoc_front h n c a x :
  h !! a = Some x ->
  deref a {| heap := h ++ [n]; cls_root_revision := c |} =
    (Ret x, {| heap := h ++ [n]; cls_root_revision := c |}).
Proof.
  intros Hx. pose proof (lookup_lt_Some _ _ _ Hx) as Hlt.
  unfold deref. simpl. by rewrite lookup_app_l, Hx.
Qed.

(** One turn of the loop on a record whose replay and first revision
    entry are there: a new object after all others, linked both ways
    with the object the loop came from. *)
Lemma build_body_ret gcs base revisions cur rev s x ents hist r0 :
  heap s !! cur = Some x ->
  record_result py_int rev = Ret (ents, hist, r0) ->
  build_body py_int (document.init base gcs) revisions gcs cur rev s =
    (Ret (length (heap s)),
     {| heap :=
          <[cur := DocumentWithRevisions.set_next_ (Some (length (heap s))) x]>
            (heap s)
          ++ [snapshot_object gcs base revisions ents hist
                (documentai.rev_id r0) (Some cur) None];
        cls_root_revision :=
          if bool_decide (documentai.parent r0 = [])
          then Some (length (heap s)) else cls_root_revision s |}).
Proof.
  intros Hx Hr. unfold record_result in Hr.
  unfold build_body, bind, lift, deepcopy.
  destruct (_get_revised_documents py_int rev) as [[ents' hist']| |];
    [|discriminate|discriminate].
  destruct (documentai.revisions rev) as [|r0' rest] eqn:Hrev; [discriminate|].
  inversion Hr; subst ents' hist' r0'. clear Hr.
  pose proof (lookup_lt_Some _ _ _ Hx) as Hcur.
  unfold alloc. simpl.
  rewrite update_snoc_last by reflexivity.
  rewrite update_snoc_last by reflexivity.
  rewrite (update_snoc_front _ _ _ _ _ _ Hx).
  rewrite update_snoc_last by (by rewrite length_insert).
  rewrite (deref_snoc_front _ _ _ cur
             (DocumentWithRevisions.set_next_ (Some (length (heap s))) x))
    by (by apply list_lookup_insert_eq).
  simpl. unfold set_cls_root_revision, modify, ret.
  destruct (bool_decide (documentai.parent r0 = [])); reflexivity.
Qed.

(** A turn on a record whose replay raises, or that has no revision
    entry, raises; a turn never leaves the model. *)
Lemma build_body_raise gcs base revisions cur rev s e :
  record_result py_int rev = Raise e ->
  fst (build_body py_int (document.init base gcs) revisions gcs cur rev s)
  = Raise e.
Proof.
  intros Hr. unfold record_result in Hr.
  unfold build_body, bind, lift, deepcopy.
  destruct (_get_revised_documents py_int rev) as [[ents hist]|e'|];
    [| by inversion Hr | discriminate].
  destruct (documentai.revisions rev) as [|r0 rest] eqn:Hrev; [|discriminate].
  inversion Hr; subst e. unfold alloc. simpl.
  rewrite update_snoc_last by reflexivity. reflexivity.
Qed.

Lemma set_next__snapshot_object gcs base revisions ents hist rid l n v :
  DocumentWithRevisions.set_next_ v
    (snapshot_object gcs base revisions ents hist rid l n)
  = snapshot_object gcs base revisions ents hist rid l v.
Proof. reflexivity. Qed.

(** The loop, entered with the newest object [x] at [cur]: its outcome
    is [chain_outcome]; when it returns, the objects before [cur] are
    untouched, [x] has got its [next_], and record [k] has its snapshot
    at [S cur + k], linked to its neighbours. *)
Lemma build_loop_spec gcs base revisions revs :
  forall s cur x,
    heap s !! cur = Some x ->
    S cur = length (heap s) ->
    let r := build_loop py_int (document.init base gcs) revisions gcs revs cur s in
    fst r = chain_outcome py_int revs cur
    /\ forall tl, fst r = Ret tl ->
         tl = cur + length revs
         /\ length (heap (snd r)) = length (heap s) + length revs
         /\ (forall i, i < cur -> heap (snd r) !! i = heap s !! i)
         /\ heap (snd r) !! cur
            = Some (if decide (revs = []) then x
                    else DocumentWithRevisions.set_next_ (Some (S cur)) x)
         /\ forall k rev, revs !! k = Some rev ->
              exists ents hist r0,
                record_result py_int rev = Ret (ents, hist, r0)
                /\ heap (snd r) !! (S cur + k)
                   = Some (snapshot_object gcs base revisions ents hist
                             (documentai.rev_id r0) (Some (cur + k))
                             (if decide (S k = length revs) then None
                              else Some (S (S cur) + k))).
Proof.
  induction revs as [|rev revs IH]; intros s cur x Hx Hlen r.
  - subst r. simpl. split; [reflexivity|]. intros tl Htl.
    inversion Htl; subst tl. repeat split; try lia; try done.
  - subst r. simpl. unfold bind.
    destruct (record_result py_int rev) as [[[ents hist] r0]|e|] eqn:Hr.
    + rewrite (build_body_ret gcs base revisions cur rev s x ents hist r0 Hx Hr).
      rewrite <- Hlen.
      set (x' := snapshot_object gcs base revisions ents hist
                   (documentai.rev_id r0) (Some cur) None).
      set (s1 := {| heap := <[cur := DocumentWithRevisions.set_next_
                                       (Some (S cur)) x]> (heap s) ++ [x'];
                    cls_root_revision := _ |}).
      assert (Hl1 : length (<[cur := DocumentWithRevisions.set_next_
                                       (Some (S cur)) x]> (heap s)) = S cur)
        by (rewrite length_insert; lia).
      assert (Hx' : heap s1 !! S cur = Some x').
      { subst s1. simpl. apply lookup_snoc_at. by rewrite Hl1. }
      assert (Hlen' : S (S cur) = length (heap s1)).
      { subst s1. simpl. rewrite length_app, Hl1. simpl. lia. }
      destruct (IH s1 (S cur) x' Hx' Hlen') as [Ho Hfacts].
      split; [exact Ho|]. intros tl Htl.
      destruct (Hfacts tl Htl) as (Htl' & Hlen'' & Hfr & Hcur & Hk).
      split; [simpl; lia|]. split; [simpl; lia|]. split; [|split].
      * intros i Hi. rewrite Hfr by lia. subst s1. simpl.
        rewrite lookup_app_l by lia. by rewrite list_lookup_insert_ne by lia.
      * rewrite Hfr by lia. subst s1. simpl.
        rewrite lookup_app_l by lia. rewrite list_lookup_insert_eq by lia.
        destruct (decide (rev :: revs = [])); [discriminate|reflexivity].
      * intros k rev' Hrev'. destruct k as [|k]; simpl in Hrev'.
        -- inversion Hrev'; subst rev'. exists ents, hist, r0.
           split; [exact Hr|]. rewrite Nat.add_0_r, Hcur. f_equal.
           destruct revs as [|rev2 revs].
           ++ simpl. reflexivity.
           ++ destruct (decide (rev2 :: revs = [])); [discriminate|].
              subst x'. rewrite set_next__snapshot_object.
              destruct (decide (1 = length (rev :: rev2 :: revs)));
                [simpl in *; lia|].
              repeat f_equal; lia.
        -- destruct (Hk k rev' Hrev') as (ents' & hist' & r0' & Hr' & Hn).
           exists ents', hist', r0'. split; [exact Hr'|].
           match goal with
           | |- heap _ !! ?i = _ => replace i with (S (S cur) + k) by lia
           end.
           rewrite Hn. do 2 f_equal; [f_equal; lia|].
           simpl length.
           destruct (decide (S k = length revs)),
                    (decide (S (S k) = S (length revs)));
             try lia; [reflexivity | f_equal; lia].
    + pose proof (build_body_raise gcs base revisions cur rev s e Hr) as Hb.
      destruct (build_body py_int (document.init base gcs) revisions gcs cur rev s)
        as [o s1]. simpl in Hb. subst o. simpl.
      split; [reflexivity|]. intros tl Htl. discriminate.
    + exfalso. exact (record_result_not_undef rev Hr).
Qed.

(** The classmethod run in the store [s]: the base object is allocated
    at [length (heap s)], the snapshot of record [k] right after it at
    [S (length (heap s)) + k]. *)
Lemma from_gcs_prefix_with_revisions_spec gcs base revs s :
  let lo := length (heap s) in
  let r := from_gcs_prefix_with_revisions py_int gcs base revs s in
  fst r = chain_outcome py_int revs lo
  /\ forall tl, fst r = Ret tl ->
       tl = lo + length revs
       /\ length (heap (snd r)) = S lo + length revs
       /\ (forall i, i < lo -> heap (snd r) !! i = heap s !! i)
       /\ heap (snd r) !! lo
          = Some (DocumentWithRevisions.set_next_
                    (if decide (revs = []) then None else Some (S lo))
                    (DocumentWithRevisions.init (document.init base gcs)
                       (map documentai.revisions revs) gcs))
       /\ forall k rev, revs !! k = Some rev ->
            exists ents hist r0,
              record_result py_int rev = Ret (ents, hist, r0)
              /\ heap (snd r) !! (S lo + k)
                 = Some (snapshot_object gcs base
                           (map documentai.revisions revs) ents hist
                           (documentai.rev_id r0) (Some (lo + k))
                           (if decide (S k = length revs) then None
                            else Some (S (S lo) + k))).
Proof.
  intros lo r. subst r. unfold from_gcs_prefix_with_revisions, bind, alloc.
  set (x := DocumentWithRevisions.init (document.init base gcs)
              (map documentai.revisions revs) gcs).
  set (s0 := {| heap := heap s ++ [x];
                cls_root_revision := cls_root_revision s |}).
  assert (Hx : heap s0 !! lo = Some x) by apply lookup_snoc_last.
  assert (Hlen : S lo = length (heap s0)).
  { subst s0. simpl. rewrite length_app. simpl. lia. }
  destruct (build_loop_spec gcs base (map documentai.revisions revs) revs
              s0 lo x Hx Hlen) as [Ho Hfacts].
  split; [exact Ho|]. intros tl Htl.
  destruct (Hfacts tl Htl) as (Htl' & Hl & Hfr & Hcur & Hk).
  split; [exact Htl'|]. split; [rewrite Hlen; exact Hl|]. split; [|split].
  - intros i Hi. etransitivity; [apply Hfr; exact Hi|]. subst s0. simpl.
    by rewrite lookup_app_l.
  - etransitivity; [exact Hcur|]. f_equal.
    destruct (decide (revs = [])); reflexivity.
  - exact Hk.
Qed.

Lemma linked_intro h lo hi a x :
  h !! a = Some x ->
  DocumentWithRevisions.last x = (if decide (a = lo) then None else Some (a - 1)) ->
  DocumentWithRevisions.next_ x = (if decide (S a = hi) then None else Some (S a)) ->
  linked h lo hi a = true.
Proof.
  intros Hx Hl Hn. unfold linked. rewrite Hx.
  by rewrite !bool_decide_eq_true_2.
Qed.

(** What the classmethod returns is the tail of a chain that starts at
    the base object. *)
Lemma from_gcs_prefix_with_revisions_chain gcs base revs s tl :
  fst (from_gcs_prefix_with_revisions py_int gcs base revs s) = Ret tl ->
  chain (snd (from_gcs_prefix_with_revisions py_int gcs base revs s))
        (length (heap s)) (S tl) = true.
Proof.
  intros Htl.
  destruct (from_gcs_prefix_with_revisions_spec gcs base revs s) as [_ Hfacts].
  destruct (Hfacts tl Htl) as (Htl' & Hl & _ & Hbase & Hk). clear Hfacts.
  unfold chain. apply andb_true_intro. split.
  - apply bool_decide_eq_true. lia.
  - apply forallb_forall. intros a Ha. apply in_seq in Ha.
    destruct (decide (a = length (heap s))) as [->|Hne].
    + apply (linked_intro _ _ _ _ _ Hbase).
      * destruct (decide (length (heap s) = length (heap s))); done.
      * destruct (decide (revs = [])) as [->|Hnil];
          destruct (decide (S (length (heap s)) = S tl)) as [He|He];
          try reflexivity; simpl in *; try lia.
        destruct revs; [done | simpl in *; lia].
    + assert (Hk' : exists k, a = S (length (heap s)) + k /\ k < length revs)
        by (exists (a - S (length (heap s))); lia).
      destruct Hk' as (k & -> & Hklt).
      destruct (lookup_lt_is_Some_2 revs k Hklt) as [rev Hrev].
      destruct (Hk k rev Hrev) as (ents & hist & r0 & _ & Hn).
      apply (linked_intro _ _ _ _ _ Hn).
      * cbn [snapshot_object DocumentWithRevisions.last].
        destruct (decide (S (length (heap s)) + k = length (heap s))); [lia|].
        f_equal. lia.
      * cbn [snapshot_object DocumentWithRevisions.next_].
        destruct (decide (S k = length revs)),
                 (decide (S (S (length (heap s)) + k) = S tl));
          try lia; reflexivity.
Qed.

Lemma chain_outcome_shift revs c :
  chain_outcome py_int revs c =
    match chain_outcome py_int revs 0 with
    | Ret t => Ret (c + t)
    | Raise x => Raise x
    | Undef => Undef
    end.
Proof.
  revert c. induction revs as [|rev revs IH]; intros c; simpl.
  - f_equal. lia.
  - destruct (record_result py_int rev); try reflexivity.
    rewrite (IH (S c)), (IH 1).
    destruct (chain_outcome py_int revs 0); try reflexivity. f_equal. lia.
Qed.

Lemma modify_docproto_replay es ents hist :
  _modify_docproto py_int es = Ret (ents, hist) ->
  replay_over py_int [] es = Ret ents.
Proof.
  unfold _modify_docproto, replay_over.
  destruct (_modify_docproto_loop py_int es _) as [[u|x|] st]; try discriminate.
  intros H. by inversion H.
Qed.

Lemma record_result_replay rev ents hist r0 :
  record_result py_int rev = Ret (ents, hist, r0) ->
  replay_over py_int [] (documentai.entities rev) = Ret ents
  /\ _modify_docproto py_int (documentai.entities rev) = Ret (ents, hist)
  /\ list_getitem (documentai.revisions rev) 0%Z = Some r0.
Proof.
  unfold record_result, _get_revised_documents. intros H.
  destruct (_modify_docproto py_int (documentai.entities rev))
    as [[ents' hist']| |] eqn:E; try discriminate.
  destruct (documentai.revisions rev) as [|r0' rest]; [discriminate|].
  inversion H; subst. split; [|split]; try reflexivity.
  by apply modify_docproto_replay with hist.
Qed.

End BuildFacts.

(** ** Each record is replayed on its own *)

(** C1, as the code has it.  When the construction returns, the snapshot
    of record [k] carries the same shards (pages and text) as the
    snapshot before it, which are the base shards, and its entity list
    is the fold of record [k]'s operations over the empty list; its
    history log is the one that fold produced. *)
Theorem snapshot_replays_record_from_empty (py_int : string -> option Z)
    (gcs : string) (base revs : list documentai.Document) (s : store)
    (tl : addr) (k : nat) (rev : documentai.Document) :
  fst (from_gcs_prefix_with_revisions py_int gcs base revs s) = Ret tl ->
  revs !! k = Some rev ->
  let s' := snd (from_gcs_prefix_with_revisions py_int gcs base revs s) in
  exists before x,
    heap s' !! (length (heap s) + k) = Some before
    /\ heap s' !! (S (length (heap s)) + k) = Some x
    /\ document.shards (DocumentWithRevisions.document x) = base
    /\ document.shards (DocumentWithRevisions.document x)
       = document.shards (DocumentWithRevisions.document before)
    /\ replay_over py_int [] (documentai.entities rev)
       = Ret (document.entities (DocumentWithRevisions.document x))
    /\ _modify_docproto py_int (documentai.entities rev)
       = Ret (document.entities (DocumentWithRevisions.document x),
              DocumentWithRevisions.history x).
Proof.
  intros Htl Hrev s'. subst s'.
  destruct (from_gcs_prefix_with_revisions_spec py_int gcs base revs s)
    as [_ Hfacts].
  destruct (Hfacts tl Htl) as (_ & _ & _ & Hbase & Hk). clear Hfacts.
  destruct (Hk k rev Hrev) as (ents & hist & r0 & Hr & Hn).
  destruct (record_result_replay py_int rev ents hist r0 Hr) as (Hrep & Hmod & _).
  assert (Hb : exists before,
             heap (snd (from_gcs_prefix_with_revisions py_int gcs base revs s))
               !! (length (heap s) + k) = Some before
             /\ document.shards (DocumentWithRevisions.document before) = base).
  { destruct k as [|k].
    - rewrite Nat.add_0_r, Hbase. eexists. split; reflexivity.
    - assert (Hklt : k < length revs)
        by (apply lookup_lt_Some in Hrev; lia).
      destruct (lookup_lt_is_Some_2 revs k Hklt) as [rev' Hrev'].
      destruct (Hk k rev' Hrev') as (ents' & hist' & r0' & _ & Hn').
      replace (length (heap s) + S k) with (S (length (heap s)) + k) by lia.
      rewrite Hn'. eexists. split; reflexivity. }
  destruct Hb as (before & Hbefore & Hshards).
  exists before, (snapshot_object gcs base (map documentai.revisions revs)
                    ents hist (documentai.rev_id r0)
                    (Some (length (heap s) + k))
                    (if decide (S k = length revs) then None
                     else Some (S (S (length (heap s))) + k))).
  split; [exact Hbefore|]. split; [exact Hn|]. simpl.
  split; [reflexivity|]. split; [by rewrite Hshards|]. split; assumption.
Qed.

Lemma snapshot_replays_record_from_empty_witness :
  let revs :=
    [record "r1" [] [documentai.mkEntity "" "A" "x" documentai.ADD];
     record "r2" [1%Z] [documentai.mkEntity "" "B" "y" documentai.ADD]] in
  let r := from_gcs_prefix_with_revisions decimal_int "gs://bucket/prefix" []
             revs {| heap := []; cls_root_revision := None |} in
  fst r = Ret 2
  /\ exists before x,
       heap (snd r) !! 1 = Some before
       /\ heap (snd r) !! 2 = Some x
       /\ document.shards (DocumentWithRevisions.document x) = []
       /\ document.shards (DocumentWithRevisions.document x)
          = document.shards (DocumentWithRevisions.document before)
       /\ replay_over decimal_int []
            [documentai.mkEntity "" "B" "y" documentai.ADD]
          = Ret (document.entities (DocumentWithRevisions.document x))
       /\ _modify_docproto decimal_int
            [documentai.mkEntity "" "B" "y" documentai.ADD]
          = Ret (document.entities (DocumentWithRevisions.document x),
                 DocumentWithRevisions.history x).
Proof.
  intros revs r. split; [reflexivity|].
  exact (snapshot_replays_record_from_empty decimal_int "gs://bucket/prefix" []
           revs {| heap := []; cls_root_revision := None |} 2 1
           (record "r2" [1%Z] [documentai.mkEntity "" "B" "y" documentai.ADD])
           eq_refl eq_refl).
Defined.

(** C1 as worded fails: with the records [Add(A, x)] and [Add(B, y)]
    the second snapshot holds the entity of B alone, where the fold of
    the second record over the first snapshot's entity list gives two
    entities. *)
Lemma second_snapshot_ignores_first :
  let revs :=
    [record "r1" [] [documentai.mkEntity "" "A" "x" documentai.ADD];
     record "r2" [1%Z] [documentai.mkEntity "" "B" "y" documentai.ADD]] in
  let r := from_gcs_prefix_with_revisions decimal_int "gs://bucket/prefix" []
             revs {| heap := []; cls_root_revision := None |} in
  fst r = Ret 2
  /\ entities_at (snd r) 1 = Some [entity.mkEntity "A" "x"]
  /\ entities_at (snd r) 2 = Some [entity.mkEntity "B" "y"]
  /\ replay_over decimal_int [entity.mkEntity "A" "x"]
       [documentai.mkEntity "" "B" "y" documentai.ADD]
     = Ret [entity.mkEntity "A" "x"; entity.mkEntity "B" "y"]
  /\ ~ starts_from_predecessor decimal_int (snd r) 0 revs 1.
Proof.
  intros revs r. repeat split; try reflexivity.
  intros H. vm_compute in H. discriminate.
Qed.

(** ** Add and Remove *)

Lemma modify_add (py_int : string -> option Z) (a : documentai.Entity) :
  documentai.provenance_type_ a = documentai.ADD ->
  exists hist, _modify_docproto py_int [a] = Ret ([entity.init a], hist).
Proof.
  intros Ha. unfold _modify_docproto, _modify_docproto_loop. simpl.
  unfold bind. rewrite (body_add py_int a _ (or_introl Ha)). simpl.
  eexists. reflexivity.
Qed.

Lemma modify_add_remove (py_int : string -> option Z)
    (a r : documentai.Entity) :
  documentai.provenance_type_ a = documentai.ADD ->
  documentai.provenance_type_ r = documentai.REMOVE ->
  py_int (documentai.id r) = Some 1%Z ->
  exists hist, _modify_docproto py_int [a; r] = Ret ([], hist).
Proof.
  intros Ha Hr Ht. unfold _modify_docproto, _modify_docproto_loop. simpl.
  unfold bind. rewrite (body_add py_int a _ (or_introl Ha)).
  rewrite (body_remove py_int r _ 1%Z Hr Ht eq_refl). simpl.
  eexists. reflexivity.
Qed.

Lemma modify_remove_alone (py_int : string -> option Z)
    (r : documentai.Entity) :
  documentai.provenance_type_ r = documentai.REMOVE ->
  py_int (documentai.id r) = Some 1%Z ->
  _modify_docproto py_int [r] = Raise IndexError.
Proof.
  intros Hr Ht. unfold _modify_docproto, _modify_docproto_loop. simpl.
  unfold bind. by rewrite (body_remove py_int r _ 1%Z Hr Ht eq_refl).
Qed.

(** C6, as the code has it.  From an empty base, a single record
    [Add(K, T), Remove(target=1)] yields a final snapshot with the empty
    entity list the record started from.  With the Remove in a record of
    its own after the record of the Add, the replay of that record starts
    from an empty list and the construction raises [IndexError]. *)
Theorem add_remove_inverse_within_record (py_int : string -> option Z)
    (gcs K T target : string) (s : store) :
  py_int target = Some 1%Z ->
  let add := documentai.mkEntity "" K T documentai.ADD in
  let rem := documentai.mkEntity target "" "" documentai.REMOVE in
  final_entities
    (from_gcs_prefix_with_revisions py_int gcs []
       [record "r1" [] [add; rem]] s) = Some []
  /\ fst (from_gcs_prefix_with_revisions py_int gcs []
            [record "r1" [] [add]; record "r2" [1%Z] [rem]] s)
     = Raise IndexError.
Proof.
  intros Ht add rem.
  assert (Hboth : exists hist,
             record_result py_int (record "r1" [] [add; rem])
             = Ret ([], hist, documentai.mkRevision "r1" [])).
  { destruct (modify_add_remove py_int add rem eq_refl eq_refl Ht) as [h H].
    exists h. unfold record_result, _get_revised_documents.
    cbn [record documentai.entities documentai.revisions]. by rewrite H. }
  assert (Hadd : exists hist,
             record_result py_int (record "r1" [] [add])
             = Ret ([entity.init add], hist, documentai.mkRevision "r1" [])).
  { destruct (modify_add py_int add eq_refl) as [h H].
    exists h. unfold record_result, _get_revised_documents.
    cbn [record documentai.entities documentai.revisions]. by rewrite H. }
  assert (Hrem : record_result py_int (record "r2" [1%Z] [rem])
                 = Raise IndexError).
  { unfold record_result, _get_revised_documents.
    cbn [record documentai.entities documentai.revisions].
    by rewrite (modify_remove_alone py_int rem eq_refl Ht). }
  destruct Hboth as [hist Hboth]. destruct Hadd as [hist1 Hadd]. split.
  - destruct (from_gcs_prefix_with_revisions_spec py_int gcs []
                [record "r1" [] [add; rem]] s) as [Ho Hfacts].
    cbn [chain_outcome] in Ho. rewrite Hboth in Ho.
    destruct (Hfacts _ Ho) as (_ & _ & _ & _ & Hk).
    destruct (Hk 0 _ eq_refl) as (ents & hist' & r0 & Hr & Hn).
    rewrite Hboth in Hr. inversion Hr; subst ents hist' r0. clear Hr.
    destruct (from_gcs_prefix_with_revisions py_int gcs []
                [record "r1" [] [add; rem]] s) as [o s'].
    simpl in Ho, Hn. subst o. simpl. unfold entities_at.
    rewrite Nat.add_0_r in Hn. by rewrite Hn.
  - destruct (from_gcs_prefix_with_revisions_spec py_int gcs []
                [record "r1" [] [add]; record "r2" [1%Z] [rem]] s) as [Ho _].
    rewrite Ho. cbn [chain_outcome]. by rewrite Hadd, Hrem.
Qed.

Lemma add_remove_inverse_within_record_witness :
  decimal_int "1" = Some 1%Z
  /\ final_entities
       (from_gcs_prefix_with_revisions decimal_int "gs://bucket/prefix" []
          [record "r1" []
             [documentai.mkEntity "" "A" "x" documentai.ADD;
              documentai.mkEntity "1" "" "" documentai.REMOVE]]
          {| heap := []; cls_root_revision := None |}) = Some [].
Proof.
  split; [reflexivity|].
  exact (proj1 (add_remove_inverse_within_record decimal_int
                  "gs://bucket/prefix" "A" "x" "1"
                  {| heap := []; cls_root_revision := None |} eq_refl)).
Defined.

(** C6 as worded fails: with the Add in one record and the Remove in the
    next, the construction raises and yields no final snapshot. *)
Lemma add_then_remove_record_raises :
  fst (from_gcs_prefix_with_revisions decimal_int "gs://bucket/prefix" []
         [record "r1" [] [documentai.mkEntity "" "A" "x" documentai.ADD];
          record "r2" [1%Z] [documentai.mkEntity "1" "" "" documentai.REMOVE]]
         {| heap := []; cls_root_revision := None |})
  = Raise IndexError
  /\ ~ add_then_remove_record_yields_empty decimal_int "A" "x".
Proof.
  split; [reflexivity|].
  unfold add_then_remove_record_yields_empty. intros H.
  vm_compute in H. discriminate.
Qed.

(** ** Two runs of the construction *)

(** Lookups on two chains of the same length whose members carry the
    same revision ids, made on members of the same rank, return members
    of the same rank, or the string on both. *)
Lemma at_revision_agree s1 lo1 hi1 s2 lo2 hi2 id fuel m :
  chain s1 lo1 hi1 = true -> chain s2 lo2 hi2 = true ->
  hi1 - lo1 = hi2 - lo2 ->
  (forall k, k < hi1 - lo1 ->
     revision_id_at s1 (lo1 + k) = revision_id_at s2 (lo2 + k)) ->
  m < hi1 - lo1 -> hi1 - lo1 <= fuel ->
  exists v1 v2,
    at_revision fuel (lo1 + m) id s1 = (Ret v1, s1)
    /\ at_revision fuel (lo2 + m) id s2 = (Ret v2, s2)
    /\ match v1, v2 with
       | VSnapshot c1, VSnapshot c2 =>
           exists k, k < hi1 - lo1 /\ c1 = lo1 + k /\ c2 = lo2 + k
       | VStr m1, VStr m2 => m1 = m2
       | _, _ => False
       end.
Proof.
  intros Hc1 Hc2 Hn Hids Hm Hf.
  destruct (at_revision_chain s1 lo1 hi1 id fuel (lo1 + m) Hc1) as (v1 & Hv1 & H1);
    [lia|lia|].
  destruct (at_revision_chain s2 lo2 hi2 id fuel (lo2 + m) Hc2) as (v2 & Hv2 & H2);
    [lia|lia|].
  exists v1, v2. split; [exact Hv1|]. split; [exact Hv2|].
  assert (T12 : forall k, k < hi1 - lo1 ->
            revision_id_at s1 (lo1 + k) = Some id ->
            revision_id_at s2 (lo2 + k) = Some id)
    by (intros k Hk E; by rewrite <- Hids).
  assert (T21 : forall k, k < hi1 - lo1 ->
            revision_id_at s2 (lo2 + k) = Some id ->
            revision_id_at s1 (lo1 + k) = Some id)
    by (intros k Hk E; by rewrite Hids).
  destruct v1 as [c1|m1], v2 as [c2|m2].
  - destruct H1 as (Hr1 & Hm1 & Hp1), H2 as (Hr2 & Hm2 & Hp2).
    exists (c1 - lo1). split; [lia|]. split; [lia|].
    replace c1 with (lo1 + (c1 - lo1)) in Hm1 by lia.
    replace c2 with (lo2 + (c2 - lo2)) in Hm2 by lia.
    apply T12 in Hm1; [|lia]. apply T21 in Hm2; [|lia].
    destruct (Nat.lt_trichotomy (c1 - lo1) (c2 - lo2)) as [Hlt|[Heq|Hgt]];
      [exfalso | lia | exfalso].
    + destruct Hp1 as [[Hle Hno]|[Hgt Hno]], Hp2 as [[Hle2 Hno2]|[Hgt2 Hno2]].
      * apply (Hno (lo1 + (c2 - lo2))); [lia|exact Hm2].
      * apply (Hno2 (lo2 + (c1 - lo1))); [lia|exact Hm1].
      * lia.
      * apply (Hno2 (lo2 + (c1 - lo1))); [lia|exact Hm1].
    + destruct Hp1 as [[Hle Hno]|[Hgt1 Hno]], Hp2 as [[Hle2 Hno2]|[Hgt2 Hno2]].
      * apply (Hno2 (lo2 + (c1 - lo1))); [lia|exact Hm1].
      * lia.
      * apply (Hno (lo1 + (c2 - lo2))); [lia|exact Hm2].
      * apply (Hno (lo1 + (c2 - lo2))); [lia|exact Hm2].
  - destruct H1 as (Hr1 & Hm1 & _), H2 as [_ Hno2].
    replace c1 with (lo1 + (c1 - lo1)) in Hm1 by lia.
    apply T12 in Hm1; [|lia]. apply (Hno2 (lo2 + (c1 - lo1))); [lia|exact Hm1].
  - destruct H2 as (Hr2 & Hm2 & _), H1 as [_ Hno1].
    replace c2 with (lo2 + (c2 - lo2)) in Hm2 by lia.
    apply T21 in Hm2; [|lia]. apply (Hno1 (lo1 + (c2 - lo2))); [lia|exact Hm2].
  - destruct H1 as [-> _], H2 as [-> _]. reflexivity.
Qed.

Lemma chain_outcome_not_undef (py_int : string -> option Z)
    (revs : list documentai.Document) (c : addr) :
  chain_outcome py_int revs c <> Undef.
Proof.
  revert c. induction revs as [|rev revs IH]; intros c; simpl; [discriminate|].
  pose proof (record_result_not_undef py_int rev) as H.
  destruct (record_result py_int rev); [apply IH | discriminate | done].
Qed.

(** Two constructions that return built snapshots of equal content at
    equal ranks. *)
Lemma snapshots_agree (py_int : string -> option Z) (gcs : string)
    (base revs : list documentai.Document) (s1 s2 : store) (t1 t2 : addr) :
  fst (from_gcs_prefix_with_revisions py_int gcs base revs s1) = Ret t1 ->
  fst (from_gcs_prefix_with_revisions py_int gcs base revs s2) = Ret t2 ->
  forall k, k <= length revs ->
    exists x1 x2,
      heap (snd (from_gcs_prefix_with_revisions py_int gcs base revs s1))
        !! (length (heap s1) + k) = Some x1
      /\ heap (snd (from_gcs_prefix_with_revisions py_int gcs base revs s2))
           !! (length (heap s2) + k) = Some x2
      /\ DocumentWithRevisions.revision_id x1
         = DocumentWithRevisions.revision_id x2
      /\ DocumentWithRevisions.document x1 = DocumentWithRevisions.document x2
      /\ DocumentWithRevisions.history x1 = DocumentWithRevisions.history x2.
Proof.
  intros H1 H2 k Hk.
  destruct (from_gcs_prefix_with_revisions_spec py_int gcs base revs s1)
    as [_ F1].
  destruct (from_gcs_prefix_with_revisions_spec py_int gcs base revs s2)
    as [_ F2].
  destruct (F1 t1 H1) as (_ & _ & _ & Hb1 & Hk1).
  destruct (F2 t2 H2) as (_ & _ & _ & Hb2 & Hk2). clear F1 F2.
  destruct k as [|k].
  - rewrite !Nat.add_0_r, Hb1, Hb2. eexists _, _.
    split; [reflexivity|]. split; [reflexivity|]. repeat split.
  - destruct (lookup_lt_is_Some_2 revs k) as [rev Hrev]; [lia|].
    destruct (Hk1 k rev Hrev) as (e1 & h1 & r1 & Hr1 & Hn1).
    destruct (Hk2 k rev Hrev) as (e2 & h2 & r2 & Hr2 & Hn2).
    rewrite Hr1 in Hr2. inversion Hr2; subst e2 h2 r2. clear Hr2.
    replace (length (heap s1) + S k) with (S (length (heap s1)) + k) by lia.
    replace (length (heap s2) + S k) with (S (length (heap s2)) + k) by lia.
    rewrite Hn1, Hn2. eexists _, _.
    split; [reflexivity|]. split; [reflexivity|]. repeat split.
Qed.

(** C8.  Two runs of the construction on the same input, in whatever
    stores they start, end alike: both raise the same exception, or both
    return and then the snapshots of equal rank have the same revision
    id, the same entity list and the same history log, and a lookup of
    any revision id from the returned snapshot shows the same in both
    runs. *)
Theorem construction_is_deterministic (py_int : string -> option Z)
    (gcs : string) (base revs : list documentai.Document) (s1 s2 : store) :
  let r1 := from_gcs_prefix_with_revisions py_int gcs base revs s1 in
  let r2 := from_gcs_prefix_with_revisions py_int gcs base revs s2 in
  match fst r1, fst r2 with
  | Ret t1, Ret t2 =>
      t1 = length (heap s1) + length revs
      /\ t2 = length (heap s2) + length revs
      /\ (forall k, k <= length revs ->
            revision_id_at (snd r1) (length (heap s1) + k)
              = revision_id_at (snd r2) (length (heap s2) + k)
            /\ is_Some (entities_at (snd r1) (length (heap s1) + k))
            /\ entities_at (snd r1) (length (heap s1) + k)
               = entities_at (snd r2) (length (heap s2) + k)
            /\ history_at (snd r1) (length (heap s1) + k)
               = history_at (snd r2) (length (heap s2) + k))
      /\ (forall id fuel, length revs < fuel ->
            exists v1 v2,
              at_revision fuel t1 id (snd r1) = (Ret v1, snd r1)
              /\ at_revision fuel t2 id (snd r2) = (Ret v2, snd r2)
              /\ snapshot_view (snd r1) v1 = snapshot_view (snd r2) v2)
  | Raise e1, Raise e2 => e1 = e2
  | _, _ => False
  end.
Proof.
  intros r1 r2.
  destruct (from_gcs_prefix_with_revisions_spec py_int gcs base revs s1)
    as [O1 F1].
  destruct (from_gcs_prefix_with_revisions_spec py_int gcs base revs s2)
    as [O2 F2].
  fold r1 in O1, F1. fold r2 in O2, F2.
  rewrite chain_outcome_shift in O1. rewrite chain_outcome_shift in O2.
  pose proof (from_gcs_prefix_with_revisions_chain py_int gcs base revs s1) as C1.
  pose proof (from_gcs_prefix_with_revisions_chain py_int gcs base revs s2) as C2.
  pose proof (snapshots_agree py_int gcs base revs s1 s2) as A.
  fold r1 in C1, A. fold r2 in C2, A.
  pose proof (chain_outcome_not_undef py_int revs 0) as NU.
  destruct (chain_outcome py_int revs 0) as [t|e|]; [| |done].
  2:{ rewrite O1, O2. reflexivity. }
  rewrite O1, O2.
  destruct (F1 _ O1) as (T1 & _). destruct (F2 _ O2) as (T2 & _).
  specialize (C1 _ O1). specialize (C2 _ O2). specialize (A _ _ O1 O2).
  split; [exact T1|]. split; [exact T2|].
  assert (P : forall k, k <= length revs ->
            revision_id_at (snd r1) (length (heap s1) + k)
              = revision_id_at (snd r2) (length (heap s2) + k)
            /\ is_Some (entities_at (snd r1) (length (heap s1) + k))
            /\ entities_at (snd r1) (length (heap s1) + k)
               = entities_at (snd r2) (length (heap s2) + k)
            /\ history_at (snd r1) (length (heap s1) + k)
               = history_at (snd r2) (length (heap s2) + k)).
  { intros k Hk. destruct (A k Hk) as (x1 & x2 & E1 & E2 & Hi & Hd & Hh).
    unfold revision_id_at, entities_at, history_at. rewrite E1, E2. simpl.
    rewrite Hi, Hd, Hh. repeat split. by eexists. }
  split; [exact P|].
  intros id fuel Hfuel.
  destruct (at_revision_agree (snd r1) (length (heap s1))
              (S (length (heap s1) + t)) (snd r2) (length (heap s2))
              (S (length (heap s2) + t)) id fuel (length revs) C1 C2)
    as (v1 & v2 & Hv1 & Hv2 & Hm); [lia| |lia|lia|].
  { intros k Hk. apply P. lia. }
  rewrite <- T1 in Hv1. rewrite <- T2 in Hv2.
  exists v1, v2. split; [exact Hv1|]. split; [exact Hv2|].
  destruct v1 as [c1|m1], v2 as [c2|m2]; try done.
  - destruct Hm as (k & Hk & -> & ->).
    destruct (A k) as (x1 & x2 & E1 & E2 & Hi & Hd & Hh); [lia|].
    unfold snapshot_view. rewrite E1, E2. simpl. by rewrite Hi, Hd, Hh.
  - by subst m2.
Qed.

(** * Further properties of the replay *)

Local Open Scope Z_scope.

Section ReplayInvariants.

Variable py_int : string -> option Z.

(** What one successful turn of the loop does to the two lists: at most
    one history entry, which names the operation, and the entity count
    moves by the kind of the operation. *)
Lemma body_ret_facts e st st' :
  _modify_docproto_body py_int e st = (Ret tt, st') ->
  (exists hs,
     history st' = history st ++ hs
     /\ map original_entity hs = (if effective e then [e] else [])
     /\ Forall (fun h => object_ h = "Entity"
                         /\ entity_provenance_type h
                            = documentai.name
                                (documentai.provenance_type_ (original_entity h)))
               hs)
  /\ (length (entities_array st') + (if removes e then 1 else 0)
      = length (entities_array st) + (if adds e then 1 else 0))%nat.
Proof.
  unfold effective, removes, adds.
  destruct (documentai.provenance_type_ e) eqn:Hp.
  - rewrite (body_add py_int e st (or_intror Hp)). intros H; inversion H; subst st'.
    simpl. split.
    + eexists. split; [reflexivity|]. split; [reflexivity|].
      repeat constructor.
    + rewrite length_app. simpl. lia.
  - rewrite (body_add py_int e st (or_introl Hp)). intros H; inversion H; subst st'.
    simpl. split.
    + eexists. split; [reflexivity|]. split; [reflexivity|].
      repeat constructor.
    + rewrite length_app. simpl. lia.
  - destruct (py_int (documentai.id e)) as [t|] eqn:Ht.
    + destruct (fits_ssize_t (t - 1)) eqn:Hfit;
        [|rewrite (body_remove_overflow py_int e st t Hp Ht Hfit); discriminate].
      rewrite (body_remove py_int e st t Hp Ht Hfit).
      destruct (list_pop (entities_array st) (t - 1)) as [[x l]|] eqn:E;
        [|discriminate].
      intros H; inversion H; subst st'. simpl. split.
      * eexists. split; [reflexivity|]. split; [reflexivity|].
        repeat constructor. simpl. by rewrite Hp.
      * unfold list_pop in E.
        destruct (norm_index (length (entities_array st)) (t - 1)) as [k|];
          [|discriminate].
        destruct (entities_array st !! k) as [y|] eqn:Ey; [|discriminate].
        inversion E; subst x l.
        rewrite length_delete by (by eexists).
        apply lookup_lt_Some in Ey. lia.
    + unfold _modify_docproto_body. rewrite Hp. simpl.
      unfold bind, int_of. rewrite Ht. discriminate.
  - unfold _modify_docproto_body. rewrite Hp. simpl.
    intros H; inversion H; subst st'. split.
    + exists []. rewrite app_nil_r. repeat split. constructor.
    + lia.
  - destruct (py_int (documentai.id e)) as [t|] eqn:Ht.
    + pose proof (body_replace py_int e st t Hp Ht) as Hb. simpl in Hb.
      rewrite Hb.
      destruct (norm_index (length (entities_array st)) (t - 1)) as [k|];
        [|discriminate].
      intros H; inversion H; subst st'. simpl. split.
      * eexists. split; [reflexivity|]. split; [reflexivity|].
        repeat constructor. simpl. by rewrite Hp.
      * rewrite length_alter. lia.
    + unfold _modify_docproto_body. rewrite Hp. simpl.
      unfold bind, int_of, history_append, modify. rewrite Ht. discriminate.
  - unfold _modify_docproto_body. rewrite Hp. simpl.
    intros H; inversion H; subst st'. split.
    + exists []. rewrite app_nil_r. repeat split. constructor.
    + lia.
  - unfold _modify_docproto_body. rewrite Hp. simpl.
    intros H; inversion H; subst st'. split.
    + exists []. rewrite app_nil_r. repeat split. constructor.
    + lia.
  - unfold _modify_docproto_body. rewrite Hp. simpl.
    intros H; inversion H; subst st'. split.
    + exists []. rewrite app_nil_r. repeat split. constructor.
    + lia.
Qed.

Lemma loop_cons_ret e es st st' :
  _modify_docproto_loop py_int (e :: es) st = (Ret tt, st') ->
  exists st1,
    _modify_docproto_body py_int e st = (Ret tt, st1)
    /\ _modify_docproto_loop py_int es st1 = (Ret tt, st').
Proof.
  unfold _modify_docproto_loop. simpl. unfold bind.
  destruct (_modify_docproto_body py_int e st) as [[[]|x|] st1];
    try discriminate.
  intros H. exists st1. split; [reflexivity|exact H].
Qed.

Lemma loop_ret_facts es :
  forall st st',
    _modify_docproto_loop py_int es st = (Ret tt, st') ->
    (exists hs,
       history st' = history st ++ hs
       /\ map original_entity hs = List.filter effective es
       /\ Forall (fun h => object_ h = "Entity"
                           /\ entity_provenance_type h
                              = documentai.name
                                  (documentai.provenance_type_
                                     (original_entity h)))
                 hs)
    /\ (length (entities_array st') + length (List.filter removes es)
        = length (entities_array st) + length (List.filter adds es))%nat.
Proof.
  induction es as [|e es IH]; intros st st' H.
  - inversion H; subst st'. split; [|simpl; lia].
    exists []. rewrite app_nil_r. repeat split. constructor.
  - destruct (loop_cons_ret e es st st' H) as (st1 & Hb & Hl).
    destruct (body_ret_facts e st st1 Hb) as [(hs1 & Hh1 & Hm1 & Hf1) Hc1].
    destruct (IH st1 st' Hl) as [(hs2 & Hh2 & Hm2 & Hf2) Hc2].
    split.
    + exists (hs1 ++ hs2). split; [by rewrite Hh2, Hh1, app_assoc|].
      split; [|by apply Forall_app].
      rewrite map_app, Hm1, Hm2. simpl.
      destruct (effective e); reflexivity.
    + simpl. destruct (removes e), (adds e); simpl in *; lia.
Qed.

End ReplayInvariants.

(** X1.  When [_modify_docproto] returns, its history lists the
    operations that leave an entry (ADD, unspecified, REMOVE, REPLACE) in
    the order of the input, one entry each, every entry marked "Entity"
    and carrying the name of its operation's provenance type; the other
    provenance types leave no entry. *)
Theorem history_lists_effective_operations (py_int : string -> option Z)
    (es : list documentai.Entity) (ents : list entity.Entity)
    (hist : list HistoryEntry) :
  _modify_docproto py_int es = Ret (ents, hist) ->
  map original_entity hist = List.filter effective es
  /\ Forall (fun h => object_ h = "Entity"
                      /\ entity_provenance_type h
                         = documentai.name
                             (documentai.provenance_type_ (original_entity h)))
            hist.
Proof.
  unfold _modify_docproto. intros H.
  destruct (_modify_docproto_loop py_int es
              {| entities_array := []; history := [] |})
    as [[[]|x|] st'] eqn:E; try discriminate.
  inversion H; subst ents hist.
  destruct (loop_ret_facts py_int es _ _ E) as [(hs & Hh & Hm & Hf) _].
  simpl in Hh. rewrite Hh. split; assumption.
Qed.

Lemma history_lists_effective_operations_witness :
  let es := [documentai.mkEntity "" "A" "x" documentai.ADD;
             documentai.mkEntity "" "U" "u" documentai.UPDATE;
             documentai.mkEntity "1" "B" "y" documentai.REPLACE;
             documentai.mkEntity "1" "" "" documentai.REMOVE] in
  exists ents hist,
    _modify_docproto decimal_int es = Ret (ents, hist)
    /\ map original_entity hist = List.filter effective es.
Proof.
  intros es. eexists _, _. split; [vm_compute; reflexivity|].
  exact (proj1 (history_lists_effective_operations decimal_int es _ _ eq_refl)).
Defined.

(** X2.  When [_modify_docproto] returns, the number of entities it
    returns is the number of adding operations (ADD or unspecified) less
    the number of REMOVE operations of the input. *)
Theorem entity_count_is_adds_less_removes (py_int : string -> option Z)
    (es : list documentai.Entity) (ents : list entity.Entity)
    (hist : list HistoryEntry) :
  _modify_docproto py_int es = Ret (ents, hist) ->
  (length ents + length (List.filter removes es)
   = length (List.filter adds es))%nat.
Proof.
  unfold _modify_docproto. intros H.
  destruct (_modify_docproto_loop py_int es
              {| entities_array := []; history := [] |})
    as [[[]|x|] st'] eqn:E; try discriminate.
  inversion H; subst ents hist.
  destruct (loop_ret_facts py_int es _ _ E) as [_ Hc]. simpl in Hc. exact Hc.
Qed.

Lemma entity_count_is_adds_less_removes_witness :
  let es := [documentai.mkEntity "" "A" "x" documentai.ADD;
             documentai.mkEntity "" "B" "y" documentai.ADD;
             documentai.mkEntity "1" "C" "z" documentai.REPLACE;
             documentai.mkEntity "1" "" "" documentai.REMOVE] in
  (1 + length (List.filter removes es) = length (List.filter adds es))%nat.
Proof.
  intros es.
  exact (entity_count_is_adds_less_removes decimal_int es
           [entity.mkEntity "B" "y"] _ eq_refl).
Defined.

Lemma body_not_effective (py_int : string -> option Z)
    (e : documentai.Entity) (st : mstate) :
  effective e = false -> _modify_docproto_body py_int e st = (Ret tt, st).
Proof.
  unfold effective, _modify_docproto_body.
  destruct (documentai.provenance_type_ e); try discriminate; reflexivity.
Qed.

Lemma loop_filter_effective (py_int : string -> option Z)
    (es : list documentai.Entity) :
  forall st,
    _modify_docproto_loop py_int es st
    = _modify_docproto_loop py_int (List.filter effective es) st.
Proof.
  induction es as [|e es IH]; intros st; [reflexivity|].
  simpl. destruct (effective e) eqn:He.
  - unfold _modify_docproto_loop in *. simpl. unfold bind.
    destruct (_modify_docproto_body py_int e st) as [[[]|x|] st1];
      [apply IH | reflexivity | reflexivity].
  - unfold _modify_docproto_loop in *. simpl. unfold bind.
    rewrite (body_not_effective py_int e st He). apply IH.
Qed.

(** X3.  Operations of the provenance types the loop has no branch for
    (UPDATE and the three EVAL types) change nothing wherever they stand:
    [_modify_docproto] gives the same result, or raises the same
    exception, with them removed from the input. *)
Theorem other_provenance_types_are_skipped (py_int : string -> option Z)
    (es : list documentai.Entity) :
  _modify_docproto py_int es
  = _modify_docproto py_int (List.filter effective es).
Proof.
  unfold _modify_docproto. by rewrite loop_filter_effective.
Qed.

(** X4.  A record of adding operations only (ADD or unspecified) never
    fails: [_modify_docproto] returns the wrapped entities of the input in
    the order of the input, with one history entry each. *)
Theorem adds_only_never_fail (py_int : string -> option Z)
    (es : list documentai.Entity) :
  Forall (fun e => adds e = true) es ->
  exists hist,
    _modify_docproto py_int es = Ret (map entity.init es, hist)
    /\ map original_entity hist = es.
Proof.
  intros Hall. unfold _modify_docproto.
  assert (H : forall st,
             exists hs,
               _modify_docproto_loop py_int es st
               = (Ret tt,
                  {| entities_array := entities_array st ++ map entity.init es;
                     history := history st ++ hs |})
               /\ map original_entity hs = es).
  { induction Hall as [|e es He _ IH]; intros st.
    - exists []. rewrite !app_nil_r. destruct st. split; reflexivity.
    - assert (Hp : documentai.provenance_type_ e = documentai.ADD
                   \/ documentai.provenance_type_ e
                      = documentai.OPERATION_TYPE_UNSPECIFIED).
      { unfold adds in He.
        destruct (documentai.provenance_type_ e); try discriminate; auto. }
      unfold _modify_docproto_loop in *. simpl. unfold bind.
      rewrite (body_add py_int e st Hp).
      destruct (IH {| entities_array := entities_array st ++ [entity.init e];
                      history := history st ++
                        [{| object_ := "Entity";
                            entity_provenance_type :=
                              documentai.name (documentai.provenance_type_ e);
                            original_entity := e;
                            original_type := documentai.type_ e;
                            original_text := documentai.mention_text e;
                            replace_type := None;
                            replace_text := None |}] |})
        as (hs & Hl & Hm).
      eexists (_ :: hs). rewrite Hl. simpl. rewrite <- !app_assoc. simpl.
      split; [reflexivity|]. simpl. by rewrite Hm. }
  destruct (H {| entities_array := []; history := [] |}) as (hs & Hl & Hm).
  rewrite Hl. simpl. exists hs. split; [reflexivity|exact Hm].
Qed.

Lemma adds_only_never_fail_witness :
  let es := [documentai.mkEntity "" "A" "x" documentai.ADD;
             documentai.mkEntity "" "B" "y"
               documentai.OPERATION_TYPE_UNSPECIFIED] in
  exists hist,
    _modify_docproto decimal_int es
    = Ret ([entity.mkEntity "A" "x"; entity.mkEntity "B" "y"], hist)
    /\ map original_entity hist = es.
Proof.
  intros es.
  apply (adds_only_never_fail decimal_int es). repeat constructor.
Defined.

Lemma body_non_integer_id (py_int : string -> option Z)
    (e : documentai.Entity) (st : mstate) :
  py_int (documentai.id e) = None ->
  (documentai.provenance_type_ e = documentai.REMOVE ->
   _modify_docproto_body py_int e st = (Raise ValueError, st))
  /\ (documentai.provenance_type_ e = documentai.REPLACE ->
      exists h,
        original_entity h = e
        /\ _modify_docproto_body py_int e st
           = (Raise ValueError,
              {| entities_array := entities_array st;
                 history := history st ++ [h] |})).
Proof.
  intros Hn. split; intros Hp; unfold _modify_docproto_body; rewrite Hp; simpl;
    unfold bind, int_of, history_append, modify; rewrite Hn.
  - reflexivity.
  - eexists. split; [|reflexivity]. reflexivity.
Qed.

(** X5.  An id that [int] does not accept makes a REMOVE raise
    [ValueError] with both lists as they were, and makes a REPLACE raise
    [ValueError] with its history entry already appended and the entity
    list as it was. *)
Theorem non_integer_id_raises_ValueError (py_int : string -> option Z)
    (e : documentai.Entity) (st : mstate) :
  py_int (documentai.id e) = None ->
  (documentai.provenance_type_ e = documentai.REMOVE ->
   _modify_docproto_body py_int e st = (Raise ValueError, st))
  /\ (documentai.provenance_type_ e = documentai.REPLACE ->
      exists h,
        original_entity h = e
        /\ _modify_docproto_body py_int e st
           = (Raise ValueError,
              {| entities_array := entities_array st;
                 history := history st ++ [h] |})
        /\ length (history (snd (_modify_docproto_body py_int e st)))
           = S (length (history st))).
Proof.
  intros Hn. destruct (body_non_integer_id py_int e st Hn) as [H1 H2].
  split; [exact H1|]. intros Hp. destruct (H2 Hp) as (h & Hh & Hb).
  exists h. split; [exact Hh|]. split; [exact Hb|].
  rewrite Hb. simpl. rewrite length_app. simpl. lia.
Qed.

Lemma non_integer_id_raises_ValueError_witness :
  let e := documentai.mkEntity "first" "" "" documentai.REMOVE in
  let st := {| entities_array := [entity.mkEntity "A" "x"]; history := [] |} in
  decimal_int (documentai.id e) = None
  /\ _modify_docproto_body decimal_int e st = (Raise ValueError, st).
Proof.
  intros e st. split; [reflexivity|].
  exact (proj1 (non_integer_id_raises_ValueError decimal_int e st eq_refl)
           eq_refl).
Defined.

(** X6.  A REPLACE whose target [t] lies in [1 .. len] rewrites the
    entity at position [t - 1] to the payload's kind and text and touches
    nothing else: the list keeps its length and every other position
    keeps its entity. *)
Theorem replace_rewrites_only_its_target (py_int : string -> option Z)
    (e : documentai.Entity) (st : mstate) (t : Z) :
  documentai.provenance_type_ e = documentai.REPLACE ->
  py_int (documentai.id e) = Some t ->
  1 <= t <= Z.of_nat (length (entities_array st)) ->
  let r := _modify_docproto_body py_int e st in
  fst r = Ret tt
  /\ length (entities_array (snd r)) = length (entities_array st)
  /\ entities_array (snd r) !! Z.to_nat (t - 1)
     = Some {| entity.type_ := documentai.type_ e;
               entity.mention_text := documentai.mention_text e |}
  /\ forall j, j <> Z.to_nat (t - 1) ->
       entities_array (snd r) !! j = entities_array st !! j.
Proof.
  intros Hp Ht Hr r. subst r.
  rewrite (replace_in_range py_int st e t (Z.to_nat (t - 1)) Hp Ht)
    by (apply norm_index_nonneg; lia).
  simpl. split; [reflexivity|]. split; [apply length_insert|]. split.
  - apply list_lookup_insert_eq. lia.
  - intros j Hj. by apply list_lookup_insert_ne.
Qed.

Lemma replace_rewrites_only_its_target_witness :
  let e := documentai.mkEntity "2" "C" "z" documentai.REPLACE in
  let st := {| entities_array := [entity.mkEntity "A" "x";
                                  entity.mkEntity "B" "y"];
               history := [] |} in
  entities_array (snd (_modify_docproto_body decimal_int e st))
  = [entity.mkEntity "A" "x"; entity.mkEntity "C" "z"]
  /\ forall j, j <> 1%nat ->
       entities_array (snd (_modify_docproto_body decimal_int e st)) !! j
       = entities_array st !! j.
Proof.
  intros e st. split; [reflexivity|].
  apply (replace_rewrites_only_its_target decimal_int e st 2 eq_refl eq_refl).
  simpl. lia.
Defined.

(** X7.  An adding operation followed at once by a REMOVE with target 0
    leaves the entity list as it was before the two, whatever it held;
    the history has grown by the two entries. *)
Theorem add_then_remove_zero_restores (py_int : string -> option Z)
    (a r : documentai.Entity) (st : mstate) :
  adds a = true ->
  documentai.provenance_type_ r = documentai.REMOVE ->
  py_int (documentai.id r) = Some 0 ->
  exists h1 h2,
    _modify_docproto_loop py_int [a; r] st
    = (Ret tt,
       {| entities_array := entities_array st;
          history := history st ++ [h1; h2] |})
    /\ original_entity h1 = a /\ original_entity h2 = r
    /\ original_type h2 = documentai.type_ a
    /\ original_text h2 = documentai.mention_text a.
Proof.
  intros Ha Hr Ht.
  assert (Hp : documentai.provenance_type_ a = documentai.ADD
               \/ documentai.provenance_type_ a
                  = documentai.OPERATION_TYPE_UNSPECIFIED).
  { unfold adds in Ha.
    destruct (documentai.provenance_type_ a); try discriminate; auto. }
  unfold _modify_docproto_loop. simpl. unfold bind.
  rewrite (body_add py_int a st Hp).
  rewrite (body_remove py_int r _ 0 Hr Ht eq_refl). simpl.
  unfold list_pop.
  rewrite norm_index_neg by (rewrite length_app; simpl; lia).
  replace (Z.to_nat (0 - 1 + Z.of_nat (length (entities_array st ++ [entity.init a]))))
    with (length (entities_array st)) by (rewrite length_app; simpl; lia).
  rewrite lookup_app_r by lia. rewrite Nat.sub_diag. simpl.
  rewrite delete_last. unfold ret.
  eexists _, _. rewrite <- app_assoc. simpl.
  split; [reflexivity|]. repeat split.
Qed.

Lemma add_then_remove_zero_restores_witness :
  let a := documentai.mkEntity "" "B" "y" documentai.ADD in
  let r := documentai.mkEntity "0" "" "" documentai.REMOVE in
  let st := {| entities_array := [entity.mkEntity "A" "x"]; history := [] |} in
  exists h1 h2,
    _modify_docproto_loop decimal_int [a; r] st
    = (Ret tt,
       {| entities_array := [entity.mkEntity "A" "x"];
          history := [] ++ [h1; h2] |})
    /\ original_entity h1 = a /\ original_entity h2 = r
    /\ original_type h2 = "B" /\ original_text h2 = "y".
Proof.
  intros a r st.
  exact (add_then_remove_zero_restores decimal_int a r st
           eq_refl eq_refl eq_refl).
Defined.

(** X8.  The first operation that raises decides the outcome: when
    [_modify_docproto] raises on a list of operations, it raises the same
    exception on every list that extends it. *)
Theorem first_failure_decides (py_int : string -> option Z)
    (es1 es2 : list documentai.Entity) (x : exn) :
  _modify_docproto py_int es1 = Raise x ->
  _modify_docproto py_int (es1 ++ es2) = Raise x.
Proof.
  unfold _modify_docproto. rewrite loop_app. unfold bind.
  destruct (_modify_docproto_loop py_int es1
              {| entities_array := []; history := [] |})
    as [[[]|y|] st1]; try discriminate.
  intros H. exact H.
Qed.

Lemma first_failure_decides_witness :
  _modify_docproto decimal_int
    ([documentai.mkEntity "" "A" "x" documentai.ADD;
      documentai.mkEntity "5" "" "" documentai.REMOVE]
     ++ [documentai.mkEntity "" "B" "y" documentai.ADD])
  = Raise IndexError.
Proof.
  apply (first_failure_decides decimal_int). reflexivity.
Defined.

(** X9.  Every replay starts from an empty entity list, so a list of
    operations whose first effective operation is a REMOVE or a REPLACE
    is never replayed: [_modify_docproto] raises.  It raises [ValueError]
    when [int] rejects the id; for an integer id [t], a REMOVE raises
    [OverflowError] when [t - 1] does not fit a C [ssize_t] and
    [IndexError] otherwise, and a REPLACE raises [IndexError]. *)
Theorem replay_starting_with_remove_or_replace_raises
    (py_int : string -> option Z)
    (skipped : list documentai.Entity) (e : documentai.Entity)
    (es : list documentai.Entity) :
  Forall (fun s => effective s = false) skipped ->
  documentai.provenance_type_ e = documentai.REMOVE
  \/ documentai.provenance_type_ e = documentai.REPLACE ->
  _modify_docproto py_int (skipped ++ e :: es)
  = Raise (match py_int (documentai.id e) with
           | None => ValueError
           | Some t =>
               if bool_decide (documentai.provenance_type_ e
                               = documentai.REMOVE)
                  && negb (fits_ssize_t (t - 1))
               then OverflowError
               else IndexError
           end).
Proof.
  intros Hs Hp. unfold _modify_docproto.
  rewrite loop_filter_effective, List.filter_app.
  replace (List.filter effective skipped) with (@nil documentai.Entity).
  2:{ induction Hs as [|s l Hs' _ IH]; [reflexivity|].
      simpl. by rewrite Hs'. }
  assert (He : effective e = true)
    by (unfold effective; destruct Hp as [-> | ->]; reflexivity).
  simpl. rewrite He.
  unfold _modify_docproto_loop. simpl. unfold bind.
  destruct (py_int (documentai.id e)) as [t|] eqn:Ht.
  - destruct Hp as [Hp|Hp].
    + rewrite bool_decide_eq_true_2 by exact Hp.
      destruct (fits_ssize_t (t - 1)) eqn:Hfit; simpl.
      * rewrite (body_remove py_int e _ t Hp Ht Hfit). simpl.
        replace (list_pop (@nil entity.Entity) (t - 1))
          with (@None (entity.Entity * list entity.Entity)); [reflexivity|].
        symmetry. apply list_pop_None. simpl. lia.
      * by rewrite (body_remove_overflow py_int e _ t Hp Ht Hfit).
    + rewrite bool_decide_eq_false_2 by (rewrite Hp; discriminate). simpl.
      pose proof (body_replace py_int e
                    {| entities_array := []; history := [] |} t Hp Ht) as Hb.
      simpl in Hb. rewrite Hb.
      replace (norm_index 0 (t - 1)) with (@None nat); [reflexivity|].
      symmetry. apply norm_index_None. simpl. lia.
  - destruct Hp as [Hp|Hp].
    + by rewrite (proj1 (body_non_integer_id py_int e _ Ht) Hp).
    + destruct (proj2 (body_non_integer_id py_int e
                         {| entities_array := []; history := [] |} Ht) Hp)
        as (h & _ & Hb).
      by rewrite Hb.
Qed.

Lemma replay_starting_with_remove_or_replace_raises_witness :
  _modify_docproto decimal_int
    ([documentai.mkEntity "" "U" "u" documentai.UPDATE]
     ++ documentai.mkEntity "1" "B" "y" documentai.REPLACE
        :: [documentai.mkEntity "" "A" "x" documentai.ADD])
  = Raise IndexError
  /\ _modify_docproto decimal_int
       ([] ++ documentai.mkEntity "9223372036854775809" "" ""
                documentai.REMOVE
              :: [])
     = Raise OverflowError.
Proof.
  split.
  - apply (replay_starting_with_remove_or_replace_raises decimal_int
             [documentai.mkEntity "" "U" "u" documentai.UPDATE]
             (documentai.mkEntity "1" "B" "y" documentai.REPLACE)
             [documentai.mkEntity "" "A" "x" documentai.ADD]);
      [repeat constructor | right; reflexivity].
  - apply (replay_starting_with_remove_or_replace_raises decimal_int []
             (documentai.mkEntity "9223372036854775809" "" ""
                documentai.REMOVE) []);
      [constructor | left; reflexivity].
Defined.

Local Close Scope Z_scope.

(** * Further properties of the lookup *)

(** X10.  On a chain, a revision id that some member has is always
    found: called on any member, [at_revision] returns a snapshot that
    has the id, never the string, and leaves the store as it was. *)
Theorem at_revision_finds_present_id (s : store) (lo hi fuel : nat)
    (a j : addr) (id : option string) :
  chain s lo hi = true ->
  lo <= a < hi ->
  hi - lo <= fuel ->
  lo <= j < hi ->
  revision_id_at s j = Some id ->
  exists c,
    at_revision fuel a id s = (Ret (VSnapshot c), s)
    /\ lo <= c < hi
    /\ revision_id_at s c = Some id.
Proof.
  intros Hc Ha Hf Hj Hid.
  destruct (at_revision_chain s lo hi id fuel a Hc Ha Hf) as (v & Hv & Hspec).
  destruct v as [c|m].
  - exists c. destruct Hspec as (Hr & Hm & _). done.
  - destruct Hspec as [_ Hno]. exfalso. exact (Hno j Hj Hid).
Qed.

Lemma at_revision_finds_present_id_witness :
  let s :=
    snd (from_gcs_prefix_with_revisions decimal_int "gs://bucket/prefix" []
           [record "r1" [] [documentai.mkEntity "" "A" "x" documentai.ADD];
            record "r2" [1%Z] [documentai.mkEntity "" "B" "y" documentai.ADD]]
           {| heap := []; cls_root_revision := None |}) in
  chain s 0 3 = true
  /\ exists c,
       at_revision 3 0 (Some "r2") s = (Ret (VSnapshot c), s)
       /\ 0 <= c < 3
       /\ revision_id_at s c = Some (Some "r2").
Proof.
  intros s. split; [reflexivity|].
  apply (at_revision_finds_present_id s 0 3 3 0 2 (Some "r2"));
    [reflexivity | lia | lia | lia | reflexivity].
Defined.

(** X11.  Called on a snapshot that itself has the id, [at_revision]
    returns that snapshot at once: in any store, whatever its links, with
    one unit of fuel, and with the store left as it was. *)
Theorem at_revision_on_matching_snapshot (s : store) (fuel : nat)
    (a : addr) (x : DocumentWithRevisions.t) :
  heap s !! a = Some x ->
  at_revision (S fuel) a (DocumentWithRevisions.revision_id x) s
  = (Ret (VSnapshot a), s).
Proof.
  intros Hx. unfold at_revision, bind. simpl. unfold bind, deref.
  rewrite Hx.
  assert (Hw : (match DocumentWithRevisions.last x with
                | Some l =>
                    if bool_decide (DocumentWithRevisions.revision_id x
                                    <> DocumentWithRevisions.revision_id x)
                    then
                      bind (update l (DocumentWithRevisions.set_next_ (Some a)))
                           (fun _ => walk_last fuel
                                       (DocumentWithRevisions.revision_id x) l)
                    else ret a
                | None => ret a
                end) s = (Ret a, s)).
  { destruct (DocumentWithRevisions.last x); [|reflexivity].
    by rewrite bool_decide_eq_false_2 by (intros H; by apply H). }
  unfold bind in Hw. rewrite Hw. rewrite Hx.
  by rewrite bool_decide_eq_true_2.
Qed.

Lemma at_revision_on_matching_snapshot_witness :
  let d := document.init [] "gs://bucket/prefix" in
  let obj rid l n :=
    DocumentWithRevisions.mk d [] "gs://bucket/prefix" n l rid [] None in
  let s := {| heap := [obj None None (Some 2);
                       obj (Some "a") (Some 0) None;
                       obj (Some "b") (Some 0) None];
              cls_root_revision := None |} in
  at_revision 1 1 (Some "a") s = (Ret (VSnapshot 1), s).
Proof.
  intros d obj s.
  exact (at_revision_on_matching_snapshot s 0 1 (obj (Some "a") (Some 0) None)
           eq_refl).
Defined.

Lemma at_revision_nearest (s : store) (lo hi fuel : nat)
    (a c : addr) (id : option string) :
  chain s lo hi = true ->
  lo <= a < hi ->
  hi - lo <= fuel ->
  lo <= c < hi ->
  revision_id_at s c = Some id ->
  (c <= a /\ (forall j, c < j <= a -> revision_id_at s j <> Some id))
  \/ (a < c /\ (forall j, lo <= j < c -> revision_id_at s j <> Some id)) ->
  at_revision fuel a id s = (Ret (VSnapshot c), s).
Proof.
  intros Hc Ha Hf Hcr Hid Hpos.
  destruct (at_revision_chain s lo hi id fuel a Hc Ha Hf) as (v & Hv & Hspec).
  destruct v as [c'|m].
  - destruct Hspec as (Hr' & Hm' & Hpos').
    assert (c' = c); [|by subst c'].
    destruct Hpos as [[Hle Hno]|[Hlt Hno]], Hpos' as [[Hle' Hno']|[Hlt' Hno']].
    + destruct (Nat.lt_trichotomy c c') as [H|[H|H]]; [|done|].
      * exfalso. apply (Hno c'); [lia|exact Hm'].
      * exfalso. apply (Hno' c); [lia|exact Hid].
    + exfalso. apply (Hno' c); [lia|exact Hid].
    + exfalso. apply (Hno c'); [lia|exact Hm'].
    + destruct (Nat.lt_trichotomy c c') as [H|[H|H]]; [|done|].
      * exfalso. apply (Hno' c); [lia|exact Hid].
      * exfalso. apply (Hno c'); [lia|exact Hm'].
  - destruct Hspec as [_ Hno]. exfalso. exact (Hno c Hcr Hid).
Qed.

(** X12.  When several members of a chain have the id, the member the
    call is made on decides: [at_revision] returns the nearest member at
    or before it that has the id, whatever comes after; only when no
    member at or before it has the id does it return the first one after
    it. *)
Theorem at_revision_prefers_nearest_before (s : store) (lo hi fuel : nat)
    (a c : addr) (id : option string) :
  chain s lo hi = true ->
  lo <= a < hi ->
  hi - lo <= fuel ->
  lo <= c < hi ->
  revision_id_at s c = Some id ->
  (c <= a /\ (forall j, c < j <= a -> revision_id_at s j <> Some id))
  \/ (a < c /\ (forall j, lo <= j < c -> revision_id_at s j <> Some id)) ->
  at_revision fuel a id s = (Ret (VSnapshot c), s).
Proof.
  intros Hc Ha Hf Hcr Hid Hpos.
  by apply (at_revision_nearest s lo hi).
Qed.

Lemma at_revision_prefers_nearest_before_witness :
  let s :=
    snd (from_gcs_prefix_with_revisions decimal_int "gs://bucket/prefix" []
           [record "dup" [] [documentai.mkEntity "" "A" "x" documentai.ADD];
            record "mid" [1%Z] [documentai.mkEntity "" "B" "y" documentai.ADD];
            record "dup" [2%Z] [documentai.mkEntity "" "C" "z" documentai.ADD]]
           {| heap := []; cls_root_revision := None |}) in
  chain s 0 4 = true
  /\ at_revision 4 2 (Some "dup") s = (Ret (VSnapshot 1), s)
  /\ at_revision 4 3 (Some "dup") s = (Ret (VSnapshot 3), s).
Proof.
  intros s. split; [reflexivity|]. split.
  - apply (at_revision_prefers_nearest_before s 0 4 4 2 1 (Some "dup"));
      [reflexivity | lia | lia | lia | reflexivity |].
    left. split; [lia|]. intros j Hj. assert (j = 2) as -> by lia.
    vm_compute. discriminate.
  - apply (at_revision_prefers_nearest_before s 0 4 4 3 3 (Some "dup"));
      [reflexivity | lia | lia | lia | reflexivity |].
    left. split; [lia|]. intros j Hj. lia.
Defined.

(** * Further properties of the construction *)

Section BuildMore.

Variable py_int : string -> option Z.

Lemma record_result_ret_iff rev :
  (exists d, record_result py_int rev = Ret d) <-> record_ok py_int rev.
Proof.
  unfold record_result, _get_revised_documents, record_ok. split.
  - intros [d H].
    destruct (_modify_docproto py_int (documentai.entities rev))
      as [[ents hist]|x|]; try discriminate.
    destruct (documentai.revisions rev); [discriminate|].
    split; [by eexists | discriminate].
  - intros [[[ents hist] Hp] Hr]. rewrite Hp.
    destruct (documentai.revisions rev); [done | by eexists].
Qed.

Lemma record_result_first_revision rev ents hist r0 :
  record_result py_int rev = Ret (ents, hist, r0) ->
  exists rest, documentai.revisions rev = r0 :: rest.
Proof.
  unfold record_result.
  destruct (_get_revised_documents py_int rev) as [[e h]| |]; try discriminate.
  destruct (documentai.revisions rev) as [|r rest]; [discriminate|].
  intros H. inversion H. by exists rest.
Qed.

Lemma chain_outcome_ret_iff revs c :
  (exists tl, chain_outcome py_int revs c = Ret tl) <-> Forall (record_ok py_int) revs.
Proof.
  revert c. induction revs as [|rev revs IH]; intros c; simpl.
  - split; [constructor | by eexists].
  - split.
    + intros [tl H].
      destruct (record_result py_int rev) as [d|x|] eqn:E; try discriminate.
      constructor.
      * apply record_result_ret_iff. by exists d.
      * apply (IH (S c)). by exists tl.
    + intros H. inversion H as [|? ? Hok Hrest]; subst.
      apply record_result_ret_iff in Hok as [d Hd]. rewrite Hd.
      by apply IH.
Qed.

Lemma chain_outcome_first_bad good bad rest c x :
  Forall (record_ok py_int) good ->
  record_result py_int bad = Raise x ->
  chain_outcome py_int (good ++ bad :: rest) c = Raise x.
Proof.
  intros Hg Hb. revert c. induction Hg as [|rev good Hok _ IH]; intros c; simpl.
  - by rewrite Hb.
  - apply record_result_ret_iff in Hok as [d Hd]. rewrite Hd. apply IH.
Qed.

Lemma last_root_shift revs :
  forall k found,
    last_root revs k found
    = match last_root revs 0 None with
      | Some j => Some (k + j)
      | None => found
      end.
Proof.
  induction revs as [|rev revs IH]; intros k found; simpl; [reflexivity|].
  destruct (documentai.revisions rev) as [|r0 rest].
  - rewrite (IH (S k) found), (IH 1 None).
    destruct (last_root revs 0 None); [f_equal; lia | reflexivity].
  - rewrite (IH (S k)), (IH 1).
    destruct (last_root revs 0 None); [f_equal; lia|].
    destruct (bool_decide (documentai.parent r0 = [])); [f_equal; lia|reflexivity].
Qed.

(** The class attribute after the loop: the snapshot of the last record
    whose first revision entry names no parent, else what it was. *)
Lemma build_loop_cls gcs base revisions revs :
  forall s cur x tl,
    heap s !! cur = Some x ->
    S cur = length (heap s) ->
    let r := build_loop py_int (document.init base gcs) revisions gcs revs cur s in
    fst r = Ret tl ->
    cls_root_revision (snd r)
    = match last_root revs 0 None with
      | Some j => Some (S cur + j)
      | None => cls_root_revision s
      end.
Proof.
  induction revs as [|rev revs IH]; intros s cur x tl Hx Hlen r Hr.
  - reflexivity.
  - subst r. simpl in *. unfold bind in *.
    destruct (record_result py_int rev) as [[[ents hist] r0]|e|] eqn:Hrec.
    + destruct (record_result_first_revision rev ents hist r0 Hrec) as [rest Hrev].
      rewrite (build_body_ret py_int gcs base revisions cur rev s x ents hist r0
                 Hx Hrec) in *.
      rewrite <- Hlen in *.
      set (x' := snapshot_object gcs base revisions ents hist
                   (documentai.rev_id r0) (Some cur) None) in *.
      set (s1 := {| heap := <[cur := DocumentWithRevisions.set_next_
                                       (Some (S cur)) x]> (heap s) ++ [x'];
                    cls_root_revision :=
                      if bool_decide (documentai.parent r0 = [])
                      then Some (S cur) else cls_root_revision s |}) in *.
      assert (Hl1 : length (<[cur := DocumentWithRevisions.set_next_
                                       (Some (S cur)) x]> (heap s)) = S cur)
        by (rewrite length_insert; lia).
      assert (Hx' : heap s1 !! S cur = Some x').
      { subst s1. simpl. apply lookup_snoc_at. by rewrite Hl1. }
      assert (Hlen' : S (S cur) = length (heap s1)).
      { subst s1. simpl. rewrite length_app, Hl1. simpl. lia. }
      rewrite (IH s1 (S cur) x' tl Hx' Hlen' Hr).
      rewrite Hrev, (last_root_shift revs 1).
      destruct (last_root revs 0 None); [f_equal; lia|].
      subst s1. simpl.
      destruct (bool_decide (documentai.parent r0 = [])); [f_equal; lia|reflexivity].
    + pose proof (build_body_raise py_int gcs base revisions cur rev s e Hrec) as Hb.
      destruct (build_body py_int (document.init base gcs) revisions gcs cur rev s)
        as [o s1]. simpl in Hb. subst o. discriminate.
    + exfalso. exact (record_result_not_undef py_int rev Hrec).
Qed.

Lemma from_gcs_cls gcs base revs s tl :
  fst (from_gcs_prefix_with_revisions py_int gcs base revs s) = Ret tl ->
  cls_root_revision (snd (from_gcs_prefix_with_revisions py_int gcs base revs s))
  = match last_root revs 0 None with
    | Some j => Some (S (length (heap s)) + j)
    | None => cls_root_revision s
    end.
Proof.
  unfold from_gcs_prefix_with_revisions, bind, alloc. intros H.
  set (x := DocumentWithRevisions.init (document.init base gcs)
              (map documentai.revisions revs) gcs) in *.
  set (s0 := {| heap := heap s ++ [x];
                cls_root_revision := cls_root_revision s |}) in *.
  assert (Hx : heap s0 !! length (heap s) = Some x) by apply lookup_snoc_last.
  assert (Hlen : S (length (heap s)) = length (heap s0)).
  { subst s0. simpl. rewrite length_app. simpl. lia. }
  exact (build_loop_cls gcs base (map documentai.revisions revs) revs
           s0 (length (heap s)) x tl Hx Hlen H).
Qed.

End BuildMore.

(** X13.  A construction that returns has only appended: the objects
    that were in the store are untouched, exactly one object for the base
    and one per record were allocated after them, the returned object is
    the last allocated, and the new objects form a chain, base first,
    linked both ways. *)
Theorem construction_appends_a_chain (py_int : string -> option Z)
    (gcs : string) (base revs : list documentai.Document) (s : store)
    (tl : addr) :
  fst (from_gcs_prefix_with_revisions py_int gcs base revs s) = Ret tl ->
  let s' := snd (from_gcs_prefix_with_revisions py_int gcs base revs s) in
  tl = length (heap s) + length revs
  /\ length (heap s') = S (length (heap s) + length revs)
  /\ take (length (heap s)) (heap s') = heap s
  /\ chain s' (length (heap s)) (S tl) = true.
Proof.
  intros Htl s'. subst s'.
  destruct (from_gcs_prefix_with_revisions_spec py_int gcs base revs s)
    as [_ Hfacts].
  destruct (Hfacts tl Htl) as (Htl' & Hl & Hfr & _). clear Hfacts.
  split; [exact Htl'|]. split; [rewrite Hl; lia|]. split.
  - apply list_eq. intros i.
    destruct (decide (i < length (heap s))) as [Hi|Hi].
    + rewrite lookup_take_lt by exact Hi. by apply Hfr.
    + rewrite lookup_take_ge by lia. symmetry. apply lookup_ge_None_2. lia.
  - by apply from_gcs_prefix_with_revisions_chain.
Qed.

Lemma construction_appends_a_chain_witness :
  let s := {| heap := [DocumentWithRevisions.init (document.init [] "old") [] "old"];
              cls_root_revision := None |} in
  let r := from_gcs_prefix_with_revisions decimal_int "gs://bucket/prefix" []
             [record "r1" [] [documentai.mkEntity "" "A" "x" documentai.ADD]] s in
  fst r = Ret 2
  /\ 2 = length (heap s) + 1
  /\ length (heap (snd r)) = 3
  /\ take 1 (heap (snd r)) = heap s
  /\ chain (snd r) 1 3 = true.
Proof.
  intros s r. split; [reflexivity|].
  exact (construction_appends_a_chain decimal_int "gs://bucket/prefix" []
           [record "r1" [] [documentai.mkEntity "" "A" "x" documentai.ADD]]
           s 2 eq_refl).
Defined.

(** X14.  The construction returns exactly when every record is fit:
    the replay of its entities returns and it has at least one revision
    entry.  Otherwise it raises. *)
Theorem construction_returns_iff_records_ok (py_int : string -> option Z)
    (gcs : string) (base revs : list documentai.Document) (s : store) :
  (exists tl,
     fst (from_gcs_prefix_with_revisions py_int gcs base revs s) = Ret tl)
  <-> Forall (record_ok py_int) revs.
Proof.
  destruct (from_gcs_prefix_with_revisions_spec py_int gcs base revs s)
    as [Ho _].
  rewrite Ho. apply chain_outcome_ret_iff.
Qed.

(** X15.  The first unfit record decides how the construction ends.
    After records that are all fit, a record whose replay raises makes
    the construction raise the same exception, and a record whose replay
    returns but that has no revision entry makes it raise [IndexError];
    the records after it are not looked at. *)
Theorem construction_raises_at_first_bad_record (py_int : string -> option Z)
    (gcs : string) (base good rest : list documentai.Document)
    (bad : documentai.Document) (s : store) (x : exn) :
  Forall (record_ok py_int) good ->
  _modify_docproto py_int (documentai.entities bad) = Raise x
  \/ ((exists p, _modify_docproto py_int (documentai.entities bad) = Ret p)
      /\ documentai.revisions bad = [] /\ x = IndexError) ->
  fst (from_gcs_prefix_with_revisions py_int gcs base (good ++ bad :: rest) s)
  = Raise x.
Proof.
  intros Hg Hb.
  destruct (from_gcs_prefix_with_revisions_spec py_int gcs base
              (good ++ bad :: rest) s) as [Ho _].
  rewrite Ho. apply chain_outcome_first_bad; [exact Hg|].
  unfold record_result, _get_revised_documents.
  destruct Hb as [Hb|([[ents hist] Hp] & Hr & ->)].
  - by rewrite Hb.
  - by rewrite Hp, Hr.
Qed.

Lemma construction_raises_at_first_bad_record_witness :
  fst (from_gcs_prefix_with_revisions decimal_int "gs://bucket/prefix" []
         ([record "r1" [] [documentai.mkEntity "" "A" "x" documentai.ADD]]
          ++ documentai.mkDocument "" []
               [documentai.mkEntity "" "B" "y" documentai.ADD] []
             :: [record "r3" [] []])
         {| heap := []; cls_root_revision := None |})
  = Raise IndexError.
Proof.
  apply (construction_raises_at_first_bad_record decimal_int).
  - repeat constructor; [by eexists | discriminate].
  - right. split; [by eexists|]. split; reflexivity.
Defined.

(** X16.  After a construction that returns, the class attribute
    [root_revision] designates the snapshot of the last record whose
    first revision entry names no parent, not of the first one; when no
    record is such, the attribute is what it was before the call. *)
Theorem root_revision_is_last_parentless_record (py_int : string -> option Z)
    (gcs : string) (base revs : list documentai.Document) (s : store)
    (tl : addr) :
  fst (from_gcs_prefix_with_revisions py_int gcs base revs s) = Ret tl ->
  cls_root_revision
    (snd (from_gcs_prefix_with_revisions py_int gcs base revs s))
  = match last_root revs 0 None with
    | Some j => Some (S (length (heap s)) + j)
    | None => cls_root_revision s
    end.
Proof.
  intros Htl. exact (from_gcs_cls py_int gcs base revs s tl Htl).
Qed.

Lemma root_revision_is_last_parentless_record_witness :
  let revs :=
    [record "r1" [] [documentai.mkEntity "" "A" "x" documentai.ADD];
     record "r2" [1%Z] [documentai.mkEntity "" "B" "y" documentai.ADD];
     record "r3" [] [documentai.mkEntity "" "C" "z" documentai.ADD]] in
  let r := from_gcs_prefix_with_revisions decimal_int "gs://bucket/prefix" []
             revs {| heap := []; cls_root_revision := None |} in
  fst r = Ret 3 /\ cls_root_revision (snd r) = Some 3.
Proof.
  intros revs r. split; [reflexivity|].
  exact (root_revision_is_last_parentless_record decimal_int
           "gs://bucket/prefix" [] revs
           {| heap := []; cls_root_revision := None |} 3 eq_refl).
Defined.

(** X17.  After a construction that returns, [get_revisions] called on
    any snapshot of the chain, the base included, returns the same list:
    the revision entries of every record, in the order of the records. *)
Theorem get_revisions_on_every_snapshot (py_int : string -> option Z)
    (gcs : string) (base revs : list documentai.Document) (s : store)
    (tl : addr) (k : nat) :
  fst (from_gcs_prefix_with_revisions py_int gcs base revs s) = Ret tl ->
  k <= length revs ->
  let s' := snd (from_gcs_prefix_with_revisions py_int gcs base revs s) in
  get_revisions (length (heap s) + k) s'
  = (Ret (map documentai.revisions revs), s').
Proof.
  intros Htl Hkle s'. subst s'.
  destruct (from_gcs_prefix_with_revisions_spec py_int gcs base revs s)
    as [_ Hfacts].
  destruct (Hfacts tl Htl) as (_ & _ & _ & Hbase & Hk). clear Hfacts.
  unfold get_revisions, bind, deref. destruct k as [|k].
  - rewrite Nat.add_0_r, Hbase. reflexivity.
  - destruct (lookup_lt_is_Some_2 revs k) as [rev Hrev]; [lia|].
    destruct (Hk k rev Hrev) as (ents & hist & r0 & _ & Hn).
    replace (length (heap s) + S k) with (S (length (heap s)) + k) by lia.
    rewrite Hn. reflexivity.
Qed.

Lemma get_revisions_on_every_snapshot_witness :
  let revs :=
    [record "r1" [] [documentai.mkEntity "" "A" "x" documentai.ADD];
     record "r2" [1%Z] [documentai.mkEntity "" "B" "y" documentai.ADD]] in
  let r := from_gcs_prefix_with_revisions decimal_int "gs://bucket/prefix" []
             revs {| heap := []; cls_root_revision := None |} in
  get_revisions 1 (snd r)
  = (Ret [[documentai.mkRevision "r1" []]; [documentai.mkRevision "r2" [1%Z]]],
     snd r).
Proof.
  intros revs r.
  apply (get_revisions_on_every_snapshot decimal_int "gs://bucket/prefix" []
           revs {| heap := []; cls_root_revision := None |} 2 1 eq_refl).
  simpl. lia.
Defined.

(** X18.  After a construction that returns, the base snapshot has no
    revision id, an empty entity list and an empty history, and the
    snapshot of each record has the id of the record's first revision
    entry. *)
Theorem snapshot_revision_ids (py_int : string -> option Z)
    (gcs : string) (base revs : list documentai.Document) (s : store)
    (tl : addr) :
  fst (from_gcs_prefix_with_revisions py_int gcs base revs s) = Ret tl ->
  let s' := snd (from_gcs_prefix_with_revisions py_int gcs base revs s) in
  revision_id_at s' (length (heap s)) = Some None
  /\ entities_at s' (length (heap s)) = Some []
  /\ history_at s' (length (heap s)) = Some []
  /\ forall k rev, revs !! k = Some rev ->
       exists rid,
         first_revision_id rev = Some rid
         /\ revision_id_at s' (S (length (heap s)) + k) = Some (Some rid).
Proof.
  intros Htl s'. subst s'.
  destruct (from_gcs_prefix_with_revisions_spec py_int gcs base revs s)
    as [_ Hfacts].
  destruct (Hfacts tl Htl) as (_ & _ & _ & Hbase & Hk). clear Hfacts.
  unfold revision_id_at, entities_at, history_at. rewrite Hbase.
  repeat split.
  intros k rev Hrev.
  destruct (Hk k rev Hrev) as (ents & hist & r0 & Hr & Hn).
  destruct (record_result_first_revision py_int rev ents hist r0 Hr)
    as [rest Hrest].
  exists (documentai.rev_id r0). split.
  - unfold first_revision_id. by rewrite Hrest.
  - by rewrite Hn.
Qed.

Lemma snapshot_revision_ids_witness :
  let revs :=
    [record "r1" [] [documentai.mkEntity "" "A" "x" documentai.ADD]] in
  let r := from_gcs_prefix_with_revisions decimal_int "gs://bucket/prefix" []
             revs {| heap := []; cls_root_revision := None |} in
  revision_id_at (snd r) 0 = Some None
  /\ revision_id_at (snd r) 1 = Some (Some "r1").
Proof.
  intros revs r.
  destruct (snapshot_revision_ids decimal_int "gs://bucket/prefix" []
              revs {| heap := []; cls_root_revision := None |} 1 eq_refl)
    as (H0 & _ & _ & Hk).
  split; [exact H0|].
  destruct (Hk 0 _ eq_refl) as (rid & Hrid & Hat).
  vm_compute in Hrid. inversion Hrid; subst rid. exact Hat.
Defined.

(** After a construction that returns: the chain, the base without id,
    every record's snapshot with its record's id. *)
Lemma construction_chain_facts (py_int : string -> option Z)
    (gcs : string) (base revs : list documentai.Document) (s : store)
    (tl : addr) :
  fst (from_gcs_prefix_with_revisions py_int gcs base revs s) = Ret tl ->
  let s' := snd (from_gcs_prefix_with_revisions py_int gcs base revs s) in
  tl = length (heap s) + length revs
  /\ chain s' (length (heap s)) (S tl) = true
  /\ revision_id_at s' (length (heap s)) = Some None
  /\ forall k rev, revs !! k = Some rev ->
       exists ents hist rid,
         first_revision_id rev = Some rid
         /\ _modify_docproto py_int (documentai.entities rev) = Ret (ents, hist)
         /\ revision_id_at s' (S (length (heap s)) + k) = Some (Some rid)
         /\ entities_at s' (S (length (heap s)) + k) = Some ents
         /\ history_at s' (S (length (heap s)) + k) = Some hist.
Proof.
  intros Htl s'. subst s'.
  destruct (from_gcs_prefix_with_revisions_spec py_int gcs base revs s)
    as [_ Hfacts].
  destruct (Hfacts tl Htl) as (Htl' & _ & _ & Hbase & Hk). clear Hfacts.
  split; [exact Htl'|].
  split; [by apply from_gcs_prefix_with_revisions_chain|].
  split; [unfold revision_id_at; by rewrite Hbase|].
  intros k rev Hrev.
  destruct (Hk k rev Hrev) as (ents & hist & r0 & Hr & Hn).
  destruct (record_result_first_revision py_int rev ents hist r0 Hr)
    as [rest Hrest].
  destruct (record_result_replay py_int rev ents hist r0 Hr) as (_ & Hmod & _).
  exists ents, hist, (documentai.rev_id r0).
  unfold first_revision_id, revision_id_at, entities_at, history_at.
  rewrite Hrest, Hn. repeat split. exact Hmod.
Qed.

(** X19.  After a construction that returns, looking up the id [None]
    from any snapshot of the chain returns the base snapshot: the only
    one without a revision id. *)
Theorem at_revision_None_returns_base (py_int : string -> option Z)
    (gcs : string) (base revs : list documentai.Document) (s : store)
    (tl : addr) (k fuel : nat) :
  fst (from_gcs_prefix_with_revisions py_int gcs base revs s) = Ret tl ->
  k <= length revs ->
  length revs < fuel ->
  let s' := snd (from_gcs_prefix_with_revisions py_int gcs base revs s) in
  at_revision fuel (length (heap s) + k) None s'
  = (Ret (VSnapshot (length (heap s))), s').
Proof.
  intros Htl Hkle Hfuel s'. subst s'.
  destruct (construction_chain_facts py_int gcs base revs s tl Htl)
    as (Htl' & Hc & Hbase & Hids).
  apply (at_revision_nearest _ (length (heap s)) (S tl));
    try lia; [exact Hc | exact Hbase |].
  left. split; [lia|]. intros j Hj.
  destruct (lookup_lt_is_Some_2 revs (j - S (length (heap s)))) as [rev Hrev];
    [lia|].
  destruct (Hids _ rev Hrev) as (ents & hist & rid & _ & _ & Hrid & _).
  replace (S (length (heap s)) + (j - S (length (heap s)))) with j in Hrid by lia.
  rewrite Hrid. discriminate.
Qed.

Lemma at_revision_None_returns_base_witness :
  let revs :=
    [record "r1" [] [documentai.mkEntity "" "A" "x" documentai.ADD];
     record "r2" [1%Z] [documentai.mkEntity "" "B" "y" documentai.ADD]] in
  let r := from_gcs_prefix_with_revisions decimal_int "gs://bucket/prefix" []
             revs {| heap := []; cls_root_revision := None |} in
  at_revision 3 2 None (snd r) = (Ret (VSnapshot 0), snd r).
Proof.
  intros revs r.
  apply (at_revision_None_returns_base decimal_int "gs://bucket/prefix" []
           revs {| heap := []; cls_root_revision := None |} 2 2 3 eq_refl);
    simpl; lia.
Defined.

(** X20.  Construction and lookup agree: after a construction that
    returns, looking up from the returned snapshot the id of a record's
    first revision entry, when no later record has that id, returns the
    snapshot of that record, whose entity list and history are those the
    replay of the record's entities gives. *)
Theorem lookup_returns_snapshot_of_record (py_int : string -> option Z)
    (gcs : string) (base revs : list documentai.Document) (s : store)
    (tl : addr) (k fuel : nat) (rev : documentai.Document) (rid : string) :
  fst (from_gcs_prefix_with_revisions py_int gcs base revs s) = Ret tl ->
  revs !! k = Some rev ->
  first_revision_id rev = Some rid ->
  (forall j rev', k < j -> revs !! j = Some rev' ->
     first_revision_id rev' <> Some rid) ->
  length revs < fuel ->
  let s' := snd (from_gcs_prefix_with_revisions py_int gcs base revs s) in
  exists ents hist,
    at_revision fuel tl (Some rid) s'
    = (Ret (VSnapshot (S (length (heap s)) + k)), s')
    /\ _modify_docproto py_int (documentai.entities rev) = Ret (ents, hist)
    /\ entities_at s' (S (length (heap s)) + k) = Some ents
    /\ history_at s' (S (length (heap s)) + k) = Some hist.
Proof.
  intros Htl Hrev Hrid Hlater Hfuel s'. subst s'.
  destruct (construction_chain_facts py_int gcs base revs s tl Htl)
    as (Htl' & Hc & Hbase & Hids).
  pose proof (lookup_lt_Some _ _ _ Hrev) as Hk.
  destruct (Hids k rev Hrev) as (ents & hist & rid' & Hrid' & Hmod & Hat & He & Hh).
  rewrite Hrid in Hrid'. inversion Hrid'; subst rid'. clear Hrid'.
  exists ents, hist. split; [|done].
  apply (at_revision_nearest _ (length (heap s)) (S tl));
    try lia; [exact Hc | exact Hat |].
  left. split; [lia|]. intros j Hj.
  destruct (lookup_lt_is_Some_2 revs (j - S (length (heap s)))) as [rev' Hrev'];
    [lia|].
  destruct (Hids _ rev' Hrev') as (e' & h' & rid' & Hf' & _ & Hat' & _).
  replace (S (length (heap s)) + (j - S (length (heap s)))) with j in Hat' by lia.
  rewrite Hat'. intros Heq. inversion Heq; subst rid'.
  apply (Hlater (j - S (length (heap s))) rev'); [lia | exact Hrev' | exact Hf'].
Qed.

Lemma lookup_returns_snapshot_of_record_witness :
  let revs :=
    [record "r1" [] [documentai.mkEntity "" "A" "x" documentai.ADD];
     record "r2" [1%Z] [documentai.mkEntity "" "B" "y" documentai.ADD]] in
  let r := from_gcs_prefix_with_revisions decimal_int "gs://bucket/prefix" []
             revs {| heap := []; cls_root_revision := None |} in
  exists ents hist,
    at_revision 3 2 (Some "r1") (snd r) = (Ret (VSnapshot 1), snd r)
    /\ _modify_docproto decimal_int
         [documentai.mkEntity "" "A" "x" documentai.ADD] = Ret (ents, hist)
    /\ entities_at (snd r) 1 = Some ents
    /\ history_at (snd r) 1 = Some hist.
Proof.
  intros revs r.
  apply (lookup_returns_snapshot_of_record decimal_int "gs://bucket/prefix" []
           revs {| heap := []; cls_root_revision := None |} 2 0 3
           (record "r1" [] [documentai.mkEntity "" "A" "x" documentai.ADD])
           "r1" eq_refl eq_refl eq_refl); [|simpl; lia].
  intros j rev' Hj Hrev'. destruct j as [|[|j]]; [lia| |discriminate].
  inversion Hrev'; subst rev'. vm_compute. discriminate.
Defined.

(** * Properties of the loading of the shards *)

Lemma search_doc_first name :
  search_doc name = true -> exists r, name = String "d" r.
Proof.
  destruct name as [|a1 [|a2 [|a3 [|c1 [|a4 [|a5 [|c2 [|a6 [|a7 r]]]]]]]]];
    simpl; try discriminate.
  intros H. repeat (apply andb_prop in H as [H ?]).
  apply Ascii.eqb_eq in H. subst a1. by eexists.
Qed.

Lemma search_pages_first name :
  search_pages name = true -> exists r, name = String "p" r.
Proof.
  unfold search_pages. destruct name as [|a r]; cbn [startswith];
    [discriminate|].
  intros H. apply andb_prop in H as [H _].
  apply Ascii.eqb_eq in H. subst a. by eexists.
Qed.

(** No name is of two kinds. *)
Lemma search_exclusive name :
  (search_doc name = true -> search_pages name = false /\ search_rev name = false)
  /\ (search_pages name = true -> search_rev name = false).
Proof.
  split.
  - intros H. destruct (search_doc_first name H) as [r ->]. split; reflexivity.
  - intros H. destruct (search_pages_first name H) as [r ->]. reflexivity.
Qed.

Section LoadFacts.

Variable list_blobs : string -> string -> list storage.Blob.
Variable Document_FromString : list Byte.byte -> option documentai.Document.
Variable Page_FromString : list Byte.byte -> option string.

(** One turn of the loading loop, by the kind of the blob. *)
Lemma blob_step_cases acc blob :
  blob_step Document_FromString acc blob =
    if is_doc_blob blob then
      match Document_FromString (storage.content blob) with
      | Some d =>
          inr {| sb_text := documentai.text d; base_doc := base_doc acc;
                 revisions_doc := revisions_doc acc |}
      | None => inl DecodeError
      end
    else if is_pages_blob blob then
      inr {| sb_text := sb_text acc;
             base_doc := base_doc acc ++ [storage.content blob];
             revisions_doc := revisions_doc acc |}
    else if is_rev_blob blob then
      inr {| sb_text := sb_text acc; base_doc := base_doc acc;
             revisions_doc := revisions_doc acc ++ [storage.content blob] |}
    else inr acc.
Proof.
  unfold blob_step, is_doc_blob, is_pages_blob, is_rev_blob, blob_basename.
  set (name := default EmptyString _).
  destruct (search_exclusive name) as [Hd Hp].
  destruct (search_doc name) eqn:Ed.
  - destruct (Hd eq_refl) as [-> ->]. simpl.
    destruct (endswith (storage.name blob) ".dp.bp"); simpl; [|reflexivity].
    destruct (Document_FromString (storage.content blob)); reflexivity.
  - simpl. destruct (search_pages name) eqn:Ep.
    + rewrite (Hp eq_refl). simpl.
      destruct (endswith (storage.name blob) ".dp.bp"); reflexivity.
    + simpl. destruct (search_rev name); simpl; [|reflexivity].
      destruct (endswith (storage.name blob) ".dp.bp"); reflexivity.
Qed.

Lemma last_filter_cons {A} (f : A -> bool) (x : A) (l : list A) :
  last (List.filter f (x :: l))
  = match last (List.filter f l) with
    | Some y => Some y
    | None => if f x then Some x else None
    end.
Proof.
  simpl. destruct (f x).
  - rewrite last_cons. destruct (last (List.filter f l)); reflexivity.
  - destruct (last (List.filter f l)); reflexivity.
Qed.

Lemma blob_kinds_exclusive (blob : storage.Blob) :
  (is_doc_blob blob = true ->
   is_pages_blob blob = false /\ is_rev_blob blob = false)
  /\ (is_pages_blob blob = true -> is_rev_blob blob = false).
Proof.
  unfold is_doc_blob, is_pages_blob, is_rev_blob.
  destruct (search_exclusive (blob_basename blob)) as [Hd Hp]. split.
  - intros H. apply andb_prop in H as [H _].
    destruct (Hd H) as [-> ->]. split; reflexivity.
  - intros H. apply andb_prop in H as [H _]. by rewrite (Hp H).
Qed.

(** The loop from given contents of the three locals. *)
Lemma blob_loop_inr blobs :
  forall acc sb,
    blob_loop Document_FromString blobs acc = inr sb ->
    base_doc sb
      = base_doc acc ++ map storage.content (List.filter is_pages_blob blobs)
    /\ revisions_doc sb
       = revisions_doc acc ++ map storage.content (List.filter is_rev_blob blobs)
    /\ sb_text sb
       = match last (List.filter is_doc_blob blobs) with
         | Some blob =>
             match Document_FromString (storage.content blob) with
             | Some d => documentai.text d
             | None => sb_text acc
             end
         | None => sb_text acc
         end
    /\ Forall (fun blob => is_doc_blob blob = true ->
                 is_Some (Document_FromString (storage.content blob))) blobs.
Proof.
  induction blobs as [|blob blobs IH]; intros acc sb H.
  - inversion H; subst sb. simpl. rewrite !app_nil_r. repeat split. constructor.
  - cbn [blob_loop] in H. rewrite blob_step_cases in H.
    rewrite last_filter_cons. cbn [List.filter].
    destruct (blob_kinds_exclusive blob) as [Hd Hp].
    destruct (is_doc_blob blob) eqn:Edoc.
    + destruct (Hd eq_refl) as [Ep Er]. rewrite Ep, Er.
      destruct (Document_FromString (storage.content blob)) as [d|] eqn:Eparse;
        [|discriminate].
      destruct (IH _ _ H) as (Hb & Hr & Ht & Hall). cbn [base_doc revisions_doc sb_text] in *.
      split; [exact Hb|]. split; [exact Hr|]. split.
      * rewrite Ht.
        destruct (last (List.filter is_doc_blob blobs)) as [b|] eqn:El;
          [|by rewrite Eparse].
        apply last_Some in El as [l' El].
        assert (Hin : In b (List.filter is_doc_blob blobs))
          by (rewrite El; apply in_or_app; right; by left).
        apply filter_In in Hin as [Hin Hb_doc].
        rewrite List.Forall_forall in Hall.
        destruct (Hall b Hin Hb_doc) as [d' Hd']. by rewrite Hd'.
      * constructor; [intros _; by eexists | exact Hall].
    + destruct (is_pages_blob blob) eqn:Epages.
      * rewrite (Hp eq_refl).
        destruct (IH _ _ H) as (Hb & Hr & Ht & Hall). cbn [base_doc revisions_doc sb_text] in *.
        split; [rewrite Hb, <- app_assoc; reflexivity|].
        split; [exact Hr|]. split; [rewrite Ht; destruct (last (List.filter is_doc_blob blobs)); reflexivity|].
        constructor; [intros Hf; congruence | exact Hall].
      * destruct (is_rev_blob blob) eqn:Erev.
        -- destruct (IH _ _ H) as (Hb & Hr & Ht & Hall). cbn [base_doc revisions_doc sb_text] in *.
           split; [exact Hb|].
           split; [rewrite Hr, <- app_assoc; reflexivity|]. split; [rewrite Ht; destruct (last (List.filter is_doc_blob blobs)); reflexivity|].
           constructor; [intros Hf; congruence | exact Hall].
        -- destruct (IH _ _ H) as (Hb & Hr & Ht & Hall).
           split; [exact Hb|]. split; [exact Hr|]. split; [rewrite Ht; destruct (last (List.filter is_doc_blob blobs)); reflexivity|].
           constructor; [intros Hf; congruence | exact Hall].
Qed.

(** The loop raises exactly when a document blob does not decode. *)
Lemma blob_loop_inl blobs :
  forall acc,
    (exists x, blob_loop Document_FromString blobs acc = inl x)
    <-> Exists (fun blob => is_doc_blob blob = true
                  /\ Document_FromString (storage.content blob) = None) blobs.
Proof.
  induction blobs as [|blob blobs IH]; intros acc.
  - simpl. split; [intros [x H]; discriminate | intros H; inversion H].
  - cbn [blob_loop]. rewrite blob_step_cases.
    destruct (is_doc_blob blob) eqn:Edoc.
    + destruct (Document_FromString (storage.content blob)) as [d|] eqn:Eparse.
      * rewrite IH. split; [intros H; by apply Exists_cons_tl|].
        intros H. inversion H as [? ? [_ Hn]|]; subst; [congruence|done].
      * split; [intros _; apply Exists_cons_hd; done | intros _; by eexists].
    + assert (Hskip : forall acc',
                (exists x, blob_loop Document_FromString blobs acc' = inl x)
                <-> Exists (fun blob => is_doc_blob blob = true
                              /\ Document_FromString (storage.content blob) = None)
                      (blob :: blobs)).
      { intros acc'. rewrite IH. split; [intros H; by apply Exists_cons_tl|].
        intros H. inversion H as [? ? [Hd _]|]; subst; [congruence|done]. }
      destruct (is_pages_blob blob); [apply Hskip|].
      destruct (is_rev_blob blob); apply Hskip.
Qed.

Lemma blob_loop_only_DecodeError blobs :
  forall acc x, blob_loop Document_FromString blobs acc = inl x -> x = DecodeError.
Proof.
  induction blobs as [|blob blobs IH]; intros acc x; [discriminate|].
  cbn [blob_loop]. rewrite blob_step_cases.
  destruct (is_doc_blob blob).
  - destruct (Document_FromString (storage.content blob));
      [apply IH | intros H; by inversion H].
  - destruct (is_pages_blob blob); [apply IH|].
    destruct (is_rev_blob blob); apply IH.
Qed.

End LoadFacts.

(** ** The listing *)

(** X21.  When [_get_base_and_revision_bytes] returns, the page bytes are
    the contents of the blobs whose last name segment starts with [pages]
    and whose name ends with [.dp.bp], in the order of the listing; the
    revision bytes are those of the blobs starting with [rev] likewise;
    the text is that of the last document blob of the listing, wherever
    it stands among the others, and empty when there is none. *)
Theorem shard_bytes_follow_the_listing
    (list_blobs : string -> string -> list storage.Blob)
    (Document_FromString : list Byte.byte -> option documentai.Document)
    (output_bucket output_prefix : string) (sb : shard_bytes) :
  _get_base_and_revision_bytes list_blobs Document_FromString
    output_bucket output_prefix = inr sb ->
  let blobs := list_blobs output_bucket output_prefix in
  base_doc sb = map storage.content (List.filter is_pages_blob blobs)
  /\ revisions_doc sb = map storage.content (List.filter is_rev_blob blobs)
  /\ sb_text sb
     = match last (List.filter is_doc_blob blobs) with
       | Some blob =>
           match Document_FromString (storage.content blob) with
           | Some d => documentai.text d
           | None => EmptyString
           end
       | None => EmptyString
       end.
Proof.
  intros H blobs. subst blobs. unfold _get_base_and_revision_bytes in H.
  destruct (blob_loop_inr Document_FromString _ _ _ H) as (Hb & Hr & Ht & Hall).
  cbn [base_doc revisions_doc sb_text app] in *.
  split; [exact Hb|]. split; [exact Hr|]. rewrite Ht.
  destruct (last (List.filter is_doc_blob _)) as [blob|]; [|reflexivity].
  destruct (Document_FromString (storage.content blob)); reflexivity.
Qed.

Lemma shard_bytes_follow_the_listing_witness :
  let listing (b p : string) :=
    [storage.mkBlob "p/pages_1.dp.bp" [Byte.x02];
     storage.mkBlob "p/doc.dp.bp" [Byte.x01];
     storage.mkBlob "p/rev_1.dp.bp" [Byte.x03];
     storage.mkBlob "p/rev_2.json" [Byte.x04];
     storage.mkBlob "p/pages_2.dp.bp" [Byte.x05]] in
  let decode (b : list Byte.byte) :=
    Some (documentai.mkDocument "text" [] [] []) in
  exists sb,
    _get_base_and_revision_bytes listing decode "b" "p" = inr sb
    /\ base_doc sb = [[Byte.x02]; [Byte.x05]]
    /\ revisions_doc sb = [[Byte.x03]]
    /\ sb_text sb = "text".
Proof.
  intros listing decode. eexists. split; [vm_compute; reflexivity|].
  destruct (shard_bytes_follow_the_listing listing decode "b" "p" _ eq_refl)
    as (H1 & H2 & H3).
  split; [exact H1|]. split; [exact H2|exact H3].
Defined.

(** X22.  [_get_base_and_revision_bytes] raises exactly when the listing
    holds a document blob (last name segment matching [doc.dp.bp], name
    ending with [.dp.bp]) that does not decode, and what it raises is the
    decoder's error; page and revision blobs are not decoded here. *)
Theorem shard_bytes_fail_on_undecodable_document
    (list_blobs : string -> string -> list storage.Blob)
    (Document_FromString : list Byte.byte -> option documentai.Document)
    (output_bucket output_prefix : string) :
  let r := _get_base_and_revision_bytes list_blobs Document_FromString
             output_bucket output_prefix in
  ((exists x, r = inl x)
   <-> Exists (fun blob => is_doc_blob blob = true
                 /\ Document_FromString (storage.content blob) = None)
         (list_blobs output_bucket output_prefix))
  /\ (forall x, r = inl x -> x = DecodeError).
Proof.
  intros r. subst r. unfold _get_base_and_revision_bytes. split.
  - apply blob_loop_inl.
  - apply blob_loop_only_DecodeError.
Qed.

Lemma blob_loop_filter_relevant
    (Document_FromString : list Byte.byte -> option documentai.Document)
    (blobs : list storage.Blob) :
  forall acc,
    blob_loop Document_FromString blobs acc
    = blob_loop Document_FromString
        (List.filter (fun blob => is_doc_blob blob || is_pages_blob blob
                                  || is_rev_blob blob) blobs) acc.
Proof.
  induction blobs as [|blob blobs IH]; intros acc; [reflexivity|].
  cbn [List.filter].
  destruct (is_doc_blob blob || is_pages_blob blob || is_rev_blob blob) eqn:E.
  - cbn [blob_loop].
    destruct (blob_step Document_FromString acc blob); [reflexivity|apply IH].
  - cbn [blob_loop]. rewrite blob_step_cases.
    apply orb_false_elim in E as [E Er]. apply orb_false_elim in E as [Ed Ep].
    rewrite Ed, Ep, Er. apply IH.
Qed.

(** X23.  Blobs of no kind are ignored: those whose name does not end
    with [.dp.bp], or whose last name segment starts with none of [doc],
    [pages], [rev].  The result, or the error, is the same with them
    removed from the listing. *)
Theorem other_blobs_are_ignored
    (list_blobs : string -> string -> list storage.Blob)
    (Document_FromString : list Byte.byte -> option documentai.Document)
    (output_bucket output_prefix : string) :
  _get_base_and_revision_bytes list_blobs Document_FromString
    output_bucket output_prefix
  = _get_base_and_revision_bytes
      (fun b p =>
         List.filter (fun blob => is_doc_blob blob || is_pages_blob blob
                                  || is_rev_blob blob) (list_blobs b p))
      Document_FromString output_bucket output_prefix.
Proof.
  unfold _get_base_and_revision_bytes. apply blob_loop_filter_relevant.
Qed.

(** ** The address *)

Lemma append_cons a p r : (String a p ++ r)%string = String a (p ++ r)%string.
Proof. reflexivity. Qed.

Lemma append_nil r : (EmptyString ++ r)%string = r.
Proof. reflexivity. Qed.

Lemma strip_prefix_app p r : strip_prefix p (p ++ r) = Some r.
Proof.
  induction p as [|a p IH]; [rewrite append_nil; by destruct r|].
  rewrite append_cons. cbn [strip_prefix]. by rewrite Ascii.eqb_refl.
Qed.

Lemma strip_prefix_inv p : forall s r, strip_prefix p s = Some r -> s = (p ++ r)%string.
Proof.
  induction p as [|a p IH]; intros s r; cbn [strip_prefix].
  - rewrite append_nil. destruct s; intros H; by inversion H.
  - destruct s as [|b s]; [discriminate|].
    destruct (Ascii.eqb_spec a b) as [->|]; [|discriminate].
    intros H. by rewrite append_cons, (IH s r H).
Qed.

Lemma lazy_until_slash_app b rest :
  string_mem "/" b = false -> string_mem newline b = false ->
  lazy_until_slash (b ++ String "/" rest) = Some (b, rest).
Proof.
  induction b as [|c b IH].
  - intros _ _. rewrite append_nil. cbn [lazy_until_slash].
    by rewrite Ascii.eqb_refl.
  - rewrite append_cons. cbn [string_mem lazy_until_slash].
    intros Hs Hn. apply orb_false_elim in Hs as [Hs1 Hs2].
    apply orb_false_elim in Hn as [Hn1 Hn2].
    by rewrite Hs1, Hn1, (IH Hs2 Hn2).
Qed.

Lemma lazy_until_slash_inv s :
  forall b rest,
    lazy_until_slash s = Some (b, rest) ->
    s = (b ++ String "/" rest)%string
    /\ string_mem "/" b = false /\ string_mem newline b = false.
Proof.
  induction s as [|c s IH]; intros b rest; cbn [lazy_until_slash];
    [discriminate|].
  destruct (Ascii.eqb_spec c "/") as [->|Hs].
  - intros H. inversion H; subst. done.
  - destruct (Ascii.eqb c newline) eqn:Hn; [discriminate|].
    destruct (lazy_until_slash s) as [[g r]|]; [|discriminate].
    intros H. inversion H; subst. destruct (IH g rest eq_refl) as (-> & H1 & H2).
    rewrite append_cons. cbn [string_mem]. rewrite H1, H2, Hn.
    apply Ascii.eqb_neq in Hs. by rewrite Hs.
Qed.

Lemma greedy_line_id p : string_mem newline p = false -> greedy_line p = p.
Proof.
  induction p as [|c p IH]; cbn [string_mem greedy_line]; [done|].
  intros H. apply orb_false_elim in H as [H1 H2]. by rewrite H1, (IH H2).
Qed.

Lemma greedy_line_no_newline s : string_mem newline (greedy_line s) = false.
Proof.
  induction s as [|c s IH]; cbn [greedy_line]; [done|].
  destruct (Ascii.eqb c newline) eqn:E; [done|].
  cbn [string_mem]. by rewrite E, IH.
Qed.

Lemma match_file_type_no_newline p :
  forall seen,
    string_mem newline p = false ->
    match_file_type seen p = seen || string_mem "." p.
Proof.
  induction p as [|c p IH]; intros seen; cbn [string_mem match_file_type].
  - intros _. by rewrite orb_false_r.
  - intros H. apply orb_false_elim in H as [H1 H2].
    rewrite H1, (IH _ H2). by rewrite orb_assoc.
Qed.

(** What [match_gs] accepts, and what it then gives. *)
Lemma match_gs_gs_uri b rest :
  string_mem "/" b = false -> string_mem newline b = false ->
  match_gs (gs_uri b rest) = Some (b, greedy_line rest).
Proof.
  intros Hs Hn. unfold match_gs, gs_uri.
  rewrite strip_prefix_app.
  change (b ++ "/" ++ rest)%string with (b ++ String "/" rest)%string.
  by rewrite lazy_until_slash_app.
Qed.

Lemma match_gs_inv s b p :
  match_gs s = Some (b, p) ->
  exists rest,
    s = gs_uri b rest /\ p = greedy_line rest
    /\ string_mem "/" b = false /\ string_mem newline b = false.
Proof.
  unfold match_gs.
  destruct (strip_prefix "gs://" s) as [r|] eqn:E; [|discriminate].
  apply strip_prefix_inv in E.
  destruct (lazy_until_slash r) as [[g rest]|] eqn:El; [|discriminate].
  intros H. inversion H; subst b p.
  destruct (lazy_until_slash_inv r g rest El) as (-> & H1 & H2).
  exists rest. subst s. done.
Qed.

Lemma parse_all_inl {A} (parse : list Byte.byte -> option A) bytes :
  forall x, parse_all parse bytes = inl x -> x = DecodeError.
Proof.
  induction bytes as [|b bytes IH]; intros x; simpl; [discriminate|].
  destruct (parse b); [|intros H; by inversion H].
  destruct (parse_all parse bytes) as [e|xs]; [|discriminate].
  intros H. inversion H; subst. by apply IH.
Qed.

Lemma parse_all_inr {A} (parse : list Byte.byte -> option A) bytes :
  forall xs, parse_all parse bytes = inr xs -> map parse bytes = map Some xs.
Proof.
  induction bytes as [|b bytes IH]; intros xs; simpl.
  - intros H. by inversion H.
  - destruct (parse b) as [x|]; [|discriminate].
    destruct (parse_all parse bytes) as [e|ys]; [discriminate|].
    intros H. inversion H; subst. simpl. by rewrite (IH ys).
Qed.

(** X24.  [_get_base_docproto] raises the format error exactly on the
    addresses that are not [gs://], a bucket name without slash or
    newline, a slash, and anything after: no bucket separator, another
    scheme, or characters before [gs://] are all refused, whatever the
    storage holds. *)
Theorem format_error_iff_not_gs_uri
    (list_blobs : string -> string -> list storage.Blob)
    (Document_FromString : list Byte.byte -> option documentai.Document)
    (Page_FromString : list Byte.byte -> option string)
    (gcs_prefix : string) :
  _get_base_docproto list_blobs Document_FromString Page_FromString gcs_prefix
  = inl (LoadValueError "gcs_prefix does not match accepted format")
  <-> ~ exists bucket rest,
          gcs_prefix = gs_uri bucket rest
          /\ string_mem "/" bucket = false
          /\ string_mem newline bucket = false.
Proof.
  unfold _get_base_docproto. split.
  - intros H (b & rest & -> & Hs & Hn).
    rewrite (match_gs_gs_uri b rest Hs Hn) in H.
    destruct (match_file_type false (greedy_line rest)); [discriminate|].
    destruct (_get_base_and_revision_bytes _ _ _ _) as [x|sb] eqn:Eb.
    + apply blob_loop_only_DecodeError in Eb. subst x. discriminate.
    + destruct (parse_all _ (base_doc sb)) as [x|bs] eqn:E1.
      { apply parse_all_inl in E1. subst x. discriminate. }
      destruct (parse_all _ (revisions_doc sb)) as [x|rs] eqn:E2;
        [|discriminate].
      apply parse_all_inl in E2. subst x. discriminate.
  - intros Hno. destruct (match_gs gcs_prefix) as [[b p]|] eqn:E; [|reflexivity].
    exfalso. apply Hno. destruct (match_gs_inv _ _ _ E) as (rest & -> & _ & Hs & Hn).
    by exists b, rest.
Qed.

(** X25.  A dot anywhere after the bucket makes [_get_base_docproto]
    raise the file-type error, be it in a folder name such as [v1.2] and
    not in a file name; a dot in the bucket name does not.  The storage
    plays no part. *)
Theorem prefix_with_dot_is_refused
    (list_blobs : string -> string -> list storage.Blob)
    (Document_FromString : list Byte.byte -> option documentai.Document)
    (Page_FromString : list Byte.byte -> option string)
    (bucket prefix : string) :
  string_mem "/" bucket = false ->
  string_mem newline bucket = false ->
  string_mem newline prefix = false ->
  (_get_base_docproto list_blobs Document_FromString Page_FromString
     (gs_uri bucket prefix)
   = inl (LoadValueError "gcs_prefix cannot contain file types")
   <-> string_mem "." prefix = true).
Proof.
  intros Hs Hn Hp. unfold _get_base_docproto.
  rewrite (match_gs_gs_uri bucket prefix Hs Hn), (greedy_line_id prefix Hp).
  rewrite (match_file_type_no_newline prefix false Hp). simpl.
  destruct (string_mem "." prefix); [done|]. split; [|discriminate].
  destruct (_get_base_and_revision_bytes _ _ _ _) as [x|sb] eqn:Eb.
  - apply blob_loop_only_DecodeError in Eb. subst x. discriminate.
  - destruct (parse_all _ (base_doc sb)) as [x|bs] eqn:E1.
    { apply parse_all_inl in E1. subst x. discriminate. }
    destruct (parse_all _ (revisions_doc sb)) as [x|rs] eqn:E2; [|discriminate].
    apply parse_all_inl in E2. subst x. discriminate.
Qed.

Lemma prefix_with_dot_is_refused_witness :
  _get_base_docproto (fun _ _ => []) (fun _ => None) (fun _ => None)
    (gs_uri "my.bucket" "batch/v1.2/0")
  = inl (LoadValueError "gcs_prefix cannot contain file types").
Proof.
  apply (prefix_with_dot_is_refused (fun _ _ => []) (fun _ => None)
           (fun _ => None) "my.bucket" "batch/v1.2/0");
    reflexivity.
Defined.

(** X26.  For an address [gs://bucket/prefix] that passes the two checks,
    the storage is asked for the listing of that bucket under that
    prefix and for nothing else: two storages that agree on this one
    listing give the same shards or the same error. *)
Theorem loading_reads_one_listing
    (list_blobs list_blobs' : string -> string -> list storage.Blob)
    (Document_FromString : list Byte.byte -> option documentai.Document)
    (Page_FromString : list Byte.byte -> option string)
    (bucket prefix : string) :
  string_mem "/" bucket = false ->
  string_mem newline bucket = false ->
  string_mem newline prefix = false ->
  list_blobs bucket prefix = list_blobs' bucket prefix ->
  _get_base_docproto list_blobs Document_FromString Page_FromString
    (gs_uri bucket prefix)
  = _get_base_docproto list_blobs' Document_FromString Page_FromString
      (gs_uri bucket prefix).
Proof.
  intros Hs Hn Hp Hl. unfold _get_base_docproto.
  rewrite (match_gs_gs_uri bucket prefix Hs Hn), (greedy_line_id prefix Hp).
  unfold _get_base_and_revision_bytes. by rewrite Hl.
Qed.

Lemma loading_reads_one_listing_witness :
  let listing (b p : string) :=
    if String.eqb b "bucket"
    then [storage.mkBlob "out/rev_1.dp.bp" [Byte.x03]] else [] in
  let listing' (b p : string) :=
    [storage.mkBlob "out/rev_1.dp.bp" [Byte.x03]] in
  _get_base_docproto listing (fun _ => None) (fun _ => None)
    (gs_uri "bucket" "out")
  = _get_base_docproto listing' (fun _ => None) (fun _ => None)
      (gs_uri "bucket" "out").
Proof.
  intros listing listing'.
  apply (loading_reads_one_listing listing listing' (fun _ => None)
           (fun _ => None) "bucket" "out");
    reflexivity.
Defined.

Lemma parse_all_base_shard
    (Page_FromString : list Byte.byte -> option string) (text : string) bytes :
  forall bs,
    parse_all (base_shard Page_FromString text) bytes = inr bs ->
    length bs = length bytes
    /\ Forall (fun d => documentai.text d = text
                        /\ length (documentai.pages d) = 1
                        /\ documentai.entities d = []
                        /\ documentai.revisions d = []) bs.
Proof.
  induction bytes as [|b bytes IH]; intros bs; simpl.
  - intros H. inversion H. split; [reflexivity|constructor].
  - unfold base_shard at 1.
    destruct (Page_FromString b) as [page|]; [|discriminate].
    destruct (parse_all _ bytes) as [e|ys]; [discriminate|].
    intros H. inversion H; subst. destruct (IH ys eq_refl) as [Hl Hf].
    split; [simpl; by rewrite Hl|]. constructor; [done|exact Hf].
Qed.

(** What [_get_base_docproto] returns, against the listing it read. *)
Lemma get_base_docproto_inr
    (list_blobs : string -> string -> list storage.Blob)
    (Document_FromString : list Byte.byte -> option documentai.Document)
    (Page_FromString : list Byte.byte -> option string)
    (gcs_prefix : string) (bs rs : list documentai.Document) :
  _get_base_docproto list_blobs Document_FromString Page_FromString gcs_prefix
  = inr (bs, rs) ->
  exists bucket prefix sb,
    match_gs gcs_prefix = Some (bucket, prefix)
    /\ _get_base_and_revision_bytes list_blobs Document_FromString
         bucket prefix = inr sb
    /\ length bs = length (List.filter is_pages_blob (list_blobs bucket prefix))
    /\ Forall (fun d => documentai.text d = sb_text sb
                        /\ length (documentai.pages d) = 1
                        /\ documentai.entities d = []
                        /\ documentai.revisions d = []) bs
    /\ map Some rs
       = map (fun blob => Document_FromString (storage.content blob))
           (List.filter is_rev_blob (list_blobs bucket prefix)).
Proof.
  unfold _get_base_docproto.
  destruct (match_gs gcs_prefix) as [[b p]|]; [|discriminate].
  destruct (match_file_type false p); [discriminate|].
  destruct (_get_base_and_revision_bytes _ _ b p) as [x|sb] eqn:Eb;
    [discriminate|].
  destruct (parse_all _ (base_doc sb)) as [x|bs'] eqn:E1; [discriminate|].
  destruct (parse_all _ (revisions_doc sb)) as [x|rs'] eqn:E2; [discriminate|].
  intros H. inversion H; subst bs' rs'.
  exists b, p, sb. split; [reflexivity|]. split; [exact Eb|].
  unfold _get_base_and_revision_bytes in Eb.
  destruct (blob_loop_inr Document_FromString _ _ _ Eb) as (Hb & Hr & _ & _).
  cbn [base_doc revisions_doc app] in Hb, Hr.
  destruct (parse_all_base_shard Page_FromString _ _ _ E1) as [Hl Hf].
  split; [by rewrite Hl, Hb, length_map|]. split; [exact Hf|].
  apply parse_all_inr in E2. by rewrite <- E2, Hr, map_map.
Qed.

(** X27.  When [_get_base_docproto] returns, there is one base shard per
    page blob of the listing, each with exactly one page, no entity, no
    revision entry and the text of the document blob, the same for all;
    and the revision documents are the decoded revision blobs, in the
    order of the listing. *)
Theorem base_shards_have_one_page_each
    (list_blobs : string -> string -> list storage.Blob)
    (Document_FromString : list Byte.byte -> option documentai.Document)
    (Page_FromString : list Byte.byte -> option string)
    (gcs_prefix : string) (bs rs : list documentai.Document) :
  _get_base_docproto list_blobs Document_FromString Page_FromString gcs_prefix
  = inr (bs, rs) ->
  exists bucket prefix text,
    match_gs gcs_prefix = Some (bucket, prefix)
    /\ length bs = length (List.filter is_pages_blob (list_blobs bucket prefix))
    /\ Forall (fun d => documentai.text d = text
                        /\ length (documentai.pages d) = 1
                        /\ documentai.entities d = []
                        /\ documentai.revisions d = []) bs
    /\ map Some rs
       = map (fun blob => Document_FromString (storage.content blob))
           (List.filter is_rev_blob (list_blobs bucket prefix)).
Proof.
  intros H.
  destruct (get_base_docproto_inr _ _ _ _ _ _ H)
    as (b & p & sb & Hm & _ & Hl & Hf & Hr).
  by exists b, p, (sb_text sb).
Qed.

Lemma base_shards_have_one_page_each_witness :
  let listing (b p : string) :=
    [storage.mkBlob "out/pages_1.dp.bp" [Byte.x02];
     storage.mkBlob "out/doc.dp.bp" [Byte.x01];
     storage.mkBlob "out/rev_1.dp.bp" [Byte.x03];
     storage.mkBlob "out/pages_2.dp.bp" [Byte.x05]] in
  let decode (b : list Byte.byte) :=
    Some (documentai.mkDocument "text" [] [] [documentai.mkRevision "r1" []]) in
  let page (b : list Byte.byte) := Some "page" in
  exists bs rs,
    _get_base_docproto listing decode page (gs_uri "bucket" "out") = inr (bs, rs)
    /\ length bs = 2
    /\ Forall (fun d => length (documentai.pages d) = 1) bs.
Proof.
  intros listing decode page. eexists _, _. split; [vm_compute; reflexivity|].
  destruct (base_shards_have_one_page_each listing decode page
              (gs_uri "bucket" "out") _ _ eq_refl)
    as (b & p & t & Hm & Hl & Hf & _).
  vm_compute in Hm. inversion Hm; subst b p. split; [exact Hl|].
  eapply Forall_impl; [exact Hf|]. intros d (_ & Hp & _). exact Hp.
Defined.

(** ** The call *)

(** X28.  A call of the classmethod that fails while the shards are
    loaded leaves the store as it was: no object is allocated.  A call
    that returns has built, after a base snapshot that holds one shard
    per page blob, one snapshot per revision blob of the listing, linked
    as a chain, and returns the last one. *)
Theorem call_builds_one_snapshot_per_revision_blob
    (list_blobs : string -> string -> list storage.Blob)
    (Document_FromString : list Byte.byte -> option documentai.Document)
    (Page_FromString : list Byte.byte -> option string)
    (py_int : string -> option Z) (gcs_prefix : string) (s : store) :
  let r := from_gcs_prefix_with_revisions_call list_blobs Document_FromString
             Page_FromString py_int gcs_prefix s in
  (forall x, fst r = inl x -> snd r = s)
  /\ (forall tl, fst r = inr (Ret tl) ->
      exists bucket prefix base,
        match_gs gcs_prefix = Some (bucket, prefix)
        /\ tl = length (heap s)
                + length (List.filter is_rev_blob (list_blobs bucket prefix))
        /\ chain (snd r) (length (heap s)) (S tl) = true
        /\ heap (snd r) !! length (heap s) = Some base
        /\ length (document.shards (DocumentWithRevisions.document base))
           = length (List.filter is_pages_blob (list_blobs bucket prefix))).
Proof.
  intros r. subst r. unfold from_gcs_prefix_with_revisions_call.
  destruct (_get_base_docproto list_blobs Document_FromString Page_FromString
              gcs_prefix) as [x|[bs rs]] eqn:E.
  - split; [reflexivity | discriminate].
  - destruct (get_base_docproto_inr _ _ _ _ _ _ E)
      as (b & p & sb & Hm & _ & Hl & _ & Hr).
    pose proof (from_gcs_prefix_with_revisions_spec py_int gcs_prefix bs rs s)
      as [_ Hfacts].
    pose proof (from_gcs_prefix_with_revisions_chain py_int gcs_prefix bs rs s)
      as Hchain.
    destruct (from_gcs_prefix_with_revisions py_int gcs_prefix bs rs s)
      as [o s'].
    cbn [fst snd] in *. split; [discriminate|].
    intros tl H. inversion H; subst o.
    destruct (Hfacts tl eq_refl) as (Htl & _ & _ & Hbase & _).
    eexists b, p, _. split; [exact Hm|]. split.
    { rewrite Htl. f_equal.
      apply (f_equal (@length _)) in Hr. by rewrite !length_map in Hr. }
    split; [by apply Hchain|]. split; [exact Hbase|]. exact Hl.
Qed.
